(** * slow-trader: risk-gated order lifecycle, indicators and demo exchange

    A shallow embedding of the Python package [slow_trader] and the
    properties its specification states about it.

    Numbers.  Python [float] values are modelled by exact rationals [Q]:
    every arithmetic operation of the source is the corresponding exact
    operation, comparisons are the boolean comparisons of [Q], and the two
    places where the source relies on IEEE special values (division by a
    zero average in the RSI, not-a-number for undefined indicator values)
    are modelled by the explicit type [fval] below.  Rounding error of
    binary64 is therefore outside the model.  Python [int] is [Z].

    Time.  [date.today()] and [datetime.now()] are inputs: every operation
    that reads the clock takes the reading as an argument ([today] is a day
    ordinal, [now] a number of microseconds).  All readings made inside one
    call are identified with the one argument.

    Exceptions.  A call that may raise returns a [result]. *)

From Stdlib Require Import QArith Qabs Lqa ZArith Lia.
From Stdlib Require Import String Ascii DecimalString List Bool.
Import ListNotations.
Open Scope string_scope.
Open Scope Q_scope.

(** ** Python values *)

Inductive exn : Type :=
| InvalidOperation            (* decimal.InvalidOperation *)
| ZeroDivisionError
| ExchangeError (msg : string) (* any error raised by an exchange call *)
| OtherError (msg : string).

Inductive result (A : Type) : Type :=
| Ok (a : A)
| Raise (e : exn).
Arguments Ok {A} a.
Arguments Raise {A} e.

Definition Qleb (x y : Q) : bool := Qle_bool x y.
Definition Qltb (x y : Q) : bool := negb (Qle_bool y x).
Definition Qeqb (x y : Q) : bool := Qeq_bool x y.

(** [bool(x)] of a float: everything but zero is true. *)
Definition truthy (x : Q) : bool := negb (Qeqb x 0).

(** Python's [min(a, b)] and [max(a, b)]: the first argument wins a tie. *)
Definition pymin (a b : Q) : Q := if Qltb b a then b else a.
Definition pymax (a b : Q) : Q := if Qltb a b then b else a.

(** [a / b] on Python floats raises on a zero divisor. *)
Definition pydiv (a b : Q) : result Q :=
  if Qeqb b 0 then Raise ZeroDivisionError else Ok (a / b).

(** [a or b] on floats. *)
Definition py_or (a b : Q) : Q := if truthy a then a else b.

(** [str.lower()], on the ASCII letters. *)
Definition lower_ascii (c : ascii) : ascii :=
  let n := nat_of_ascii c in
  if andb (Nat.leb 65 n) (Nat.leb n 90) then ascii_of_nat (n + 32) else c.

Fixpoint lower (s : string) : string :=
  match s with
  | EmptyString => EmptyString
  | String c r => String (lower_ascii c) (lower r)
  end.

(** [d.get(key, default)] on a dictionary with float values. *)
Fixpoint dict_get (d : list (string * Q)) (key : string) (default : Q) : Q :=
  match d with
  | [] => default
  | (k, v) :: r => if String.eqb k key then v else dict_get r key default
  end.

Definition datetime := Z.
Definition date := Z.

(** ** utils/helpers.py *)

Module Helpers.

(** The precision of the default [decimal] context. *)
Definition decimal_prec : Z := 28.

(** [Decimal(str(quantity)).quantize(Decimal(10) ** -precision, ROUND_DOWN)]
    truncates towards zero at [precision] decimals; [quantize] raises
    [InvalidOperation] when the coefficient of the result would need more
    digits than the context precision. *)
Definition round_quantity (quantity : Q) (precision : nat) : result Q :=
  let factor := (10 ^ Z.of_nat precision)%Z in
  let coeff := Z.quot (Qnum quantity * factor) (Zpos (Qden quantity)) in
  if (10 ^ decimal_prec <=? Z.abs coeff)%Z
  then Raise InvalidOperation
  else Ok (inject_Z coeff / inject_Z factor).

Definition calculate_position_size
    (portfolio_value risk_per_trade entry_price stop_loss_price
     max_position_pct : Q) : result Q :=
  if orb (Qleb entry_price 0) (Qleb stop_loss_price 0) then Ok 0
  else
    let risk_per_share := Qabs (entry_price - stop_loss_price) in
    if Qeqb risk_per_share 0 then Ok 0
    else
      let risk_amount := portfolio_value * risk_per_trade in
      match pydiv risk_amount risk_per_share with
      | Raise e => Raise e
      | Ok position_size =>
          let max_position_value := portfolio_value * max_position_pct in
          match pydiv max_position_value entry_price with
          | Raise e => Raise e
          | Ok max_position_size => Ok (pymin position_size max_position_size)
          end
      end.

End Helpers.

(** ** exchanges/base.py *)

Module OrderType.
Inductive t := MARKET | LIMIT | STOP_LOSS | STOP_LIMIT | TAKE_PROFIT.

Definition eqb (a b : t) : bool :=
  match a, b with
  | MARKET, MARKET | LIMIT, LIMIT | STOP_LOSS, STOP_LOSS
  | STOP_LIMIT, STOP_LIMIT | TAKE_PROFIT, TAKE_PROFIT => true
  | _, _ => false
  end.
End OrderType.

Module OrderSide.
Inductive t := BUY | SELL.

Definition eqb (a b : t) : bool :=
  match a, b with
  | BUY, BUY | SELL, SELL => true
  | _, _ => false
  end.

(** [side.value] *)
Definition value (s : t) : string :=
  match s with BUY => "buy" | SELL => "sell" end.
End OrderSide.

Module OrderStatus.
Inductive t :=
  PENDING | OPEN | FILLED | PARTIALLY_FILLED | CANCELLED | REJECTED.

Definition eqb (a b : t) : bool :=
  match a, b with
  | PENDING, PENDING | OPEN, OPEN | FILLED, FILLED
  | PARTIALLY_FILLED, PARTIALLY_FILLED | CANCELLED, CANCELLED
  | REJECTED, REJECTED => true
  | _, _ => false
  end.
End OrderStatus.

(** The opposite side, [SELL if side == BUY else BUY]. *)
Definition opposite (s : OrderSide.t) : OrderSide.t :=
  if OrderSide.eqb s OrderSide.BUY then OrderSide.SELL else OrderSide.BUY.

(** A value of the [extra] dictionary of an order. *)
Inductive extra_value := XStr (s : string) | XNum (q : Q).

(** The [created_at]/[updated_at] stamps of the dataclasses below are left
    out: no modelled operation reads them. *)
Record Order := mkOrder {
  o_id : string;
  o_symbol : string;
  o_side : OrderSide.t;
  o_order_type : OrderType.t;
  o_quantity : Q;
  o_price : option Q;
  o_stop_price : option Q;
  o_status : OrderStatus.t;
  o_filled_quantity : Q;
  o_filled_price : Q;
  o_extra : list (string * extra_value)
}.

Record Position := mkPosition {
  p_symbol : string;
  p_side : OrderSide.t;
  p_quantity : Q;
  p_entry_price : Q;
  p_current_price : Q;
  p_unrealized_pnl : Q;
  p_realized_pnl : Q
}.

Record Balance := mkBalance {
  b_currency : string;
  b_total : Q;
  b_available : Q;
  b_locked : Q
}.

(** The capability surface of [Exchange] that the order manager calls.
    Every call runs on the exchange's own state and may raise. *)
Class Exchange (E : Type) := {
  get_ticker : string -> E -> result (list (string * Q)) * E;
  get_positions : option string -> E -> result (list Position) * E;
  place_order :
    string -> OrderSide.t -> OrderType.t -> Q -> option Q -> option Q ->
    E -> result Order * E;
  cancel_order : string -> string -> E -> result bool * E;
  get_order : string -> string -> E -> result (option Order) * E
}.

(** ** strategies/base.py *)

Module Signal.
Inductive t := BUY | SELL | HOLD | CLOSE_LONG | CLOSE_SHORT.

Definition eqb (a b : t) : bool :=
  match a, b with
  | BUY, BUY | SELL, SELL | HOLD, HOLD
  | CLOSE_LONG, CLOSE_LONG | CLOSE_SHORT, CLOSE_SHORT => true
  | _, _ => false
  end.
End Signal.

(** An indicator value: a float that may be not-a-number or infinite. *)
Inductive fval := Fin (q : Q) | PInf | NInf | NaN.

(** Modelled from the spec: the dataclass [TradeSignal] of
    strategies/base.py, which is not among the sources.  The fields are
    the ones the spec's data model lists and the callers pass by keyword
    ([signal], [symbol], [strategy], [strength], [price], [stop_loss],
    [take_profit], [reason], [indicators]). *)
Record TradeSignal := mkTradeSignal {
  ts_signal : Signal.t;
  ts_symbol : string;
  ts_strategy : string;
  ts_strength : Q;
  ts_price : Q;
  ts_stop_loss : option Q;
  ts_take_profit : option Q;
  ts_reason : string;
  ts_indicators : list (string * option fval)
}.

(** Modelled from the spec: [TradeSignal.is_actionable], true for
    Buy/Sell/CloseLong/CloseShort and false for Hold. *)
Definition is_actionable (s : TradeSignal) : bool :=
  negb (Signal.eqb (ts_signal s) Signal.HOLD).

(** ** risk.py *)

Record RiskLimits := mkRiskLimits {
  max_position_size : Q;
  max_daily_loss : Q;
  max_drawdown : Q;
  stop_loss_pct : Q;
  take_profit_pct : Q;
  max_open_positions : Z;
  min_trade_interval_minutes : Z;
  max_trades_per_day : Z
}.

(** [RiskLimits()] *)
Definition default_limits : RiskLimits :=
  mkRiskLimits 0.1 0.05 0.15 0.02 0.05 5 30 10.

Record TradeRecord := mkTradeRecord {
  tr_symbol : string;
  tr_side : string;
  tr_quantity : Q;
  tr_entry_price : Q;
  tr_exit_price : option Q;
  tr_pnl : Q;
  tr_timestamp : datetime
}.

(** The attributes of a [RiskManager] instance. *)
Record RiskManager := mkRiskManager {
  limits : RiskLimits;
  daily_pnl : Q;
  daily_trades : Z;
  last_trade_time : option datetime;
  current_date : date;
  peak_portfolio_value : Q;
  trade_history : list TradeRecord
}.

(** [RiskManager(limits)], constructed on day [today]. *)
Definition new_risk_manager (l : option RiskLimits) (today : date)
  : RiskManager :=
  mkRiskManager
    (match l with Some x => x | None => default_limits end)
    0 0 None today 0 [].

(** Methods are computations on [self]: they return a value and the
    instance they leave behind. *)
Definition RM (A : Type) : Type := RiskManager -> A * RiskManager.

Definition ret {A} (a : A) : RM A := fun self => (a, self).
Definition bind {A B} (m : RM A) (k : A -> RM B) : RM B :=
  fun self => let (a, self') := m self in k a self'.
Definition get {A} (f : RiskManager -> A) : RM A := fun self => (f self, self).
Definition modify (f : RiskManager -> RiskManager) : RM unit :=
  fun self => (tt, f self).

Declare Scope rm_scope.
Delimit Scope rm_scope with rm.
Notation "x <- m ;; k" := (bind m (fun x => k))
  (at level 61, m at next level, right associativity) : rm_scope.
Notation "m ;;; k" := (bind m (fun _ => k))
  (at level 61, right associativity) : rm_scope.

Definition set_daily_pnl (v : Q) (s : RiskManager) : RiskManager :=
  mkRiskManager (limits s) v (daily_trades s) (last_trade_time s)
    (current_date s) (peak_portfolio_value s) (trade_history s).
Definition set_daily_trades (v : Z) (s : RiskManager) : RiskManager :=
  mkRiskManager (limits s) (daily_pnl s) v (last_trade_time s)
    (current_date s) (peak_portfolio_value s) (trade_history s).
Definition set_last_trade_time (v : option datetime) (s : RiskManager)
  : RiskManager :=
  mkRiskManager (limits s) (daily_pnl s) (daily_trades s) v
    (current_date s) (peak_portfolio_value s) (trade_history s).
Definition set_current_date (v : date) (s : RiskManager) : RiskManager :=
  mkRiskManager (limits s) (daily_pnl s) (daily_trades s) (last_trade_time s)
    v (peak_portfolio_value s) (trade_history s).
Definition set_peak_portfolio_value (v : Q) (s : RiskManager) : RiskManager :=
  mkRiskManager (limits s) (daily_pnl s) (daily_trades s) (last_trade_time s)
    (current_date s) v (trade_history s).
Definition set_trade_history (v : list TradeRecord) (s : RiskManager)
  : RiskManager :=
  mkRiskManager (limits s) (daily_pnl s) (daily_trades s) (last_trade_time s)
    (current_date s) (peak_portfolio_value s) v.

Section RiskManagerMethods.
Local Open Scope rm_scope.

Definition reset_daily (today : date) : RM unit :=
  cur <- get current_date ;;
  if negb (Z.eqb today cur) then
    modify (set_daily_pnl 0) ;;;
    modify (set_daily_trades 0%Z) ;;;
    modify (set_current_date today)
  else ret tt.

Definition update_portfolio_peak (current_value : Q) : RM unit :=
  peak <- get peak_portfolio_value ;;
  if Qltb peak current_value
  then modify (set_peak_portfolio_value current_value)
  else ret tt.

(** The division is reached with a positive peak only. *)
Definition check_drawdown (current_value : Q) : RM bool :=
  peak <- get peak_portfolio_value ;;
  if Qleb peak 0 then
    modify (set_peak_portfolio_value current_value) ;;;
    ret true
  else
    let drawdown := (peak - current_value) / peak in
    l <- get limits ;;
    if Qltb (max_drawdown l) drawdown then ret false else ret true.

Definition check_daily_loss : RM bool :=
  pnl <- get daily_pnl ;;
  l <- get limits ;;
  peak <- get peak_portfolio_value ;;
  if Qltb pnl (- max_daily_loss l * peak) then ret false else ret true.

(** [(datetime.now() - last).total_seconds() / 60], with time in
    microseconds. *)
Definition elapsed_minutes (now last : datetime) : Q :=
  (inject_Z (now - last) / 1000000) / 60.

Definition check_trade_frequency (now : datetime) : RM bool :=
  last <- get last_trade_time ;;
  match last with
  | None => ret true
  | Some t =>
      l <- get limits ;;
      if Qltb (elapsed_minutes now t) (inject_Z (min_trade_interval_minutes l))
      then ret false else ret true
  end.

Definition check_daily_trade_count : RM bool :=
  n <- get daily_trades ;;
  l <- get limits ;;
  if (max_trades_per_day l <=? n)%Z then ret false else ret true.

Definition check_position_count (current_positions : Z) : RM bool :=
  l <- get limits ;;
  if (max_open_positions l <=? current_positions)%Z
  then ret false else ret true.

Definition can_trade (today : date) (now : datetime)
    (portfolio_value : Q) (current_positions : Z) : RM (bool * string) :=
  reset_daily today ;;;
  update_portfolio_peak portfolio_value ;;;
  ok <- check_drawdown portfolio_value ;;
  if negb ok then ret (false, "Drawdown limit exceeded") else
  ok <- check_daily_loss ;;
  if negb ok then ret (false, "Daily loss limit exceeded") else
  ok <- check_trade_frequency now ;;
  if negb ok then ret (false, "Trade frequency limit") else
  ok <- check_daily_trade_count ;;
  if negb ok then ret (false, "Daily trade count exceeded") else
  ok <- check_position_count current_positions ;;
  if negb ok then ret (false, "Max positions reached") else
  ret (true, "OK").

(** The stop the sizing works with: the signal's own stop when it is
    truthy, else one derived from [stop_loss_pct] on the side of the
    signal. *)
Definition sizing_stop_loss (l : RiskLimits) (signal : TradeSignal)
    (current_price : Q) : Q :=
  match ts_stop_loss signal with
  | Some s =>
      if truthy s then s
      else if Signal.eqb (ts_signal signal) Signal.BUY
           then current_price * (1 - stop_loss_pct l)
           else current_price * (1 + stop_loss_pct l)
  | None =>
      if Signal.eqb (ts_signal signal) Signal.BUY
      then current_price * (1 - stop_loss_pct l)
      else current_price * (1 + stop_loss_pct l)
  end.

(** The size before the final rounding. *)
Definition unrounded_position_size (l : RiskLimits) (signal : TradeSignal)
    (portfolio_value current_price : Q) : result Q :=
  let stop_loss := sizing_stop_loss l signal current_price in
  let risk_per_trade := 0.01 in
  match
    Helpers.calculate_position_size portfolio_value risk_per_trade
      current_price stop_loss (max_position_size l)
  with
  | Raise e => Raise e
  | Ok position_size => Ok (position_size * pymax (ts_strength signal) 0.5)
  end.

Definition calculate_position_size (signal : TradeSignal)
    (portfolio_value current_price : Q) : RM (result Q) :=
  l <- get limits ;;
  ret (match
         unrounded_position_size l signal portfolio_value current_price
       with
       | Raise e => Raise e
       | Ok position_size => Helpers.round_quantity position_size 8
       end).

Definition calculate_stop_loss (entry_price : Q) (side : OrderSide.t)
    (atr : option Q) : RM Q :=
  l <- get limits ;;
  let stop_distance :=
    match atr with
    | Some a => if truthy a then a * 2 else entry_price * stop_loss_pct l
    | None => entry_price * stop_loss_pct l
    end in
  if OrderSide.eqb side OrderSide.BUY
  then ret (entry_price - stop_distance)
  else ret (entry_price + stop_distance).

Definition calculate_take_profit (entry_price : Q) (side : OrderSide.t)
    (risk_reward : Q) (atr : option Q) : RM Q :=
  l <- get limits ;;
  let take_profit_distance :=
    match atr with
    | Some a =>
        if truthy a then
          let stop_distance := a * 2 in stop_distance * risk_reward
        else entry_price * take_profit_pct l
    | None => entry_price * take_profit_pct l
    end in
  if OrderSide.eqb side OrderSide.BUY
  then ret (entry_price + take_profit_distance)
  else ret (entry_price - take_profit_distance).

(** The default of the keyword argument [risk_reward]. *)
Definition default_risk_reward : Q := 2.

Definition record_trade (now : datetime) (symbol side : string)
    (quantity entry_price : Q) (exit_price : option Q) : RM unit :=
  pnl <-
    (match exit_price with
     | Some x =>
         if truthy x then
           let pnl :=
             if String.eqb (lower side) "buy"
             then (x - entry_price) * quantity
             else (entry_price - x) * quantity in
           d <- get daily_pnl ;;
           modify (set_daily_pnl (d + pnl)) ;;;
           ret pnl
         else ret 0
     | None => ret 0
     end) ;;
  h <- get trade_history ;;
  modify (set_trade_history
            (h ++ [mkTradeRecord symbol side quantity entry_price
                     exit_price pnl now])) ;;;
  n <- get daily_trades ;;
  modify (set_daily_trades (n + 1)%Z) ;;;
  modify (set_last_trade_time (Some now)).

Record Stats := mkStats {
  total_trades : Z;
  winning_trades : Z;
  losing_trades : Z;
  win_rate : Q;
  total_pnl : Q;
  st_daily_pnl : Q;
  st_daily_trades : Z;
  peak_portfolio : Q
}.

Definition get_stats : RM Stats :=
  h <- get trade_history ;;
  let total := Z.of_nat (length h) in
  let winning :=
    Z.of_nat (length (filter (fun t => Qltb 0 (tr_pnl t)) h)) in
  let pnl_sum := fold_left (fun acc t => acc + tr_pnl t) h 0 in
  d <- get daily_pnl ;;
  n <- get daily_trades ;;
  p <- get peak_portfolio_value ;;
  ret (mkStats total winning (total - winning)
         (if (0 <? total)%Z then inject_Z winning / inject_Z total else 0)
         pnl_sum d n p).

End RiskManagerMethods.

(** ** IEEE special values

    Arithmetic on [fval] follows binary64 on the special values and is
    exact on the finite ones.  There is no signed zero: a zero divisor
    counts as [+0.0], which is the only zero the modelled code divides
    by (averages of non-negative terms). *)

Definition fneg (a : fval) : fval :=
  match a with
  | Fin x => Fin (- x)
  | PInf => NInf
  | NInf => PInf
  | NaN => NaN
  end.

Definition fadd (a b : fval) : fval :=
  match a, b with
  | NaN, _ | _, NaN => NaN
  | Fin x, Fin y => Fin (x + y)
  | PInf, NInf | NInf, PInf => NaN
  | PInf, _ | _, PInf => PInf
  | NInf, _ | _, NInf => NInf
  end.

Definition fsub (a b : fval) : fval := fadd a (fneg b).

Definition fmul (a b : fval) : fval :=
  match a, b with
  | NaN, _ | _, NaN => NaN
  | Fin x, Fin y => Fin (x * y)
  | Fin x, PInf | PInf, Fin x =>
      if Qeqb x 0 then NaN else if Qltb 0 x then PInf else NInf
  | Fin x, NInf | NInf, Fin x =>
      if Qeqb x 0 then NaN else if Qltb 0 x then NInf else PInf
  | PInf, PInf | NInf, NInf => PInf
  | PInf, NInf | NInf, PInf => NInf
  end.

Definition fdiv (a b : fval) : fval :=
  match a, b with
  | NaN, _ | _, NaN => NaN
  | Fin x, Fin y =>
      if Qeqb y 0 then
        if Qeqb x 0 then NaN else if Qltb 0 x then PInf else NInf
      else Fin (x / y)
  | Fin _, PInf | Fin _, NInf => Fin 0
  | PInf, Fin y => if Qltb y 0 then NInf else PInf
  | NInf, Fin y => if Qltb y 0 then PInf else NInf
  | _, _ => NaN
  end.

(** [a < b]; false as soon as one side is not-a-number. *)
Definition flt (a b : fval) : bool :=
  match a, b with
  | NaN, _ | _, NaN => false
  | Fin x, Fin y => Qltb x y
  | NInf, NInf | PInf, _ => false
  | NInf, _ => true
  | Fin _, PInf => true
  | Fin _, NInf => false
  end.

Definition fgt (a b : fval) : bool := flt b a.

(** [a <= b] *)
Definition fle (a b : fval) : bool :=
  match a, b with
  | NaN, _ | _, NaN => false
  | Fin x, Fin y => Qleb x y
  | NInf, _ | _, PInf => true
  | _, _ => false
  end.

Definition fge (a b : fval) : bool := fle b a.

(** Python's [min(a, b)] on floats. *)
Definition fmin (a b : fval) : fval := if flt b a then b else a.

(** ** indicators/base.py and indicators/momentum.py *)

(** A row of the OHLCV frame. *)
Record Candle := mkCandle {
  c_timestamp : datetime;
  c_open : Q;
  c_high : Q;
  c_low : Q;
  c_close : Q;
  c_volume : Q
}.

(** A data frame with the five price columns. *)
Definition DataFrame := list Candle.

(** [ensure_series(data, "close")] *)
Definition ensure_series (data : DataFrame) : list Q := map c_close data.

Record IndicatorResult := mkIndicatorResult {
  ir_name : string;
  ir_value : fval;
  ir_signal : option string;
  ir_strength : fval
}.

(** [Indicator.validate_data]: the frame has its [close] column and at
    least [min_periods] rows. *)
Definition validate_data (data : DataFrame) (min_periods : nat) : bool :=
  negb (Nat.ltb (length data) min_periods).

Module PandasSeries.

(** [s.iloc[-1]] of a non-empty series. *)
Definition iloc_last (s : list fval) : fval := last s NaN.

(** [s.iloc[i]] *)
Definition iloc (s : list fval) (i : nat) : fval := nth i s NaN.

(** [s.iloc[i] = v] *)
Fixpoint iloc_set (s : list fval) (i : nat) (v : fval) : list fval :=
  match s, i with
  | [], _ => []
  | _ :: r, O => v :: r
  | x :: r, S j => x :: iloc_set r j v
  end.

Fixpoint diff_from (prev : Q) (s : list Q) : list fval :=
  match s with
  | [] => []
  | x :: r => Fin (x - prev) :: diff_from x r
  end.

(** [s.diff()]: the first entry has no predecessor. *)
Definition diff (s : list Q) : list fval :=
  match s with
  | [] => []
  | x :: r => NaN :: diff_from x r
  end.

(** [s.where(cond, other)], with the condition given on the entries of
    a second series of the same index. *)
Fixpoint where_ (s : list fval) (cond : list bool) (other : fval)
  : list fval :=
  match s, cond with
  | x :: r, c :: cr => (if c then x else other) :: where_ r cr other
  | _, _ => []
  end.

Definition fsum (s : list fval) : fval := fold_left fadd s (Fin 0).

(** [s.rolling(window=w).mean()]: undefined until [w] entries exist. *)
Definition rolling_mean_at (w : nat) (s : list fval) (i : nat) : fval :=
  if orb (Nat.eqb w 0) (Nat.ltb (S i) w) then NaN
  else fdiv (fsum (firstn w (skipn (S i - w) s))) (Fin (inject_Z (Z.of_nat w))).

Definition rolling_mean (w : nat) (s : list fval) : list fval :=
  map (rolling_mean_at w s) (seq 0 (length s)).

(** Element-wise operations of two series of the same index. *)
Fixpoint zip_with (f : fval -> fval -> fval) (a b : list fval) : list fval :=
  match a, b with
  | x :: r, y :: s => f x y :: zip_with f r s
  | _, _ => []
  end.

End PandasSeries.

Module RSI.
Import PandasSeries.

Record t := mk {
  period : nat;
  overbought : Q;
  oversold : Q
}.

(** [RSI()] *)
Definition default : t := mk 14 70 30.

(** [f"RSI_{period}"] *)
Definition name (self : t) : string :=
  "RSI_" ++ NilEmpty.string_of_uint (Nat.to_uint (period self)).

(** [(prev * (period - 1) + cur) / period] *)
Definition smooth (period : nat) (prev cur : fval) : fval :=
  let p := Fin (inject_Z (Z.of_nat period)) in
  let p1 := Fin (inject_Z (Z.of_nat period - 1)) in
  fdiv (fadd (fmul prev p1) cur) p.

(** One round of the smoothing loop, at index [i].  The loop starts at
    [period], so [i - 1] is an index of the series for every period of at
    least 1; with period 0 the averages are undefined throughout and the
    entry read in the first round is not-a-number whichever it is. *)
Definition wilder_step (period : nat) (src : list fval) (avg : list fval)
    (i : nat) : list fval :=
  iloc_set avg i (smooth period (iloc avg (i - 1)) (iloc src i)).

(** [100 - (100 / (1 + rs))] *)
Definition rsi_of_rs (rs : fval) : fval :=
  fsub (Fin 100) (fdiv (Fin 100) (fadd (Fin 1) rs)).

(** [for i in range(period, len(close))], on one of the two averages. *)
Definition wilder (period : nat) (src avg : list fval) (len : nat)
  : list fval :=
  fold_left (wilder_step period src) (seq period (len - period)) avg.

Definition _calculate_rsi (self : t) (close : list Q) : list fval :=
  let delta := diff close in
  let gain := where_ delta (map (fun d => fgt d (Fin 0)) delta) (Fin 0) in
  let loss :=
    where_ (map fneg delta) (map (fun d => flt d (Fin 0)) delta) (Fin 0) in
  let avg_gain := rolling_mean (period self) gain in
  let avg_loss := rolling_mean (period self) loss in
  let avg_gain := wilder (period self) gain avg_gain (length close) in
  let avg_loss := wilder (period self) loss avg_loss (length close) in
  let rs := zip_with fdiv avg_gain avg_loss in
  map rsi_of_rs rs.

Definition calculate (self : t) (data : DataFrame) : IndicatorResult :=
  if negb (validate_data data (period self + 1))
  then mkIndicatorResult (name self) NaN None (Fin 0)
  else
    let close := ensure_series data in
    let rsi := _calculate_rsi self close in
    mkIndicatorResult (name self) (iloc_last rsi) None (Fin 0).

Definition get_signal (self : t) (data : DataFrame) : IndicatorResult :=
  if negb (validate_data data (period self + 1))
  then mkIndicatorResult (name self) NaN None (Fin 0)
  else
    let close := ensure_series data in
    let rsi := _calculate_rsi self close in
    let current_rsi := iloc_last rsi in
    let '(signal, strength) :=
      if fle current_rsi (Fin (oversold self)) then
        (Some "buy",
         fdiv (fsub (Fin (oversold self)) current_rsi) (Fin (oversold self)))
      else if fge current_rsi (Fin (overbought self)) then
        (Some "sell",
         fdiv (fsub current_rsi (Fin (overbought self)))
              (Fin (100 - overbought self)))
      else (None, Fin 0) in
    mkIndicatorResult (name self) current_rsi signal (fmin strength (Fin 1)).

(** [get_series] *)
Definition get_series (self : t) (data : DataFrame) : list fval :=
  _calculate_rsi self (ensure_series data).

End RSI.

(** A strictly rising series of closes. *)
Fixpoint strictly_rising_from (prev : Q) (s : list Q) : Prop :=
  match s with
  | [] => True
  | x :: r => prev < x /\ strictly_rising_from x r
  end.

Definition strictly_rising (s : list Q) : Prop :=
  match s with
  | [] => True
  | x :: r => strictly_rising_from x r
  end.

(** ** strategies/ *)

(** The evaluators of the package, each with the arguments of its
    constructor.  No extra [params] are passed. *)
Inductive Strategy :=
| MACrossoverStrategy (fast_period slow_period : nat) (ma_type : string)
| TripleMAStrategy (short_period medium_period long_period : nat)
    (ma_type : string)
| RSIStrategy (period : nat) (overbought oversold : Q)
| RSIDivergenceStrategy (period lookback : nat)
| MACDStrategy (fast_period slow_period signal_period : nat)
| MACDHistogramStrategy (fast_period slow_period signal_period : nat)
| CombinedStrategy (ema_period rsi_period : nat)
    (rsi_overbought rsi_oversold : Q)
    (macd_fast macd_slow macd_signal min_confirmations : nat)
| TrendFollowingStrategy (short_ema long_ema adx_period : nat)
    (adx_threshold : Q) (atr_period : nat)
| MeanReversionStrategy (bb_period : nat) (bb_std : Q) (rsi_period : nat)
    (rsi_extreme : Q).

(** The [name] each constructor hands to [Strategy.__init__]. *)
Definition strategy_name (s : Strategy) : string :=
  match s with
  | MACrossoverStrategy _ _ _ => "ma_crossover"
  | TripleMAStrategy _ _ _ _ => "triple_ma"
  | RSIStrategy _ _ _ => "rsi"
  | RSIDivergenceStrategy _ _ => "rsi_divergence"
  | MACDStrategy _ _ _ => "macd"
  | MACDHistogramStrategy _ _ _ => "macd_histogram"
  | CombinedStrategy _ _ _ _ _ _ _ _ => "combined"
  | TrendFollowingStrategy _ _ _ _ _ => "trend_following"
  | MeanReversionStrategy _ _ _ _ => "mean_reversion"
  end.

(** [_calculate_min_periods] of each evaluator. *)
Definition _calculate_min_periods (s : Strategy) : nat :=
  match s with
  | MACrossoverStrategy fast slow _ => Nat.max fast slow + 2
  | TripleMAStrategy _ _ long _ => long + 2
  | RSIStrategy period _ _ => period + 2
  | RSIDivergenceStrategy period lookback => period + lookback + 2
  | MACDStrategy _ slow sig => slow + sig + 2
  | MACDHistogramStrategy _ slow sig => slow + sig + 3
  | CombinedStrategy ema rsi _ _ _ slow sig _ =>
      Nat.max ema (Nat.max (rsi + 1) (slow + sig)) + 2
  | TrendFollowingStrategy _ long adx _ atr =>
      Nat.max long (Nat.max (adx * 2) atr) + 2
  | MeanReversionStrategy bb _ rsi _ => Nat.max bb (rsi + 1) + 2
  end.

(** Modelled from the spec: [Strategy.validate_data] of strategies/base.py,
    which is not among the sources.  The spec gives every evaluator a
    minimum-lookback requirement and has it hold when history is
    insufficient: the data is valid when it has at least
    [_calculate_min_periods()] rows. *)
Definition strategy_validate_data (s : Strategy) (data : DataFrame) : bool :=
  negb (Nat.ltb (length data) (_calculate_min_periods s)).

(** Modelled from the spec: the defaults of the [TradeSignal] fields a
    caller leaves out (strength 0, price 0, no stop, no target, no
    indicator snapshot); strategies/base.py is not among the sources. *)
Definition hold_signal (symbol strategy reason : string) : TradeSignal :=
  mkTradeSignal Signal.HOLD symbol strategy 0 0 None None reason [].

(** [analyze(data, symbol)].  Every evaluator opens with the same guard;
    what it does with enough history (reading its indicators and deciding)
    is the parameter [decide], which may raise. *)
Definition analyze
    (decide : Strategy -> DataFrame -> string -> result TradeSignal)
    (s : Strategy) (data : DataFrame) (symbol : string)
  : result TradeSignal :=
  if negb (strategy_validate_data s data)
  then Ok (hold_signal symbol (strategy_name s) "Insufficient data")
  else decide s data symbol.

(** ** Dictionaries

    A [dict] with string keys keeps its keys in insertion order;
    assigning to a key that is present keeps its place. *)

Section Dict.
Context {V : Type}.

Fixpoint lookup (d : list (string * V)) (k : string) : option V :=
  match d with
  | [] => None
  | (k', v) :: r => if String.eqb k' k then Some v else lookup r k
  end.

(** [k in d] *)
Definition contains (d : list (string * V)) (k : string) : bool :=
  match lookup d k with Some _ => true | None => false end.

(** [d[k] = v] *)
Fixpoint store (d : list (string * V)) (k : string) (v : V)
  : list (string * V) :=
  match d with
  | [] => [(k, v)]
  | (k', v') :: r =>
      if String.eqb k' k then (k', v) :: r else (k', v') :: store r k v
  end.

(** [del d[k]] *)
Fixpoint remove (d : list (string * V)) (k : string) : list (string * V) :=
  match d with
  | [] => []
  | (k', v') :: r =>
      if String.eqb k' k then r else (k', v') :: remove r k
  end.

End Dict.

(** ** exchanges/demo.py *)

Module Demo.

Record t := mk {
  fee_rate : Q;
  slippage : Q;
  balances : list (string * Balance);
  orders : list (string * Order);
  positions : list (string * Position);
  prices : list (string * Q);
  connected : bool;
  uuid_count : nat        (* how many identifiers have been drawn *)
}.

(** [str(uuid.uuid4())[:8]]: identifiers are drawn from a counter. *)
Definition order_id_of (n : nat) : string :=
  "id" ++ NilEmpty.string_of_uint (Nat.to_uint n).

Definition default_fee_rate : Q := 0.001.
Definition default_slippage : Q := 0.0005.

(** [DemoExchange(starting_balance, fee_rate, slippage)] *)
Definition init (starting_balance : option (list (string * Q)))
    (fee_rate slippage : Q) : t :=
  let balances :=
    match starting_balance with
    | Some ((_ :: _) as sb) =>
        fold_left
          (fun acc '(currency, amount) =>
             store acc currency (mkBalance currency amount amount 0))
          sb []
    | _ =>
        [("USDT", mkBalance "USDT" 10000 10000 0);
         ("USD", mkBalance "USD" 10000 10000 0)]
    end in
  mk fee_rate slippage balances [] [] [] false 0.

Definition set_balances (b : list (string * Balance)) (self : t) : t :=
  mk (fee_rate self) (slippage self) b (orders self) (positions self)
     (prices self) (connected self) (uuid_count self).
Definition set_orders (o : list (string * Order)) (self : t) : t :=
  mk (fee_rate self) (slippage self) (balances self) o (positions self)
     (prices self) (connected self) (uuid_count self).
Definition set_positions (p : list (string * Position)) (self : t) : t :=
  mk (fee_rate self) (slippage self) (balances self) (orders self) p
     (prices self) (connected self) (uuid_count self).
Definition set_prices (p : list (string * Q)) (self : t) : t :=
  mk (fee_rate self) (slippage self) (balances self) (orders self)
     (positions self) p (connected self) (uuid_count self).
Definition draw_uuid (self : t) : t :=
  mk (fee_rate self) (slippage self) (balances self) (orders self)
     (positions self) (prices self) (connected self) (S (uuid_count self)).

Definition set_price (symbol : string) (price : Q) (self : t) : t :=
  set_prices (store (prices self) symbol price) self.

(** [self.prices.get(symbol, default)] *)
Definition price_of (self : t) (symbol : string) (default : Q) : Q :=
  match lookup (prices self) symbol with Some p => p | None => default end.

Definition get_balance (currency : string) (self : t) : Balance :=
  match lookup (balances self) currency with
  | Some b => b
  | None => mkBalance currency 0 0 0
  end.

Definition get_ticker (symbol : string) (self : t) : list (string * Q) :=
  let price := price_of self symbol 100 in
  let spread := price * 0.001 in
  [("bid", price - spread / 2); ("ask", price + spread / 2);
   ("last", price); ("volume", 10000)].

(** [symbol.split("/")] *)
Fixpoint split_slash (s : string) (cur : string) : list string :=
  match s with
  | EmptyString => [cur]
  | String c r =>
      if Ascii.eqb c "/"%char then cur :: split_slash r ""
      else split_slash r (cur ++ String c "")
  end.

Definition endswith (s suffix : string) : bool :=
  let n := String.length s in
  let m := String.length suffix in
  if Nat.leb m n then String.eqb (substring (n - m) m s) suffix else false.

Definition _parse_symbol (symbol : string) : string * string :=
  match split_slash symbol "" with
  | p0 :: p1 :: _ => (p0, p1)
  | _ =>
      let n := String.length symbol in
      if endswith symbol "USDT" then (substring 0 (n - 4) symbol, "USDT")
      else if endswith symbol "USD" then (substring 0 (n - 3) symbol, "USD")
      else (substring 0 3 symbol, substring 3 n symbol)
  end.

(** The averaging division raises when the added quantity cancels the
    position; the quantity has been updated by then. *)
Definition _update_position (symbol : string) (side : OrderSide.t)
    (quantity price : Q) (self : t) : result unit * t :=
  match lookup (positions self) symbol with
  | Some pos =>
      if OrderSide.eqb (p_side pos) side then
        let total_cost :=
          p_entry_price pos * p_quantity pos + price * quantity in
        let q' := p_quantity pos + quantity in
        match pydiv total_cost q' with
        | Ok entry =>
            (Ok tt,
             set_positions
               (store (positions self) symbol
                  (mkPosition (p_symbol pos) (p_side pos) q' entry
                     (p_current_price pos) (p_unrealized_pnl pos)
                     (p_realized_pnl pos)))
               self)
        | Raise e =>
            (Raise e,
             set_positions
               (store (positions self) symbol
                  (mkPosition (p_symbol pos) (p_side pos) q'
                     (p_entry_price pos) (p_current_price pos)
                     (p_unrealized_pnl pos) (p_realized_pnl pos)))
               self)
        end
      else if Qleb (p_quantity pos) quantity then
        (Ok tt, set_positions (remove (positions self) symbol) self)
      else
        let realized :=
          if OrderSide.eqb (p_side pos) OrderSide.BUY
          then (price - p_entry_price pos) * quantity
          else (p_entry_price pos - price) * quantity in
        (Ok tt,
         set_positions
           (store (positions self) symbol
              (mkPosition (p_symbol pos) (p_side pos)
                 (p_quantity pos - quantity) (p_entry_price pos)
                 (p_current_price pos) (p_unrealized_pnl pos)
                 (p_realized_pnl pos + realized)))
           self)
  | None =>
      (Ok tt,
       set_positions
         (store (positions self) symbol
            (mkPosition symbol side quantity price price 0 0))
         self)
  end.

Definition rejected (order_id symbol : string) (side : OrderSide.t)
    (order_type : OrderType.t) (quantity : Q) (price : option Q) : Order :=
  mkOrder order_id symbol side order_type quantity price None
    OrderStatus.REJECTED 0 0
    [("reason", XStr "Insufficient balance")].

Definition place_order (symbol : string) (side : OrderSide.t)
    (order_type : OrderType.t) (quantity : Q) (price stop_price : option Q)
    (self : t) : result Order * t :=
  let order_id := order_id_of (uuid_count self) in
  let self := draw_uuid self in
  let current_price := price_of self symbol 100 in
  let fill_price :=
    if OrderType.eqb order_type OrderType.MARKET then
      if OrderSide.eqb side OrderSide.BUY
      then current_price * (1 + slippage self)
      else current_price * (1 - slippage self)
    else
      match price with
      | Some p => py_or p current_price
      | None => current_price
      end in
  let order_value := quantity * fill_price in
  let fee := order_value * fee_rate self in
  let '(base, quote) := _parse_symbol symbol in
  let settled : option t :=
    if OrderSide.eqb side OrderSide.BUY then
      let required := order_value + fee in
      match lookup (balances self) quote with
      | None => None
      | Some qb =>
          if Qltb (b_available qb) required then None
          else
            let bs :=
              store (balances self) quote
                (mkBalance (b_currency qb) (b_total qb - fee)
                   (b_available qb - required) (b_locked qb)) in
            let bs :=
              if contains bs base then bs
              else store bs base (mkBalance base 0 0 0) in
            let bs :=
              match lookup bs base with
              | Some bb =>
                  store bs base
                    (mkBalance (b_currency bb) (b_total bb + quantity)
                       (b_available bb + quantity) (b_locked bb))
              | None => bs
              end in
            Some (set_balances bs self)
      end
    else
      match lookup (balances self) base with
      | None => None
      | Some bb =>
          if Qltb (b_available bb) quantity then None
          else
            let bs :=
              store (balances self) base
                (mkBalance (b_currency bb) (b_total bb - quantity)
                   (b_available bb - quantity) (b_locked bb)) in
            let bs :=
              if contains bs quote then bs
              else store bs quote (mkBalance quote 0 0 0) in
            let bs :=
              match lookup bs quote with
              | Some qb =>
                  store bs quote
                    (mkBalance (b_currency qb)
                       (b_total qb + (order_value - fee))
                       (b_available qb + (order_value - fee)) (b_locked qb))
              | None => bs
              end in
            Some (set_balances bs self)
      end in
  match settled with
  | None => (Ok (rejected order_id symbol side order_type quantity price), self)
  | Some self =>
      let market := OrderType.eqb order_type OrderType.MARKET in
      let order :=
        mkOrder order_id symbol side order_type quantity price None
          (if market then OrderStatus.FILLED else OrderStatus.OPEN)
          (if market then quantity else 0)
          (if market then fill_price else 0)
          [("fee", XNum fee)] in
      let self := set_orders (store (orders self) order_id order) self in
      match _update_position symbol side quantity fill_price self with
      | (Ok _, self) => (Ok order, self)
      | (Raise e, self) => (Raise e, self)
      end
  end.

Definition cancel_order (order_id symbol : string) (self : t) : bool * t :=
  match lookup (orders self) order_id with
  | Some o =>
      if OrderStatus.eqb (o_status o) OrderStatus.OPEN then
        (true,
         set_orders
           (store (orders self) order_id
              (mkOrder (o_id o) (o_symbol o) (o_side o) (o_order_type o)
                 (o_quantity o) (o_price o) (o_stop_price o)
                 OrderStatus.CANCELLED
                 (o_filled_quantity o) (o_filled_price o) (o_extra o)))
           self)
      else (false, self)
  | None => (false, self)
  end.

Definition get_order (order_id symbol : string) (self : t) : option Order :=
  lookup (orders self) order_id.

(** The refresh [get_positions] applies to every position it returns;
    the positions are the stored objects, so the store sees it too. *)
Definition refresh (self : t) (pos : Position) : Position :=
  let current := price_of self (p_symbol pos) (p_entry_price pos) in
  mkPosition (p_symbol pos) (p_side pos) (p_quantity pos) (p_entry_price pos)
    current
    (if OrderSide.eqb (p_side pos) OrderSide.BUY
     then (current - p_entry_price pos) * p_quantity pos
     else (p_entry_price pos - current) * p_quantity pos)
    (p_realized_pnl pos).

Definition selected (symbol : option string) (pos : Position) : bool :=
  match symbol with
  | Some s => if String.eqb s "" then true else String.eqb (p_symbol pos) s
  | None => true
  end.

Definition get_positions (symbol : option string) (self : t)
  : list Position * t :=
  let stored :=
    map (fun '(k, pos) =>
           (k, if selected symbol pos then refresh self pos else pos))
        (positions self) in
  (filter (selected symbol) (map snd stored), set_positions stored self).

End Demo.

(** The demo exchange as an [Exchange]; of its calls only [place_order]
    can raise. *)
#[export] Instance DemoExchange : Exchange Demo.t := {
  get_ticker symbol self := (Ok (Demo.get_ticker symbol self), self);
  get_positions symbol self :=
    let (ps, self') := Demo.get_positions symbol self in (Ok ps, self');
  place_order := Demo.place_order;
  cancel_order order_id symbol self :=
    let (b, self') := Demo.cancel_order order_id symbol self in (Ok b, self');
  get_order order_id symbol self :=
    (Ok (Demo.get_order order_id symbol self), self)
}.

(** ** order_manager.py *)

Record ManagedPosition := mkManagedPosition {
  mp_symbol : string;
  mp_side : OrderSide.t;
  mp_quantity : Q;
  mp_entry_price : Q;
  mp_entry_order_id : string;
  mp_stop_loss_order_id : option string;
  mp_take_profit_order_id : option string;
  mp_stop_loss_price : option Q;
  mp_take_profit_price : option Q
}.

Definition with_stop_loss_order_id (id : string) (m : ManagedPosition)
  : ManagedPosition :=
  mkManagedPosition (mp_symbol m) (mp_side m) (mp_quantity m)
    (mp_entry_price m) (mp_entry_order_id m) (Some id)
    (mp_take_profit_order_id m) (mp_stop_loss_price m)
    (mp_take_profit_price m).

Definition with_take_profit_order_id (id : string) (m : ManagedPosition)
  : ManagedPosition :=
  mkManagedPosition (mp_symbol m) (mp_side m) (mp_quantity m)
    (mp_entry_price m) (mp_entry_order_id m) (mp_stop_loss_order_id m)
    (Some id) (mp_stop_loss_price m) (mp_take_profit_price m).

(** [bool(s)] of a [str | None] *)
Definition truthy_id (s : option string) : option string :=
  match s with
  | Some id => if String.eqb id "" then None else Some id
  | None => None
  end.

Section OrderManager.
Context {E : Type} `{Exchange E}.

(** The attributes of an [OrderManager]; the trade logger only writes to
    the log and is left out. *)
Record OrderManager := mkOrderManager {
  exchange : E;
  risk_manager : RiskManager;
  dry_run : bool;
  managed_positions : list (string * ManagedPosition);
  sim_count : nat    (* identifiers drawn for simulated orders *)
}.

Definition set_exchange (e : E) (self : OrderManager) : OrderManager :=
  mkOrderManager e (risk_manager self) (dry_run self)
    (managed_positions self) (sim_count self).
Definition set_risk_manager (r : RiskManager) (self : OrderManager)
  : OrderManager :=
  mkOrderManager (exchange self) r (dry_run self)
    (managed_positions self) (sim_count self).
Definition set_managed_positions (m : list (string * ManagedPosition))
    (self : OrderManager) : OrderManager :=
  mkOrderManager (exchange self) (risk_manager self) (dry_run self) m
    (sim_count self).
Definition draw_sim (self : OrderManager) : OrderManager :=
  mkOrderManager (exchange self) (risk_manager self) (dry_run self)
    (managed_positions self) (S (sim_count self)).

(** [OrderManager(exchange, risk_manager, dry_run)] *)
Definition new_order_manager (e : E) (r : RiskManager) (dry : bool)
  : OrderManager :=
  mkOrderManager e r dry [] 0.

(** A call into [self.exchange]. *)
Definition on_exchange {A} (call : E -> result A * E) (self : OrderManager)
  : result A * OrderManager :=
  let (r, e) := call (exchange self) in (r, set_exchange e self).

(** A call into [self.risk_manager]. *)
Definition on_risk {A} (call : RM A) (self : OrderManager)
  : A * OrderManager :=
  let (a, r) := call (risk_manager self) in (a, set_risk_manager r self).

(** [f"sim_{uuid.uuid4().hex[:8]}"] *)
Definition sim_id_of (n : nat) : string :=
  "sim_" ++ NilEmpty.string_of_uint (Nat.to_uint n).

Definition _simulate_order (now : datetime) (symbol : string)
    (side : OrderSide.t) (quantity price : Q) (self : OrderManager)
  : Order * OrderManager :=
  let order :=
    mkOrder (sim_id_of (sim_count self)) symbol side OrderType.MARKET quantity
      (Some price) None OrderStatus.FILLED quantity price [] in
  let self := draw_sim self in
  let (sl, self) := on_risk (calculate_stop_loss price side None) self in
  let (tp, self) :=
    on_risk (calculate_take_profit price side default_risk_reward None) self in
  let self :=
    set_managed_positions
      (store (managed_positions self) symbol
         (mkManagedPosition symbol side quantity price (o_id order)
            None None (Some sl) (Some tp)))
      self in
  let (_, self) :=
    on_risk (record_trade now symbol (OrderSide.value side) quantity price None)
      self in
  (order, self).

Definition _cancel_pending_orders (managed : ManagedPosition)
    (self : OrderManager) : OrderManager :=
  let self :=
    match truthy_id (mp_stop_loss_order_id managed) with
    | Some id => snd (on_exchange (cancel_order id (mp_symbol managed)) self)
    | None => self
    end in
  match truthy_id (mp_take_profit_order_id managed) with
  | Some id => snd (on_exchange (cancel_order id (mp_symbol managed)) self)
  | None => self
  end.

Definition _place_order_with_stops (now : datetime) (symbol : string)
    (side : OrderSide.t) (quantity current_price : Q)
    (stop_loss take_profit : option Q) (self : OrderManager)
  : option Order * OrderManager :=
  match
    on_exchange
      (place_order symbol side OrderType.MARKET quantity None None) self
  with
  | (Raise _, self) => (None, self)
  | (Ok order, self) =>
      if OrderStatus.eqb (o_status order) OrderStatus.REJECTED
      then (Some order, self)
      else
        let entry_price := py_or (o_filled_price order) current_price in
        let (_, self) :=
          on_risk
            (record_trade now symbol (OrderSide.value side) quantity entry_price
               None) self in
        let (stop_loss, self) :=
          match stop_loss with
          | Some s => (s, self)
          | None => on_risk (calculate_stop_loss entry_price side None) self
          end in
        let (take_profit, self) :=
          match take_profit with
          | Some s => (s, self)
          | None =>
              on_risk
                (calculate_take_profit entry_price side default_risk_reward
                   None) self
          end in
        let managed :=
          mkManagedPosition symbol side quantity entry_price (o_id order)
            None None (Some stop_loss) (Some take_profit) in
        let (managed, self) :=
          if truthy stop_loss then
            match
              on_exchange
                (place_order symbol (opposite side) OrderType.STOP_LOSS
                   quantity None (Some stop_loss)) self
            with
            | (Ok stop_order, self) =>
                (with_stop_loss_order_id (o_id stop_order) managed, self)
            | (Raise _, self) => (managed, self)
            end
          else (managed, self) in
        let (managed, self) :=
          if truthy take_profit then
            match
              on_exchange
                (place_order symbol (opposite side) OrderType.LIMIT quantity
                   (Some take_profit) None) self
            with
            | (Ok tp_order, self) =>
                (with_take_profit_order_id (o_id tp_order) managed, self)
            | (Raise _, self) => (managed, self)
            end
          else (managed, self) in
        (Some order,
         set_managed_positions
           (store (managed_positions self) symbol managed) self)
  end.

Definition close_position (now : datetime) (symbol : string)
    (side : option OrderSide.t) (self : OrderManager)
  : result (option Order) * OrderManager :=
  match on_exchange (get_positions (Some symbol)) self with
  | (Raise e, self) => (Raise e, self)
  | (Ok [], self) => (Ok None, self)
  | (Ok (position :: _), self) =>
      let mismatch :=
        match side with
        | Some s => negb (OrderSide.eqb (p_side position) s)
        | None => false
        end in
      if mismatch then (Ok None, self)
      else
        let close_side := opposite (p_side position) in
        if dry_run self then
          match on_exchange (get_ticker symbol) self with
          | (Raise e, self) => (Raise e, self)
          | (Ok ticker, self) =>
              let current_price := dict_get ticker "last" 0 in
              let (order, self) :=
                _simulate_order now symbol close_side (p_quantity position)
                  current_price self in
              (Ok (Some order), self)
          end
        else
          match
            on_exchange
              (place_order symbol close_side OrderType.MARKET
                 (p_quantity position) None None) self
          with
          | (Raise _, self) => (Ok None, self)
          | (Ok order, self) =>
              if OrderStatus.eqb (o_status order) OrderStatus.FILLED then
                let (_, self) :=
                  on_risk
                    (record_trade now symbol (OrderSide.value (p_side position))
                       (p_quantity position) (p_entry_price position)
                       (Some (o_filled_price order))) self in
                match lookup (managed_positions self) symbol with
                | Some managed =>
                    let self := _cancel_pending_orders managed self in
                    (Ok (Some order),
                     set_managed_positions
                       (remove (managed_positions self) symbol) self)
                | None => (Ok (Some order), self)
                end
              else (Ok (Some order), self)
          end
  end.

(** The end of [execute_signal], once the side of the entry is known:
    a simulated order on a dry run, else the entry with its bracket. *)
Definition enter (now : datetime) (signal : TradeSignal)
    (side : OrderSide.t) (quantity current_price : Q) (self : OrderManager)
  : result (option Order) * OrderManager :=
  if dry_run self then
    let (order, self) :=
      _simulate_order now (ts_symbol signal) side quantity current_price
        self in
    (Ok (Some order), self)
  else
    let (order, self) :=
      _place_order_with_stops now (ts_symbol signal) side quantity
        current_price (ts_stop_loss signal) (ts_take_profit signal) self in
    (Ok order, self).

Definition execute_signal (today : date) (now : datetime)
    (signal : TradeSignal) (portfolio_value : Q) (self : OrderManager)
  : result (option Order) * OrderManager :=
  if negb (is_actionable signal) then (Ok None, self)
  else
    match on_exchange (get_positions None) self with
    | (Raise e, self) => (Raise e, self)
    | (Ok ps, self) =>
        let current_positions := Z.of_nat (length ps) in
        let '((allowed, reason), self) :=
          on_risk (can_trade today now portfolio_value current_positions)
            self in
        if negb allowed then (Ok None, self)
        else
          match on_exchange (get_ticker (ts_symbol signal)) self with
          | (Raise e, self) => (Raise e, self)
          | (Ok ticker, self) =>
              let current_price := dict_get ticker "last" (ts_price signal) in
              match
                on_risk
                  (calculate_position_size signal portfolio_value
                     current_price) self
              with
              | (Raise e, self) => (Raise e, self)
              | (Ok quantity, self) =>
                  if Qleb quantity 0 then (Ok None, self)
                  else
                    let symbol := ts_symbol signal in
                    match ts_signal signal with
                    | Signal.BUY =>
                        enter now signal OrderSide.BUY quantity current_price
                          self
                    | Signal.SELL =>
                        enter now signal OrderSide.SELL quantity current_price
                          self
                    | Signal.CLOSE_LONG =>
                        close_position now symbol (Some OrderSide.BUY) self
                    | Signal.CLOSE_SHORT =>
                        close_position now symbol (Some OrderSide.SELL) self
                    | Signal.HOLD => (Ok None, self)
                    end
              end
          end
    end.

(** The poll of one bracket leg inside [check_positions].  An error of
    the exchange leaves through [Raise], with the state reached so far. *)
Definition check_leg (now : datetime) (symbol : string)
    (managed : ManagedPosition) (leg : option string) (self : OrderManager)
  : result unit * OrderManager :=
  match truthy_id leg with
  | None => (Ok tt, self)
  | Some id =>
      match on_exchange (get_order id symbol) self with
      | (Raise e, self) => (Raise e, self)
      | (Ok (Some order), self) =>
          if OrderStatus.eqb (o_status order) OrderStatus.FILLED then
            let (_, self) :=
              on_risk
                (record_trade now symbol (OrderSide.value (mp_side managed))
                   (mp_quantity managed) (mp_entry_price managed)
                   (Some (o_filled_price order))) self in
            (Ok tt, self)
          else (Ok tt, self)
      | (Ok None, self) => (Ok tt, self)
      end
  end.

(** The body of the loop of [check_positions], with its [try]: whatever
    is raised is logged and the sweep goes on. *)
Definition check_one (now : datetime) (self : OrderManager)
    (item : string * ManagedPosition) : OrderManager :=
  let (symbol, managed) := item in
  match on_exchange (get_positions (Some symbol)) self with
  | (Raise _, self) => self
  | (Ok [], self) =>
      set_managed_positions (remove (managed_positions self) symbol) self
  | (Ok (position :: _), self) =>
      match
        check_leg now symbol managed (mp_stop_loss_order_id managed) self
      with
      | (Raise _, self) => self
      | (Ok _, self) =>
          snd (check_leg now symbol managed
                 (mp_take_profit_order_id managed) self)
      end
  end.

(** [for symbol, managed in list(self.managed_positions.items())] *)
Definition check_positions (now : datetime) (self : OrderManager)
  : OrderManager :=
  fold_left (check_one now) (managed_positions self) self.

End OrderManager.

(** ** A scripted exchange

    An exchange that answers from a fixed script (the live positions and
    the order book it reports) and takes no orders: the fixture for runs
    of the reconciliation pass against a given exchange report. *)

Module Scripted.

Record t := mk {
  live : list Position;
  book : list (string * Order)
}.

Definition get_positions (symbol : option string) (self : t)
  : list Position :=
  filter (Demo.selected symbol) (live self).

Definition get_order (order_id : string) (self : t) : option Order :=
  lookup (book self) order_id.

End Scripted.

#[export] Instance ScriptedExchange : Exchange Scripted.t := {
  get_ticker symbol self := (Ok [], self);
  get_positions symbol self := (Ok (Scripted.get_positions symbol self), self);
  place_order symbol side order_type quantity price stop_price self :=
    (Raise (ExchangeError "no orders taken"), self);
  cancel_order order_id symbol self := (Ok false, self);
  get_order order_id symbol self :=
    (Ok (Scripted.get_order order_id self), self)
}.

(** ** The gate order of [can_trade], as the specification words it

    The specification lists the gates in a fixed order and has
    [can_trade] report the first that fails, after the daily reset and the
    update of the high-water mark. *)

Section CanTradeSpec.
Local Open Scope rm_scope.




End CanTradeSpec.




(** The fields of [RiskState]. *)
Definition same_risk_state (a b : RiskManager) : Prop :=
  daily_pnl a = daily_pnl b /\
  daily_trades a = daily_trades b /\
  last_trade_time a = last_trade_time b /\
  current_date a = current_date b /\
  peak_portfolio_value a = peak_portfolio_value b /\
  trade_history a = trade_history b.

(** The entries of the trade history that carry an exit price. *)
Definition exits (h : list TradeRecord) : list TradeRecord :=
  filter
    (fun t =>
       match tr_exit_price t with Some _ => true | None => false end)
    h.

(** An ATR argument that is left out, or positive. *)
Definition atr_ok (atr : option Q) : Prop :=
  match atr with
  | Some a => 0 < a
  | None => True
  end.

(** ** Sample inputs *)

(** A Buy signal of strength 0.8 without a stop of its own. *)
Definition sample_signal : TradeSignal :=
  mkTradeSignal Signal.BUY "BTC/USDT" "rsi" 0.8 100 None None "RSI oversold" [].


(** The demo exchange of the balance example: 10000 of the quote
    currency, fee rate 0.001, and the pair priced at [price]. *)
Definition funded_demo (slippage price : Q) : Demo.t :=
  Demo.set_price "BTC/USDT" price
    (Demo.init (Some [("USDT", 10000)]) 0.001 slippage).

(** An evaluator body that fails: what is past the guard of [analyze]. *)
Definition failing_decide (s : Strategy) (data : DataFrame) (symbol : string)
  : result TradeSignal :=
  Raise (OtherError "indicator failure").

(** An order manager on the funded demo exchange, with a fresh risk
    manager, placing real orders. *)
Definition demo_manager : OrderManager :=
  new_order_manager (funded_demo Demo.default_slippage 100)
    (new_risk_manager None 0%Z) false.

(** ** A bracket that filled

    A managed long position with both bracket legs, and two reports of a
    scripted exchange on which the stop leg has filled at 98: one that
    still lists the position, one that no longer does. *)

Definition bracketed_position : ManagedPosition :=
  mkManagedPosition "BTC/USDT" OrderSide.BUY 1 100 "entry1" (Some "sl1")
    (Some "tp1") (Some 98) (Some 105).

Definition filled_stop : Order :=
  mkOrder "sl1" "BTC/USDT" OrderSide.SELL OrderType.STOP_LOSS 1 None
    (Some 98) OrderStatus.FILLED 1 98 [].

Definition open_target : Order :=
  mkOrder "tp1" "BTC/USDT" OrderSide.SELL OrderType.LIMIT 1 (Some 105)
    None OrderStatus.OPEN 0 0 [].

Definition still_live : Scripted.t :=
  Scripted.mk [mkPosition "BTC/USDT" OrderSide.BUY 1 100 98 (-2) 0]
    [("sl1", filled_stop); ("tp1", open_target)].

Definition gone : Scripted.t :=
  Scripted.mk [] [("sl1", filled_stop); ("tp1", open_target)].

Definition reconciling_manager (e : Scripted.t) : OrderManager :=
  mkOrderManager e (new_risk_manager None 0%Z) false
    [("BTC/USDT", bracketed_position)] 0.

(** The exits the risk manager of an order manager has recorded. *)
Definition recorded_exits {E : Type} (self : @OrderManager E)
  : list TradeRecord :=
  exits (trade_history (risk_manager self)).

(** ** Ranges of indicator values *)

(** A finite value that is not negative. *)
Definition fin_nonneg (v : fval) : Prop :=
  match v with Fin q => 0 <= q | _ => False end.

(** A finite value that is zero. *)
Definition fin_zero (v : fval) : Prop :=
  match v with Fin q => q == 0 | _ => False end.

(** A finite value that is positive. *)
Definition fin_pos (v : fval) : Prop :=
  match v with Fin q => 0 < q | _ => False end.

(** Undefined, or finite and not negative. *)
Definition nan_or_nonneg (v : fval) : Prop :=
  match v with Fin q => 0 <= q | NaN => True | _ => False end.

(** Undefined, or finite. *)
Definition nan_or_fin (v : fval) : Prop :=
  match v with Fin _ | NaN => True | _ => False end.

(** Neither above 100 nor below 0, as the comparisons of floats decide. *)
Definition within_0_100 (v : fval) : Prop :=
  fgt v (Fin 100) = false /\ flt v (Fin 0) = false.

(** The rising series 1, 2, 3, 4. *)
Definition rising_1234 : list Q := [1; 2; 3; 4].

(** Undefined, finite and not negative, or plus infinity: the range of a
    quotient of two averages. *)
Definition nonneg_or_inf (v : fval) : Prop :=
  match v with Fin q => 0 <= q | NaN | PInf => True | NInf => False end.

(** The gains and the losses of [_calculate_rsi]. *)
Definition gains (close : list Q) : list fval :=
  let delta := PandasSeries.diff close in
  PandasSeries.where_ delta (map (fun d => fgt d (Fin 0)) delta) (Fin 0).

Definition losses (close : list Q) : list fval :=
  let delta := PandasSeries.diff close in
  PandasSeries.where_ (map fneg delta) (map (fun d => flt d (Fin 0)) delta)
    (Fin 0).

(** The same position still listed, with the target leg filled at 105
    and the stop leg open. *)
Definition target_filled : Scripted.t :=
  Scripted.mk [mkPosition "BTC/USDT" OrderSide.BUY 1 100 105 5 0]
    [("sl1",
      mkOrder "sl1" "BTC/USDT" OrderSide.SELL OrderType.STOP_LOSS 1 None
        (Some 98) OrderStatus.OPEN 0 0 []);
     ("tp1",
      mkOrder "tp1" "BTC/USDT" OrderSide.SELL OrderType.LIMIT 1 (Some 105)
        None OrderStatus.FILLED 1 105 [])].

(** * Further code *)

(** ** utils/helpers.py, the remaining helpers *)

Definition calculate_pnl (entry_price exit_price quantity : Q)
    (side : string) : Q :=
  if String.eqb (lower side) "buy"
  then (exit_price - entry_price) * quantity
  else (entry_price - exit_price) * quantity.

Definition calculate_pnl_percent (entry_price exit_price : Q)
    (side : string) : result Q :=
  if Qeqb entry_price 0 then Ok 0
  else if String.eqb (lower side) "buy" then
    match pydiv (exit_price - entry_price) entry_price with
    | Ok r => Ok (r * 100)
    | Raise e => Raise e
    end
  else
    match pydiv (entry_price - exit_price) entry_price with
    | Ok r => Ok (r * 100)
    | Raise e => Raise e
    end.

(** ** risk.py, sequences of calls *)

(** The arguments of one [record_trade] call and the time it is made at. *)
Record TradeCall := mkTradeCall {
  tc_now : datetime;
  tc_symbol : string;
  tc_side : string;
  tc_quantity : Q;
  tc_entry_price : Q;
  tc_exit_price : option Q
}.

(** [record_trade] called once per element, in order. *)
Definition record_trades (calls : list TradeCall) (self : RiskManager)
  : RiskManager :=
  fold_left
    (fun s c =>
       snd (record_trade (tc_now c) (tc_symbol c) (tc_side c)
              (tc_quantity c) (tc_entry_price c) (tc_exit_price c) s))
    calls self.

(** The PnL a [record_trade] call books: none without a truthy exit
    price. *)
Definition booked_pnl (side : string) (quantity entry_price : Q)
    (exit_price : option Q) : Q :=
  match exit_price with
  | Some x =>
      if truthy x then calculate_pnl entry_price x quantity side else 0
  | None => 0
  end.

(** Two sample calls: an entry, and its exit at a loss. *)
Definition sample_calls : list TradeCall :=
  [ mkTradeCall 0%Z "BTC/USDT" "buy" 2 100 None;
    mkTradeCall 60000000%Z "BTC/USDT" "buy" 2 100 (Some 95) ].

(** ** risk.py, the gates as predicates

    What each gate of [can_trade] decides, as a function of the manager
    it runs on; the gates themselves are shown to compute these. *)

Definition drawdown_ok (current_value : Q) (s : RiskManager) : bool :=
  if Qleb (peak_portfolio_value s) 0 then true
  else
    negb (Qltb (max_drawdown (limits s))
            ((peak_portfolio_value s - current_value)
             / peak_portfolio_value s)).

(** The manager [check_drawdown] leaves: a peak that is not positive is
    replaced by the current value. *)
Definition drawdown_state (current_value : Q) (s : RiskManager)
  : RiskManager :=
  if Qleb (peak_portfolio_value s) 0
  then set_peak_portfolio_value current_value s
  else s.

Definition daily_loss_ok (s : RiskManager) : bool :=
  negb (Qltb (daily_pnl s)
          (- max_daily_loss (limits s) * peak_portfolio_value s)).

Definition frequency_ok (now : datetime) (s : RiskManager) : bool :=
  match last_trade_time s with
  | None => true
  | Some t =>
      negb (Qltb (elapsed_minutes now t)
              (inject_Z (min_trade_interval_minutes (limits s))))
  end.

Definition trade_count_ok (s : RiskManager) : bool :=
  negb (max_trades_per_day (limits s) <=? daily_trades s)%Z.

Definition position_count_ok (current_positions : Z) (s : RiskManager)
  : bool :=
  negb (max_open_positions (limits s) <=? current_positions)%Z.

(** The answer of [can_trade] on the manager the drawdown gate leaves. *)
Definition verdict (now : datetime) (current_positions : Z)
    (drawdown : bool) (s : RiskManager) : bool * string :=
  if negb drawdown then (false, "Drawdown limit exceeded")
  else if negb (daily_loss_ok s) then (false, "Daily loss limit exceeded")
  else if negb (frequency_ok now s) then (false, "Trade frequency limit")
  else if negb (trade_count_ok s) then (false, "Daily trade count exceeded")
  else if negb (position_count_ok current_positions s)
       then (false, "Max positions reached")
  else (true, "OK").

(** ** exchanges/demo.py, the parts of [place_order] *)

(** The price an order fills at: the current price with the slippage
    against the taker for a market order, else the order's own price
    when it is given and not zero. *)
Definition demo_fill_price (symbol : string) (side : OrderSide.t)
    (order_type : OrderType.t) (price : option Q) (self : Demo.t) : Q :=
  let current_price := Demo.price_of self symbol 100 in
  if OrderType.eqb order_type OrderType.MARKET then
    if OrderSide.eqb side OrderSide.BUY
    then current_price * (1 + Demo.slippage self)
    else current_price * (1 - Demo.slippage self)
  else
    match price with
    | Some p => py_or p current_price
    | None => current_price
    end.

(** ["/" not in s] *)
Fixpoint no_slash (s : string) : bool :=
  match s with
  | EmptyString => true
  | String c r => if Ascii.eqb c "/"%char then false else no_slash r
  end.

(** The keys of a dictionary. *)
Definition keys {V : Type} (d : list (string * V)) : list string :=
  map fst d.

(** A position of 2 units bought at 100 on the demo exchange. *)
Definition demo_long : Demo.t :=
  Demo.set_positions
    [("BTC/USDT", mkPosition "BTC/USDT" OrderSide.BUY 2 100 100 0 0)]
    (Demo.init None Demo.default_fee_rate 0).

(** A resting limit order on the demo exchange. *)
Definition demo_resting : Demo.t :=
  snd (Demo.place_order "BTC/USDT" OrderSide.BUY OrderType.LIMIT 1
         (Some 90) None (Demo.init None Demo.default_fee_rate 0)).

(** ** Falling and flat series *)

Fixpoint strictly_falling_from (prev : Q) (s : list Q) : Prop :=
  match s with
  | [] => True
  | x :: r => x < prev /\ strictly_falling_from x r
  end.

(** A strictly falling series of closes. *)
Definition strictly_falling (s : list Q) : Prop :=
  match s with
  | [] => True
  | x :: r => strictly_falling_from x r
  end.

Fixpoint flat_from (prev : Q) (s : list Q) : Prop :=
  match s with
  | [] => True
  | x :: r => x == prev /\ flat_from x r
  end.

(** A series of closes that never moves. *)
Definition flat (s : list Q) : Prop :=
  match s with
  | [] => True
  | x :: r => flat_from x r
  end.

(** A finite value that is negative. *)
Definition fin_neg (v : fval) : Prop :=
  match v with Fin q => q < 0 | _ => False end.

(** The falling series 4, 3, 2, 1 and the flat series 5, 5, 5, 5. *)
Definition falling_4321 : list Q := [4; 3; 2; 1].
Definition flat_5555 : list Q := [5; 5; 5; 5].

(** A frame with the given closes. *)
Definition frame_of (close : list Q) : DataFrame :=
  map (fun c => mkCandle 0%Z c c c c 0) close.

(** ** indicators/moving_averages.py: the EMA *)

Module Ewm.

(** The smoothing factor of a span: [2 / (span + 1)]. *)
Definition alpha (span : nat) : Q := 2 / (inject_Z (Z.of_nat span) + 1).

Fixpoint mean_from (a prev : Q) (s : list Q) : list Q :=
  match s with
  | [] => []
  | x :: r => let y := (1 - a) * prev + a * x in y :: mean_from a y r
  end.

(** [s.ewm(span=span, adjust=False).mean()] on a series without missing
    values: the first value is the first entry, each later one is
    [(1 - alpha) * previous + alpha * entry].  A span below 1 is
    refused. *)
Definition mean (span : nat) (s : list Q) : result (list Q) :=
  if Nat.ltb span 1 then Raise (OtherError "span must satisfy: span >= 1")
  else
    Ok (match s with
        | [] => []
        | x :: r => x :: mean_from (alpha span) x r
        end).

End Ewm.

(** [s.iloc[-1 - k]] of a series of numbers; out of range raises. *)
Definition iloc_back (s : list Q) (k : nat) : result Q :=
  match nth_error (rev s) k with
  | Some v => Ok v
  | None => Raise (OtherError "IndexError")
  end.

Module EMA.

Record t := mk { period : nat }.

(** [EMA()] *)
Definition default : t := mk 20.

(** [f"EMA_{period}"] *)
Definition name (self : t) : string :=
  "EMA_" ++ NilEmpty.string_of_uint (Nat.to_uint (period self)).

Definition get_series (self : t) (data : DataFrame) : result (list Q) :=
  Ewm.mean (period self) (ensure_series data).

Definition calculate (self : t) (data : DataFrame) : result IndicatorResult :=
  if negb (validate_data data (period self))
  then Ok (mkIndicatorResult (name self) NaN None (Fin 0))
  else
    match Ewm.mean (period self) (ensure_series data) with
    | Raise e => Raise e
    | Ok ema =>
        match iloc_back ema 0 with
        | Raise e => Raise e
        | Ok current_value =>
            Ok (mkIndicatorResult (name self) (Fin current_value) None (Fin 0))
        end
    end.

(** The strength of a signal: the distance from the average as a
    fraction of it, capped at a tenth and scaled by ten. *)
Definition distance_strength (distance average : Q) : fval :=
  fmul (fmin (fdiv (Fin distance) (Fin average)) (Fin 0.1)) (Fin 10).

Definition get_signal (self : t) (data : DataFrame) : result IndicatorResult :=
  if negb (validate_data data (period self))
  then Ok (mkIndicatorResult (name self) NaN None (Fin 0))
  else
    let series := ensure_series data in
    match Ewm.mean (period self) series with
    | Raise e => Raise e
    | Ok ema =>
        match iloc_back series 0 with
        | Raise e => Raise e
        | Ok current_price =>
            match iloc_back ema 0 with
            | Raise e => Raise e
            | Ok current_ema =>
                let '(signal, strength) :=
                  if Qltb current_ema current_price then
                    (Some "buy",
                     distance_strength (current_price - current_ema)
                       current_ema)
                  else if Qltb current_price current_ema then
                    (Some "sell",
                     distance_strength (current_ema - current_price)
                       current_ema)
                  else (None, Fin 0) in
                Ok (mkIndicatorResult (name self) (Fin current_ema) signal
                      (fmin strength (Fin 1)))
            end
        end
    end.

End EMA.

(** ** indicators/momentum.py: the MACD *)

(** The difference of two series of the same index. *)
Fixpoint series_sub (a b : list Q) : list Q :=
  match a, b with
  | x :: r, y :: s => (x - y) :: series_sub r s
  | _, _ => []
  end.

(** An indicator result whose value is a dictionary. *)
Record IndicatorDictResult := mkIndicatorDictResult {
  idr_name : string;
  idr_value : list (string * fval);
  idr_signal : option string;
  idr_strength : Q
}.

Module MACD.

Record t := mk {
  fast_period : nat;
  slow_period : nat;
  signal_period : nat
}.

(** [MACD()] *)
Definition default : t := mk 12 26 9.

(** [f"MACD_{fast_period}_{slow_period}_{signal_period}"] *)
Definition name (self : t) : string :=
  "MACD_" ++ NilEmpty.string_of_uint (Nat.to_uint (fast_period self))
  ++ "_" ++ NilEmpty.string_of_uint (Nat.to_uint (slow_period self))
  ++ "_" ++ NilEmpty.string_of_uint (Nat.to_uint (signal_period self)).

Definition _calculate_macd (self : t) (close : list Q)
  : result (list Q * list Q * list Q) :=
  match Ewm.mean (fast_period self) close with
  | Raise e => Raise e
  | Ok fast_ema =>
      match Ewm.mean (slow_period self) close with
      | Raise e => Raise e
      | Ok slow_ema =>
          let macd := series_sub fast_ema slow_ema in
          match Ewm.mean (signal_period self) macd with
          | Raise e => Raise e
          | Ok signal_line =>
              Ok (macd, signal_line, series_sub macd signal_line)
          end
      end
  end.

Definition undefined_value : list (string * fval) :=
  [("macd", NaN); ("signal", NaN); ("histogram", NaN)].

(** [min(abs(gap) / abs(signal_curr) if signal_curr != 0 else 0.5, 1.0)] *)
Definition crossover_strength (gap signal_curr : Q) : Q :=
  pymin (if negb (Qeqb signal_curr 0)
         then Qabs gap / Qabs signal_curr
         else 0.5) 1.

Definition get_signal (self : t) (data : DataFrame)
  : result IndicatorDictResult :=
  let min_periods := (slow_period self + signal_period self + 1)%nat in
  if negb (validate_data data min_periods)
  then Ok (mkIndicatorDictResult (name self) undefined_value None 0)
  else
    match _calculate_macd self (ensure_series data) with
    | Raise e => Raise e
    | Ok (macd, signal_line, histogram) =>
        match iloc_back macd 0, iloc_back macd 1 with
        | Ok macd_curr, Ok macd_prev =>
            match iloc_back signal_line 0, iloc_back signal_line 1 with
            | Ok signal_curr, Ok signal_prev =>
                let '(signal, strength) :=
                  if (Qleb macd_prev signal_prev
                      && Qltb signal_curr macd_curr)%bool then
                    (Some "buy",
                     crossover_strength (macd_curr - signal_curr) signal_curr)
                  else if (Qleb signal_prev macd_prev
                           && Qltb macd_curr signal_curr)%bool then
                    (Some "sell",
                     crossover_strength (signal_curr - macd_curr) signal_curr)
                  else (None, 0) in
                match iloc_back histogram 0 with
                | Ok hist =>
                    Ok (mkIndicatorDictResult (name self)
                          [("macd", Fin macd_curr); ("signal", Fin signal_curr);
                           ("histogram", Fin hist)]
                          signal strength)
                | Raise e => Raise e
                end
            | Raise e, _ | _, Raise e => Raise e
            end
        | Raise e, _ | _, Raise e => Raise e
        end
    end.

End MACD.

(** ** Order-manager scenarios *)

(** A live manager whose limits allow no open position: whatever it is
    asked, the position-count gate refuses. *)
Definition closed_book_manager : OrderManager :=
  new_order_manager (funded_demo 0 100)
    (mkRiskManager (mkRiskLimits 0.1 0.05 0.15 0.02 0.05 0 30 10)
       0 0%Z None 0%Z 0 [])
    false.


(** The demo exchange after a market Buy of 1 BTC/USDT at 100 without
    slippage, and a live manager that manages this position. *)
Definition long_exchange : Demo.t :=
  snd (Demo.place_order "BTC/USDT" OrderSide.BUY OrderType.MARKET 1 None None
         (funded_demo 0 100)).

Definition long_manager : OrderManager :=
  mkOrderManager long_exchange (new_risk_manager None 0%Z) false
    [("BTC/USDT", bracketed_position)] 0.

(** The position the exchange then lists, and the order that closes it. *)
Definition held_long : Position :=
  mkPosition "BTC/USDT" OrderSide.BUY 1 (100 * (1 + 0)) 100
    ((100 - 100 * (1 + 0)) * 1) 0.

Definition closing_order : Order :=
  mkOrder "id1" "BTC/USDT" OrderSide.SELL OrderType.MARKET 1 None None
    OrderStatus.FILLED 1 (100 * (1 - 0))
    [("fee", XNum (1 * (100 * (1 - 0)) * 0.001))].
(** * Properties *)

(** ** Comparisons *)

(** Closed comparisons of rationals, by evaluation. *)
Ltac qdecide :=
  vm_compute;
  first [ reflexivity | let Hc := fresh in intro Hc; discriminate Hc ].

Lemma Qleb_true (x y : Q) : Qleb x y = true <-> x <= y.
Proof. apply Qle_bool_iff. Qed.

Lemma Qleb_false (x y : Q) : Qleb x y = false <-> y < x.
Proof.
  unfold Qleb. split; intro Hf.
  - apply Qnot_le_lt. intro Hle. apply Qle_bool_iff in Hle. congruence.
  - destruct (Qle_bool x y) eqn:Hb; [|reflexivity].
    apply Qle_bool_iff in Hb. lra.
Qed.

Lemma Qltb_true (x y : Q) : Qltb x y = true <-> x < y.
Proof.
  unfold Qltb. rewrite negb_true_iff. apply (Qleb_false y x).
Qed.

Lemma Qltb_false (x y : Q) : Qltb x y = false <-> y <= x.
Proof.
  unfold Qltb. rewrite negb_false_iff. apply (Qleb_true y x).
Qed.

Lemma Qeqb_true (x y : Q) : Qeqb x y = true <-> x == y.
Proof. apply Qeq_bool_iff. Qed.

Lemma Qeqb_false (x y : Q) : Qeqb x y = false <-> ~ x == y.
Proof.
  unfold Qeqb. split; intro Hf.
  - intro He. apply Qeq_bool_iff in He. congruence.
  - destruct (Qeq_bool x y) eqn:Hb; [|reflexivity].
    apply Qeq_bool_iff in Hb. contradiction.
Qed.




Lemma Qdiv_nonneg (a b : Q) : 0 <= a -> 0 < b -> 0 <= a / b.
Proof. intros Ha Hb. apply Qle_shift_div_l; lra. Qed.



(** ** Position sizing *)

Lemma pydiv_pos (a b : Q) : 0 < b -> pydiv a b = Ok (a / b).
Proof.
  intros Hb. unfold pydiv.
  destruct (Qeqb b 0) eqn:Hz; [|reflexivity].
  apply Qeqb_true in Hz. lra.
Qed.

(** The helper never divides by zero: it always returns a size. *)
Lemma helper_position_size_total
    (portfolio_value risk_per_trade entry_price stop_loss_price pct : Q) :
  exists size,
    Helpers.calculate_position_size portfolio_value risk_per_trade
      entry_price stop_loss_price pct = Ok size.
Proof.
  unfold Helpers.calculate_position_size.
  destruct (Qleb entry_price 0 || Qleb stop_loss_price 0)%bool eqn:Hguard;
    [eexists; reflexivity|].
  apply orb_false_iff in Hguard. destruct Hguard as [He _].
  apply Qleb_false in He.
  destruct (Qeqb (Qabs (entry_price - stop_loss_price)) 0) eqn:Hz;
    [eexists; reflexivity|].
  unfold pydiv at 1. rewrite Hz. rewrite (pydiv_pos _ entry_price He).
  eexists; reflexivity.
Qed.






(** ** The risk gates *)

Lemma reset_daily_new_day (today : date) (self : RiskManager) :
  today <> current_date self ->
  snd (reset_daily today self) =
  mkRiskManager (limits self) 0 0 (last_trade_time self) today
    (peak_portfolio_value self) (trade_history self).
Proof.
  intros Hne. unfold reset_daily, bind, get, modify, ret. cbn.
  destruct (Z.eqb_spec today (current_date self)); [contradiction|].
  reflexivity.
Qed.

Lemma reset_daily_same_day (self : RiskManager) :
  snd (reset_daily (current_date self) self) = self.
Proof.
  unfold reset_daily, bind, get, modify, ret. cbn.
  rewrite Z.eqb_refl. reflexivity.
Qed.


Lemma bind_skip {A B} (m : RM A) (k : RM B) (self : RiskManager) :
  bind m (fun _ => k) self = k (snd (m self)).
Proof. unfold bind. destruct (m self). reflexivity. Qed.





Lemma reset_daily_peak (today : date) (self : RiskManager) :
  peak_portfolio_value (snd (reset_daily today self)) =
    peak_portfolio_value self /\
  limits (snd (reset_daily today self)) = limits self.
Proof.
  destruct (Z.eq_dec today (current_date self)) as [He|Hne].
  - subst today. rewrite reset_daily_same_day. split; reflexivity.
  - rewrite (reset_daily_new_day today self Hne). split; reflexivity.
Qed.

Lemma update_portfolio_peak_spec (v : Q) (self : RiskManager) :
  let self' := snd (update_portfolio_peak v self) in
  limits self' = limits self /\
  ((peak_portfolio_value self < v /\ peak_portfolio_value self' = v) \/
   (v <= peak_portfolio_value self /\
    peak_portfolio_value self' = peak_portfolio_value self)).
Proof.
  unfold update_portfolio_peak, bind, get, modify, ret. cbn.
  destruct (Qltb (peak_portfolio_value self) v) eqn:Hc; cbn.
  - apply Qltb_true in Hc. split; [reflexivity|]. left.
    split; [exact Hc|reflexivity].
  - apply Qltb_false in Hc. split; [reflexivity|]. right.
    split; [exact Hc|reflexivity].
Qed.







(** ** What touches the risk state *)

Lemma calculate_position_size_frame (signal : TradeSignal)
    (portfolio_value current_price : Q) (self : RiskManager) :
  snd (calculate_position_size signal portfolio_value current_price self)
  = self.
Proof. reflexivity. Qed.

Lemma can_trade_state (today : date) (now : datetime)
    (portfolio_value : Q) (current_positions : Z) (self : RiskManager) :
  exists peak,
    snd (can_trade today now portfolio_value current_positions self) =
      set_peak_portfolio_value peak (snd (reset_daily today self)) /\
    (peak = peak_portfolio_value self \/ peak = portfolio_value).
Proof.
  unfold can_trade. rewrite !bind_skip.
  destruct (reset_daily_peak today self) as [Hp1 _].
  set (s1 := snd (reset_daily today self)) in *.
  assert (Hs2 : exists peak,
             snd (update_portfolio_peak portfolio_value s1) =
               set_peak_portfolio_value peak s1 /\
             (peak = peak_portfolio_value self \/ peak = portfolio_value)).
  { unfold update_portfolio_peak, bind, get, modify, ret. cbn.
    destruct (Qltb (peak_portfolio_value s1) portfolio_value); cbn.
    - exists portfolio_value. split; [reflexivity|right; reflexivity].
    - exists (peak_portfolio_value s1). split; [|left; exact Hp1].
      destruct s1; reflexivity. }
  destruct Hs2 as [peak2 [-> Hpk2]].
  unfold check_drawdown, check_daily_loss, check_trade_frequency,
    check_daily_trade_count, check_position_count, bind, get, modify, ret.
  cbn.
  destruct (Qleb peak2 0); cbn.
  - exists portfolio_value. split; [|right; reflexivity].
    destruct (Qltb _ _); cbn; [reflexivity|].
    destruct (last_trade_time s1); cbn;
      repeat (match goal with
              | |- context [if ?c then _ else _] => destruct c; cbn
              end); reflexivity.
  - exists peak2. split; [|exact Hpk2].
    repeat (match goal with
            | |- context [if ?c then _ else _] => destruct c; cbn
            | |- context [match last_trade_time ?s with _ => _ end] =>
                destruct (last_trade_time s); cbn
            end); reflexivity.
Qed.

(** C4, as amended.  [record_trade] is the only operation of the risk
    manager that appends to the trade history, stamps the last-trade time,
    counts a trade or adds to the daily PnL.  [calculate_position_size],
    [calculate_stop_loss], [calculate_take_profit], [get_stats] and the
    gates other than the drawdown gate leave the manager as it is.
    [can_trade] leaves [trade_history], [last_trade_time] and the limits
    alone; on the stored day it leaves the daily counters alone as well and
    on another day it resets them and stamps the day; and it leaves the
    peak alone or sets it to [portfolio_value]. *)
Theorem risk_state_frame (self : RiskManager) :
  (forall signal portfolio_value current_price,
      snd (calculate_position_size signal portfolio_value current_price self)
      = self) /\
  (forall entry_price side atr,
      snd (calculate_stop_loss entry_price side atr self) = self) /\
  (forall entry_price side risk_reward atr,
      snd (calculate_take_profit entry_price side risk_reward atr self)
      = self) /\
  snd (get_stats self) = self /\
  snd (check_daily_loss self) = self /\
  (forall now, snd (check_trade_frequency now self) = self) /\
  snd (check_daily_trade_count self) = self /\
  (forall n, snd (check_position_count n self) = self) /\
  (forall today now portfolio_value current_positions,
      let self' :=
        snd (can_trade today now portfolio_value current_positions self) in
      trade_history self' = trade_history self /\
      last_trade_time self' = last_trade_time self /\
      limits self' = limits self /\
      current_date self' = today /\
      daily_pnl self' =
        (if (today =? current_date self)%Z then daily_pnl self else 0) /\
      daily_trades self' =
        (if (today =? current_date self)%Z then daily_trades self else 0%Z) /\
      (peak_portfolio_value self' = peak_portfolio_value self \/
       peak_portfolio_value self' = portfolio_value)) /\
  (forall now symbol side quantity entry_price exit_price,
      let self' :=
        snd (record_trade now symbol side quantity entry_price exit_price
               self) in
      length (trade_history self') = S (length (trade_history self)) /\
      daily_trades self' = (daily_trades self + 1)%Z /\
      last_trade_time self' = Some now).
Proof.
  repeat match goal with |- _ /\ _ => split end.
  - reflexivity.
  - intros entry_price side atr.
    unfold calculate_stop_loss, bind, get, ret. cbn.
    destruct (OrderSide.eqb side OrderSide.BUY); reflexivity.
  - intros entry_price side risk_reward atr.
    unfold calculate_take_profit, bind, get, ret. cbn.
    destruct (OrderSide.eqb side OrderSide.BUY); reflexivity.
  - reflexivity.
  - unfold check_daily_loss, bind, get, ret. cbn.
    destruct (Qltb _ _); reflexivity.
  - intros now. unfold check_trade_frequency, bind, get, ret. cbn.
    destruct (last_trade_time self); cbn; [|reflexivity].
    destruct (Qltb _ _); reflexivity.
  - unfold check_daily_trade_count, bind, get, ret. cbn.
    destruct (_ <=? _)%Z; reflexivity.
  - intros n. unfold check_position_count, bind, get, ret. cbn.
    destruct (_ <=? _)%Z; reflexivity.
  - intros today now pv n self'.
    destruct (can_trade_state today now pv n self) as [peak [Hs Hpk]].
    unfold self'. rewrite Hs. clear Hs self'.
    destruct (Z.eqb_spec today (current_date self)) as [He|Hne].
    + subst today. rewrite reset_daily_same_day. cbn.
      repeat split; try reflexivity. exact Hpk.
    + rewrite (reset_daily_new_day today self Hne). cbn.
      repeat split; try reflexivity. exact Hpk.
  - intros now symbol side quantity entry_price exit_price self'.
    unfold self', record_trade, bind, get, modify, ret. cbn.
    destruct exit_price as [x|]; cbn.
    + destruct (truthy x); cbn; rewrite length_app; cbn;
        repeat split; lia.
    + rewrite length_app; cbn. repeat split; lia.
Qed.

(** C4 as stated fails: [can_trade] on a fresh manager raises the peak
    from 0 to the portfolio value. *)
Lemma can_trade_raises_peak :
  let self := new_risk_manager None 0%Z in
  ~ same_risk_state (snd (can_trade 0%Z 0%Z 100 0%Z self)) self.
Proof.
  cbv zeta. unfold same_risk_state. intros (_ & _ & _ & _ & Hpeak & _).
  vm_compute in Hpeak. discriminate Hpeak.
Qed.

(** ** Stop and target *)

Lemma truthy_pos (x : Q) : 0 < x -> truthy x = true.
Proof.
  intros Hx. unfold truthy. apply negb_true_iff. apply Qeqb_false. lra.
Qed.

(** C7, as amended.  For [entry_price > 0], [stop_loss_pct] and
    [take_profit_pct] in (0, 1), an ATR that is left out or positive and a
    reward:risk ratio [risk_reward > 0]: on the Buy side
    [calculate_stop_loss < entry_price < calculate_take_profit], and on the
    Sell side the order is reversed. *)
Theorem stop_below_entry_below_target (self : RiskManager)
    (entry_price risk_reward : Q) (atr : option Q) :
  0 < entry_price ->
  0 < stop_loss_pct (limits self) -> stop_loss_pct (limits self) < 1 ->
  0 < take_profit_pct (limits self) -> take_profit_pct (limits self) < 1 ->
  atr_ok atr ->
  0 < risk_reward ->
  (fst (calculate_stop_loss entry_price OrderSide.BUY atr self) < entry_price /\
   entry_price <
     fst (calculate_take_profit entry_price OrderSide.BUY risk_reward atr
            self)) /\
  (fst (calculate_take_profit entry_price OrderSide.SELL risk_reward atr self)
     < entry_price /\
   entry_price < fst (calculate_stop_loss entry_price OrderSide.SELL atr self)).
Proof.
  intros He Hs0 Hs1 Ht0 Ht1 Hatr Hrr.
  unfold calculate_stop_loss, calculate_take_profit, bind, get, ret. cbn.
  set (sl := stop_loss_pct (limits self)) in *.
  set (tp := take_profit_pct (limits self)) in *.
  destruct atr as [a|]; cbn in Hatr.
  - rewrite (truthy_pos a Hatr). repeat split; nra.
  - repeat split; nra.
Qed.

Lemma stop_below_entry_below_target_witness :
  let self := new_risk_manager None 0%Z in
  (fst (calculate_stop_loss 100 OrderSide.BUY (Some 1.5) self) < 100 /\
   100 < fst (calculate_take_profit 100 OrderSide.BUY 2 (Some 1.5) self)) /\
  (fst (calculate_take_profit 100 OrderSide.SELL 2 (Some 1.5) self) < 100 /\
   100 < fst (calculate_stop_loss 100 OrderSide.SELL (Some 1.5) self)).
Proof.
  apply (stop_below_entry_below_target (new_risk_manager None 0%Z)
           100 2 (Some 1.5)); qdecide.
Defined.

(** C7 as stated fails when the reward:risk ratio passed with an ATR is
    not positive: with [risk_reward = 0] the target is the entry price. *)
Lemma take_profit_zero_risk_reward :
  let self := new_risk_manager None 0%Z in
  0 < 100 /\
  0 < stop_loss_pct (limits self) /\ stop_loss_pct (limits self) < 1 /\
  0 < take_profit_pct (limits self) /\ take_profit_pct (limits self) < 1 /\
  0 < 1 /\
  ~ (fst (calculate_stop_loss 100 OrderSide.BUY (Some 1) self) < 100 /\
     100 < fst (calculate_take_profit 100 OrderSide.BUY 0 (Some 1) self)).
Proof.
  cbv zeta. repeat split; try qdecide.
  intros [_ Hlt]. vm_compute in Hlt. discriminate Hlt.
Qed.

(** ** Insufficient history *)

(** C8.  Every evaluator, whatever its parameters, answers a series
    shorter than its minimum lookback with a Hold signal that carries the
    reason "Insufficient data", and does not raise, whatever the rest of
    its body would do. *)
Theorem analyze_insufficient_history
    (decide : Strategy -> DataFrame -> string -> result TradeSignal)
    (s : Strategy) (data : DataFrame) (symbol : string) :
  (length data < _calculate_min_periods s)%nat ->
  exists signal,
    analyze decide s data symbol = Ok signal /\
    ts_signal signal = Signal.HOLD /\
    ts_reason signal = "Insufficient data" /\
    ts_symbol signal = symbol /\
    ts_strategy signal = strategy_name s /\
    is_actionable signal = false.
Proof.
  intros Hshort. unfold analyze, strategy_validate_data.
  apply Nat.ltb_lt in Hshort. rewrite Hshort. cbn.
  eexists. split; [reflexivity|]. repeat split.
Qed.

Lemma analyze_insufficient_history_witness :
  exists signal,
    analyze failing_decide (RSIStrategy 14 70 30) [] "BTC/USDT" = Ok signal /\
    ts_signal signal = Signal.HOLD /\
    ts_reason signal = "Insufficient data" /\
    ts_symbol signal = "BTC/USDT" /\
    ts_strategy signal = strategy_name (RSIStrategy 14 70 30) /\
    is_actionable signal = false.
Proof.
  apply (analyze_insufficient_history failing_decide (RSIStrategy 14 70 30)
           [] "BTC/USDT").
  cbn. lia.
Defined.

(** ** The demo exchange *)

Lemma demo_market_buy (slippage price : Q) :
  let fill := price * (1 + slippage) in
  1 * fill + 1 * fill * 0.001 <= 10000 ->
  exists order ex',
    Demo.place_order "BTC/USDT" OrderSide.BUY OrderType.MARKET 1 None None
      (funded_demo slippage price) = (Ok order, ex') /\
    o_status order = OrderStatus.FILLED /\
    b_available (Demo.get_balance "USDT" ex') ==
      10000 - fill * 1.001 /\
    b_total (Demo.get_balance "BTC" ex') == 1 /\
    b_available (Demo.get_balance "BTC" ex') == 1.
Proof.
  intros fill Hafford.
  unfold Demo.place_order, funded_demo.
  cbn -[Qmult Qplus Qminus Qltb Qle].
  fold fill.
  assert (Hc : Qltb 10000 (1 * fill + 1 * fill * 0.001) = false)
    by (apply Qltb_false; exact Hafford).
  rewrite Hc.
  cbn -[Qmult Qplus Qminus Qltb Qle].
  eexists. eexists. split; [reflexivity|].
  cbn -[Qmult Qplus Qminus Qltb Qle].
  repeat split; ring.
Qed.

(** C9, as amended.  On the demo exchange started with 10000 of the quote
    currency and fee rate 0.001, a market Buy of quantity 1 that fills at
    100 (the price times one plus the slippage; price 100 with slippage 0)
    leaves exactly 9899.9 available in the quote currency and credits
    exactly 1.0 to the base currency. *)
Theorem demo_buy_fill_100 (slippage price : Q) :
  price * (1 + slippage) == 100 ->
  exists order ex',
    Demo.place_order "BTC/USDT" OrderSide.BUY OrderType.MARKET 1 None None
      (funded_demo slippage price) = (Ok order, ex') /\
    o_status order = OrderStatus.FILLED /\
    b_available (Demo.get_balance "USDT" ex') == 9899.9 /\
    b_total (Demo.get_balance "BTC" ex') == 1 /\
    b_available (Demo.get_balance "BTC" ex') == 1.
Proof.
  intros Hfill.
  destruct (demo_market_buy slippage price)
    as (order & ex' & Hrun & Hst & Hq & Hbt & Hba).
  { cbv zeta. rewrite Hfill. qdecide. }
  exists order, ex'. repeat split; try assumption.
  rewrite Hq. cbv zeta. rewrite Hfill. reflexivity.
Qed.

Lemma demo_buy_fill_100_witness :
  exists order ex',
    Demo.place_order "BTC/USDT" OrderSide.BUY OrderType.MARKET 1 None None
      (funded_demo 0 100) = (Ok order, ex') /\
    o_status order = OrderStatus.FILLED /\
    b_available (Demo.get_balance "USDT" ex') == 9899.9 /\
    b_total (Demo.get_balance "BTC" ex') == 1 /\
    b_available (Demo.get_balance "BTC" ex') == 1.
Proof.
  apply (demo_buy_fill_100 0 100). qdecide.
Defined.

(** C9 as stated fails on an exchange built with the starting balance and
    the fee rate alone: the slippage then has its default 0.0005, the
    order fills at 100.05, and 9899.84995 is left available (the total
    is 9999.89995). *)
Lemma demo_buy_default_slippage :
  exists order ex',
    Demo.place_order "BTC/USDT" OrderSide.BUY OrderType.MARKET 1 None None
      (funded_demo Demo.default_slippage 100) = (Ok order, ex') /\
    o_filled_price order == 100.05 /\
    b_available (Demo.get_balance "USDT" ex') == 9899.84995 /\
    ~ b_available (Demo.get_balance "USDT" ex') == 9899.9 /\
    ~ b_total (Demo.get_balance "USDT" ex') == 9899.9.
Proof.
  eexists. eexists. split; [vm_compute; reflexivity|].
  repeat split; qdecide.
Qed.

(** ** Zero sizes *)

(** C10.  The sizing helper always returns, without dividing by zero, and
    returns 0.0 when the entry price or the stop is not positive or the
    two are equal; and [execute_signal], once the computed quantity is not
    positive, returns [None] having placed no order: the exchange is in
    the state the two queries left it in, no position is managed that was
    not before, and the risk manager is as [can_trade] left it. *)
Theorem zero_size_places_no_order :
  (forall portfolio_value risk_per_trade entry_price stop_loss_price pct,
      exists size,
        Helpers.calculate_position_size portfolio_value risk_per_trade
          entry_price stop_loss_price pct = Ok size /\
        (entry_price <= 0 \/ stop_loss_price <= 0 \/
         entry_price == stop_loss_price -> size = 0)) /\
  (forall (E : Type) (X : Exchange E) (self : OrderManager)
          (today : date) (now : datetime) (signal : TradeSignal)
          (portfolio_value quantity : Q)
          ps e1 reason r1 ticker e2,
      is_actionable signal = true ->
      get_positions None (exchange self) = (Ok ps, e1) ->
      can_trade today now portfolio_value (Z.of_nat (length ps))
        (risk_manager self) = ((true, reason), r1) ->
      get_ticker (ts_symbol signal) e1 = (Ok ticker, e2) ->
      fst (calculate_position_size signal portfolio_value
             (dict_get ticker "last" (ts_price signal)) r1) = Ok quantity ->
      quantity <= 0 ->
      execute_signal today now signal portfolio_value self =
        (Ok None,
         mkOrderManager e2 r1 (dry_run self) (managed_positions self)
           (sim_count self))).
Proof.
  split.
  - intros pv r e s pct.
    destruct (helper_position_size_total pv r e s pct) as [size Hsize].
    exists size. split; [exact Hsize|].
    intros Hzero. revert Hsize. unfold Helpers.calculate_position_size.
    destruct (Qleb e 0 || Qleb s 0)%bool eqn:Hguard; [congruence|].
    apply orb_false_iff in Hguard. destruct Hguard as [He Hs].
    apply Qleb_false in He. apply Qleb_false in Hs.
    destruct Hzero as [H0|[H0|Heq]]; try lra.
    assert (Hz : Qeqb (Qabs (e - s)) 0 = true).
    { apply Qeqb_true. rewrite Heq.
      setoid_replace (s - s) with 0 by ring. reflexivity. }
    rewrite Hz. congruence.
  - intros E X self today now signal pv quantity ps e1 reason r1 ticker e2
      Hact Hpos Hcan Htick Hsize Hq.
    unfold execute_signal. rewrite Hact. cbn [negb].
    unfold on_exchange at 1. rewrite Hpos.
    unfold on_risk at 1. cbn [risk_manager set_exchange]. rewrite Hcan.
    cbn [negb]. unfold on_exchange at 1.
    cbn [exchange set_risk_manager set_exchange].
    rewrite Htick.
    assert (Hcalc : calculate_position_size signal pv
                      (dict_get ticker "last" (ts_price signal)) r1
                    = (Ok quantity, r1)).
    { rewrite (surjective_pairing (calculate_position_size _ _ _ _)).
      rewrite Hsize, calculate_position_size_frame. reflexivity. }
    unfold on_risk. cbn [risk_manager set_exchange set_risk_manager].
    rewrite Hcalc.
    apply Qleb_true in Hq. rewrite Hq. reflexivity.
Qed.

Lemma zero_size_places_no_order_witness :
  fst (execute_signal 0%Z 0%Z sample_signal 0 demo_manager) = Ok None /\
  Demo.orders (exchange (snd (execute_signal 0%Z 0%Z sample_signal 0
                                demo_manager))) = [] /\
  managed_positions (snd (execute_signal 0%Z 0%Z sample_signal 0
                            demo_manager)) = [].
Proof.
  assert (Hrun : exists e2 r1,
             execute_signal 0%Z 0%Z sample_signal 0 demo_manager =
               (Ok None,
                mkOrderManager e2 r1 (dry_run demo_manager)
                  (managed_positions demo_manager) (sim_count demo_manager))
             /\ Demo.orders e2 = []).
  { eexists. eexists. split.
    - eapply (proj2 zero_size_places_no_order Demo.t DemoExchange
                demo_manager 0%Z 0%Z sample_signal 0).
      + reflexivity.
      + vm_compute. reflexivity.
      + vm_compute. reflexivity.
      + vm_compute. reflexivity.
      + vm_compute. reflexivity.
      + qdecide.
    - reflexivity. }
  destruct Hrun as (e2 & r1 & Hrun & Horders).
  rewrite Hrun. cbn. repeat split. exact Horders.
Defined.

(** ** Reconciliation *)

(** A leg found FILLED is recorded as an exit, and the managed entry
    stays where it is: nothing marks the exit as recorded, so the next
    pass finds the same leg FILLED again. *)
Lemma check_leg_filled {E : Type} {X : Exchange E} (now : datetime)
    (symbol id : string) (managed : ManagedPosition) (leg : option string)
    (order : Order) (e' : E) (self : OrderManager) :
  truthy_id leg = Some id ->
  get_order id symbol (exchange self) = (Ok (Some order), e') ->
  o_status order = OrderStatus.FILLED ->
  exists self',
    check_leg now symbol managed leg self = (Ok tt, self') /\
    managed_positions self' = managed_positions self /\
    map tr_exit_price (trade_history (risk_manager self')) =
      (map tr_exit_price (trade_history (risk_manager self))
       ++ [Some (o_filled_price order)])%list.
Proof.
  intros Hleg Hget Hfilled. unfold check_leg. rewrite Hleg.
  unfold on_exchange at 1. rewrite Hget. rewrite Hfilled. cbn [OrderStatus.eqb].
  unfold on_risk. cbn [risk_manager set_exchange].
  destruct (record_trade now symbol (OrderSide.value (mp_side managed))
              (mp_quantity managed) (mp_entry_price managed)
              (Some (o_filled_price order)) (risk_manager self))
    as [u r'] eqn:Hrec.
  eexists. split; [reflexivity|]. split; [reflexivity|].
  cbn [risk_manager set_risk_manager].
  assert (Hr' : r' = snd (record_trade now symbol
                            (OrderSide.value (mp_side managed))
                            (mp_quantity managed) (mp_entry_price managed)
                            (Some (o_filled_price order))
                            (risk_manager self)))
    by (rewrite Hrec; reflexivity).
  rewrite Hr'. unfold record_trade, bind, get, modify, ret. cbn.
  destruct (truthy (o_filled_price order)); cbn;
    rewrite map_app; reflexivity.
Qed.

(** A managed position the exchange no longer lists is dropped and the
    risk manager is not told. *)
Lemma check_one_gone {E : Type} {X : Exchange E} (now : datetime)
    (symbol : string) (managed : ManagedPosition) (e' : E)
    (self : OrderManager) :
  get_positions (Some symbol) (exchange self) = (Ok [], e') ->
  check_one now self (symbol, managed) =
    mkOrderManager e' (risk_manager self) (dry_run self)
      (remove (managed_positions self) symbol) (sim_count self).
Proof.
  intros Hget. unfold check_one, on_exchange. rewrite Hget. reflexivity.
Qed.

(** C2 fails on the code.  With a bracket leg reported FILLED once, two
    passes of [check_positions] in succession record the exit twice while
    the exchange still lists the position (stop leg or target leg alike),
    and record no exit at all when the exchange no longer lists it (the
    managed entry is dropped unrecorded); the exit is recorded once only
    when the position is listed on the first pass and gone on the
    second. *)
Theorem check_positions_twice_counts :
  map tr_exit_price
    (recorded_exits
       (check_positions 2%Z
          (check_positions 1%Z (reconciling_manager still_live))))
    = [Some 98; Some 98] /\
  map tr_exit_price
    (recorded_exits
       (check_positions 2%Z
          (check_positions 1%Z (reconciling_manager target_filled))))
    = [Some 105; Some 105] /\
  recorded_exits
    (check_positions 2%Z (check_positions 1%Z (reconciling_manager gone)))
    = [] /\
  managed_positions (check_positions 1%Z (reconciling_manager gone)) = [] /\
  map tr_exit_price
    (recorded_exits
       (check_positions 2%Z
          (set_exchange gone
             (check_positions 1%Z (reconciling_manager still_live)))))
    = [Some 98].
Proof.
  repeat split; vm_compute; reflexivity.
Qed.

(** ** The RSI *)

Import PandasSeries.

Lemma inject_nat_pos (n : nat) : (1 <= n)%nat -> 0 < inject_Z (Z.of_nat n).
Proof. intros Hn. unfold Qlt, inject_Z. cbn [Qnum Qden]. lia. Qed.

Lemma inject_pred_nonneg (n : nat) :
  (1 <= n)%nat -> 0 <= inject_Z (Z.of_nat n - 1).
Proof. intros Hn. unfold Qle, inject_Z. cbn [Qnum Qden]. lia. Qed.

Lemma Qeqb_pos_false (x : Q) : 0 < x -> Qeqb x 0 = false.
Proof. intros Hx. apply Qeqb_false. lra. Qed.

(** *** Series *)

Lemma iloc_set_length (s : list fval) (i : nat) (v : fval) :
  length (iloc_set s i v) = length s.
Proof.
  revert i. induction s as [|x r IH]; intros [|i]; cbn; try reflexivity.
  rewrite IH. reflexivity.
Qed.

Lemma iloc_set_same (s : list fval) (i : nat) (v : fval) :
  (i < length s)%nat -> iloc (iloc_set s i v) i = v.
Proof.
  unfold iloc. revert i. induction s as [|x r IH]; intros [|i] Hi; cbn in *;
    try lia; try reflexivity.
  apply IH. lia.
Qed.

Lemma iloc_set_other (s : list fval) (i j : nat) (v : fval) :
  i <> j -> iloc (iloc_set s i v) j = iloc s j.
Proof.
  unfold iloc. revert i j.
  induction s as [|x r IH]; intros [|i] [|j] Hne; cbn; try reflexivity;
    try congruence.
  apply IH. congruence.
Qed.

Lemma Forall_iloc_set (P : fval -> Prop) (s : list fval) (i : nat) (v : fval) :
  Forall P s -> P v -> Forall P (iloc_set s i v).
Proof.
  intros Hs Hv. revert i.
  induction Hs as [|x r Hx Hr IH]; intros [|i]; cbn; constructor; auto.
Qed.

Lemma Forall_iloc (P : fval -> Prop) (s : list fval) (i : nat) :
  Forall P s -> P NaN -> P (iloc s i).
Proof.
  intros Hs Hd. unfold iloc. revert i.
  induction Hs as [|x r Hx Hr IH]; intros [|i]; cbn; auto.
Qed.

Lemma Forall_skipn (P : fval -> Prop) (s : list fval) (k : nat) :
  Forall P s -> Forall P (skipn k s).
Proof.
  intros Hs. revert k.
  induction Hs as [|x r Hx Hr IH]; intros [|k]; cbn; auto.
Qed.

Lemma Forall_firstn (P : fval -> Prop) (s : list fval) (n : nat) :
  Forall P s -> Forall P (firstn n s).
Proof.
  intros Hs. revert n.
  induction Hs as [|x r Hx Hr IH]; intros [|n]; cbn; auto.
Qed.

Lemma Forall_firstn_skipn (P : fval -> Prop) (s : list fval) (n k : nat) :
  Forall P s -> Forall P (firstn n (skipn k s)).
Proof. intros Hs. apply Forall_firstn, Forall_skipn, Hs. Qed.

Lemma iloc_last_nth (s : list fval) :
  iloc_last s = iloc s (length s - 1).
Proof.
  unfold iloc_last, iloc. induction s as [|x r IH]; [reflexivity|].
  destruct r as [|y r']; [reflexivity|].
  cbn [last length] in *. rewrite IH.
  replace (S (S (length r')) - 1)%nat with (S (length r' - 0))%nat by lia.
  cbn [nth]. replace (S (length r') - 1)%nat with (length r' - 0)%nat by lia.
  reflexivity.
Qed.

Lemma zip_with_length (f : fval -> fval -> fval) (a b : list fval) :
  length a = length b -> length (zip_with f a b) = length a.
Proof.
  revert b. induction a as [|x r IH]; intros [|y s] Hl; cbn in *;
    try reflexivity; try discriminate.
  rewrite IH by lia. reflexivity.
Qed.

Lemma zip_with_iloc (f : fval -> fval -> fval) (a b : list fval) (i : nat) :
  (i < length a)%nat -> (i < length b)%nat ->
  iloc (zip_with f a b) i = f (iloc a i) (iloc b i).
Proof.
  unfold iloc. revert b i.
  induction a as [|x r IH]; intros [|y s] [|i] Ha Hb; cbn in *; try lia;
    try reflexivity.
  apply IH; lia.
Qed.

Lemma Forall_zip_with (P R : fval -> Prop) (f : fval -> fval -> fval)
    (a b : list fval) :
  (forall x y, P x -> P y -> R (f x y)) ->
  Forall P a -> Forall P b -> Forall R (zip_with f a b).
Proof.
  intros Hf Ha. revert b.
  induction Ha as [|x r Hx Hr IH]; intros b Hb; cbn; [constructor|].
  destruct Hb as [|y s Hy Hs]; constructor; auto.
Qed.

Lemma map_iloc (f : fval -> fval) (s : list fval) (i : nat) :
  (i < length s)%nat -> iloc (map f s) i = f (iloc s i).
Proof.
  intros Hi. unfold iloc.
  rewrite (nth_indep (map f s) NaN (f NaN)) by (rewrite length_map; exact Hi).
  apply map_nth.
Qed.

Lemma where_map (f : fval -> fval) (c : fval -> bool) (s : list fval)
    (other : fval) :
  where_ (map f s) (map c s) other =
  map (fun x => if c x then f x else other) s.
Proof.
  induction s as [|x r IH]; cbn; [reflexivity|]. rewrite IH. reflexivity.
Qed.

Lemma where_self (c : fval -> bool) (s : list fval) (other : fval) :
  where_ s (map c s) other = map (fun x => if c x then x else other) s.
Proof.
  induction s as [|x r IH]; cbn; [reflexivity|]. rewrite IH. reflexivity.
Qed.

Lemma diff_from_length (prev : Q) (s : list Q) :
  length (diff_from prev s) = length s.
Proof.
  revert prev. induction s as [|x r IH]; intros prev; cbn; [reflexivity|].
  rewrite IH. reflexivity.
Qed.

Lemma diff_length (s : list Q) : length (diff s) = length s.
Proof.
  destruct s; cbn; [reflexivity|]. rewrite diff_from_length. reflexivity.
Qed.

Lemma diff_from_finite (prev : Q) (s : list Q) :
  Forall nan_or_fin (diff_from prev s).
Proof.
  revert prev. induction s as [|x r IH]; intros prev; cbn; constructor;
    [exact I|apply IH].
Qed.

Lemma diff_finite (s : list Q) : Forall nan_or_fin (diff s).
Proof.
  destruct s; cbn; constructor; [exact I|apply diff_from_finite].
Qed.

Lemma diff_from_rising (prev : Q) (s : list Q) :
  strictly_rising_from prev s -> Forall fin_pos (diff_from prev s).
Proof.
  revert prev. induction s as [|x r IH]; intros prev Hr; cbn in *;
    constructor.
  - cbn. lra.
  - apply IH. tauto.
Qed.

(** *** Sums and means *)

Lemma fsum_from_nonneg (s : list fval) (acc : fval) :
  fin_nonneg acc -> Forall fin_nonneg s ->
  fin_nonneg (fold_left fadd s acc).
Proof.
  intros Hacc Hs. revert acc Hacc.
  induction Hs as [|x r Hx Hr IH]; intros acc Hacc; cbn; [exact Hacc|].
  apply IH. destruct acc, x; cbn in *; try contradiction. lra.
Qed.

Lemma fsum_from_zero (s : list fval) (acc : fval) :
  fin_zero acc -> Forall fin_zero s -> fin_zero (fold_left fadd s acc).
Proof.
  intros Hacc Hs. revert acc Hacc.
  induction Hs as [|x r Hx Hr IH]; intros acc Hacc; cbn; [exact Hacc|].
  apply IH. destruct acc, x; cbn in *; try contradiction. lra.
Qed.

Lemma fdiv_nat_nonneg (v : fval) (w : nat) :
  (1 <= w)%nat -> fin_nonneg v ->
  fin_nonneg (fdiv v (Fin (inject_Z (Z.of_nat w)))).
Proof.
  intros Hw Hv. destruct v; cbn in *; try contradiction.
  rewrite (Qeqb_pos_false _ (inject_nat_pos w Hw)). cbn.
  apply Qdiv_nonneg; [exact Hv|apply inject_nat_pos; exact Hw].
Qed.

Lemma fdiv_nat_zero (v : fval) (w : nat) :
  (1 <= w)%nat -> fin_zero v ->
  fin_zero (fdiv v (Fin (inject_Z (Z.of_nat w)))).
Proof.
  intros Hw Hv. destruct v; cbn in *; try contradiction.
  rewrite (Qeqb_pos_false _ (inject_nat_pos w Hw)). cbn.
  rewrite Hv. unfold Qdiv. ring.
Qed.

Lemma rolling_mean_length (w : nat) (s : list fval) :
  length (rolling_mean w s) = length s.
Proof. unfold rolling_mean. rewrite length_map, length_seq. reflexivity. Qed.

Lemma rolling_mean_iloc (w : nat) (s : list fval) (i : nat) :
  (i < length s)%nat ->
  iloc (rolling_mean w s) i = rolling_mean_at w s i.
Proof.
  intros Hi. unfold iloc, rolling_mean.
  rewrite (nth_indep _ NaN (rolling_mean_at w s 0%nat))
    by (rewrite length_map, length_seq; exact Hi).
  rewrite map_nth. rewrite seq_nth by exact Hi. reflexivity.
Qed.

Lemma rolling_mean_at_nonneg (w : nat) (s : list fval) (i : nat) :
  Forall fin_nonneg s -> nan_or_nonneg (rolling_mean_at w s i).
Proof.
  intros Hs. unfold rolling_mean_at.
  destruct (Nat.eqb_spec w 0); [exact I|].
  destruct (Nat.ltb_spec (S i) w); [exact I|]. cbn [orb].
  assert (Hm : fin_nonneg
                 (fdiv (fsum (firstn w (skipn (S i - w) s)))
                       (Fin (inject_Z (Z.of_nat w))))).
  { apply fdiv_nat_nonneg; [lia|].
    apply fsum_from_nonneg; [cbn; lra|].
    apply Forall_firstn_skipn, Hs. }
  destruct (fdiv _ _); cbn in *; auto.
Qed.

Lemma rolling_mean_at_fin_nonneg (w : nat) (s : list fval) (i : nat) :
  (1 <= w)%nat -> (w <= S i)%nat -> Forall fin_nonneg s ->
  fin_nonneg (rolling_mean_at w s i).
Proof.
  intros Hw Hi Hs. unfold rolling_mean_at.
  destruct (Nat.eqb_spec w 0); [lia|].
  destruct (Nat.ltb_spec (S i) w); [lia|]. cbn [orb].
  apply fdiv_nat_nonneg; [lia|].
  apply fsum_from_nonneg; [cbn; lra|].
  apply Forall_firstn_skipn, Hs.
Qed.

Lemma rolling_mean_at_zero (w : nat) (s : list fval) (i : nat) :
  (1 <= w)%nat -> (w <= S i)%nat -> Forall fin_zero s ->
  fin_zero (rolling_mean_at w s i).
Proof.
  intros Hw Hi Hs. unfold rolling_mean_at.
  destruct (Nat.eqb_spec w 0); [lia|].
  destruct (Nat.ltb_spec (S i) w); [lia|]. cbn [orb].
  apply fdiv_nat_zero; [lia|].
  apply fsum_from_zero; [cbn; lra|].
  apply Forall_firstn_skipn, Hs.
Qed.

Lemma rolling_mean_nonneg (w : nat) (s : list fval) :
  Forall fin_nonneg s -> Forall nan_or_nonneg (rolling_mean w s).
Proof.
  intros Hs. unfold rolling_mean. apply Forall_forall. intros v Hv.
  apply in_map_iff in Hv. destruct Hv as [i [<- _]].
  apply rolling_mean_at_nonneg, Hs.
Qed.

Lemma rolling_mean_zero_window (s : list fval) :
  Forall (eq NaN) (rolling_mean 0 s).
Proof.
  unfold rolling_mean. apply Forall_forall. intros v Hv.
  apply in_map_iff in Hv. destruct Hv as [i [<- _]]. reflexivity.
Qed.

(** *** The smoothing loop *)

Lemma smooth_nonneg (period : nat) (prev cur : fval) :
  (1 <= period)%nat -> nan_or_nonneg prev -> nan_or_nonneg cur ->
  nan_or_nonneg (RSI.smooth period prev cur).
Proof.
  intros Hp Hprev Hcur. unfold RSI.smooth.
  pose proof (inject_pred_nonneg period Hp) as Hp1.
  pose proof (inject_nat_pos period Hp) as Hp0.
  destruct prev, cur; cbn in *; try contradiction; try exact I.
  rewrite (Qeqb_pos_false _ Hp0). cbn.
  apply Qdiv_nonneg; [nra|exact Hp0].
Qed.

Lemma smooth_fin_nonneg (period : nat) (prev cur : fval) :
  (1 <= period)%nat -> fin_nonneg prev -> fin_nonneg cur ->
  fin_nonneg (RSI.smooth period prev cur).
Proof.
  intros Hp Hprev Hcur. unfold RSI.smooth.
  pose proof (inject_pred_nonneg period Hp) as Hp1.
  pose proof (inject_nat_pos period Hp) as Hp0.
  destruct prev, cur; cbn in *; try contradiction.
  rewrite (Qeqb_pos_false _ Hp0). cbn.
  apply Qdiv_nonneg; [nra|exact Hp0].
Qed.

Lemma smooth_fin_zero (period : nat) (prev cur : fval) :
  (1 <= period)%nat -> fin_zero prev -> fin_zero cur ->
  fin_zero (RSI.smooth period prev cur).
Proof.
  intros Hp Hprev Hcur. unfold RSI.smooth.
  pose proof (inject_nat_pos period Hp) as Hp0.
  destruct prev, cur; cbn in *; try contradiction.
  rewrite (Qeqb_pos_false _ Hp0). cbn.
  rewrite Hprev, Hcur. unfold Qdiv. ring.
Qed.

Lemma smooth_fin_pos (period : nat) (prev cur : fval) :
  (1 <= period)%nat -> fin_nonneg prev -> fin_pos cur ->
  fin_pos (RSI.smooth period prev cur).
Proof.
  intros Hp Hprev Hcur. unfold RSI.smooth.
  pose proof (inject_pred_nonneg period Hp) as Hp1.
  pose proof (inject_nat_pos period Hp) as Hp0.
  destruct prev, cur; cbn in *; try contradiction.
  rewrite (Qeqb_pos_false _ Hp0). cbn.
  apply Qlt_shift_div_l; [exact Hp0|]. nra.
Qed.

Lemma smooth_nan (period : nat) (cur : fval) : RSI.smooth period NaN cur = NaN.
Proof. reflexivity. Qed.

Lemma wilder_length (period : nat) (src avg : list fval) (idx : list nat) :
  length (fold_left (RSI.wilder_step period src) idx avg) = length avg.
Proof.
  revert avg. induction idx as [|i r IH]; intros avg; cbn; [reflexivity|].
  rewrite IH. apply iloc_set_length.
Qed.

(** Whatever holds of every entry, of not-a-number, and is kept by one
    smoothing, holds of every entry after the loop. *)
Lemma wilder_Forall (P : fval -> Prop) (period : nat) (src avg : list fval)
    (idx : list nat) :
  P NaN ->
  (forall prev i, P prev -> P (RSI.smooth period prev (iloc src i))) ->
  Forall P avg ->
  Forall P (fold_left (RSI.wilder_step period src) idx avg).
Proof.
  intros Hnan Hstep. revert avg.
  induction idx as [|i r IH]; intros avg Havg; cbn; [exact Havg|].
  apply IH. unfold RSI.wilder_step. apply Forall_iloc_set; [exact Havg|].
  apply Hstep. apply Forall_iloc; assumption.
Qed.

(** The same from an index on: what holds of the entries from [period - 1]
    on and is kept by a smoothing at the indices the loop visits holds of
    them after the loop. *)
Lemma wilder_from (P : fval -> Prop) (period : nat) (src : list fval)
    (k : nat) (avg : list fval) :
  (1 <= period)%nat ->
  (forall prev i,
      (period <= i)%nat -> (i < length avg)%nat ->
      P prev -> P (RSI.smooth period prev (iloc src i))) ->
  (forall j, (period - 1 <= j)%nat -> (j < length avg)%nat ->
             P (iloc avg j)) ->
  forall j, (period - 1 <= j)%nat -> (j < length avg)%nat ->
    P (iloc (fold_left (RSI.wilder_step period src) (seq period k) avg) j).
Proof.
  intros Hp Hstep Havg. induction k as [|k IH]; [exact Havg|].
  intros j Hj1 Hj2. rewrite seq_S, fold_left_app. cbn [fold_left].
  set (r := fold_left (RSI.wilder_step period src) (seq period k) avg) in *.
  assert (Hlen : length r = length avg) by apply wilder_length.
  unfold RSI.wilder_step.
  destruct (Nat.eq_dec (period + k) j) as [He|Hne].
  - subst j. rewrite iloc_set_same by lia.
    apply Hstep; try lia. apply IH; lia.
  - rewrite iloc_set_other by exact Hne. apply IH; assumption.
Qed.

(** The entry the last round of the loop writes. *)
Lemma wilder_last (period : nat) (src avg : list fval) (k : nat) :
  (period + k < length avg)%nat ->
  iloc (fold_left (RSI.wilder_step period src) (seq period (S k)) avg)
       (period + k) =
  RSI.smooth period
    (iloc (fold_left (RSI.wilder_step period src) (seq period k) avg)
          (period + k - 1))
    (iloc src (period + k)).
Proof.
  intros Hk. rewrite seq_S, fold_left_app. cbn [fold_left].
  set (r := fold_left (RSI.wilder_step period src) (seq period k) avg).
  assert (Hlen : length r = length avg) by apply wilder_length.
  unfold RSI.wilder_step. rewrite iloc_set_same; [reflexivity|lia].
Qed.

(** *** Gains and losses *)

Lemma Forall_iloc_in (P : fval -> Prop) (s : list fval) (i : nat) :
  Forall P s -> (i < length s)%nat -> P (iloc s i).
Proof.
  intros Hs Hi. unfold iloc. apply (proj1 (Forall_nth P s) Hs). exact Hi.
Qed.

Lemma gains_length (close : list Q) : length (gains close) = length close.
Proof.
  unfold gains. cbv zeta. rewrite where_self, length_map. apply diff_length.
Qed.

Lemma losses_length (close : list Q) : length (losses close) = length close.
Proof.
  unfold losses. cbv zeta. rewrite where_map, length_map. apply diff_length.
Qed.

Lemma gains_nonneg (close : list Q) : Forall fin_nonneg (gains close).
Proof.
  unfold gains. cbv zeta. rewrite where_self. apply Forall_map.
  eapply Forall_impl; [|apply diff_finite].
  intros d Hd. destruct d; cbn in *; try contradiction; [|lra].
  unfold fgt. cbn. destruct (Qltb 0 q) eqn:Hq; cbn; [|lra].
  apply Qltb_true in Hq. lra.
Qed.

Lemma losses_nonneg (close : list Q) : Forall fin_nonneg (losses close).
Proof.
  unfold losses. cbv zeta. rewrite where_map. apply Forall_map.
  eapply Forall_impl; [|apply diff_finite].
  intros d Hd. destruct d; cbn in *; try contradiction; [|lra].
  destruct (Qltb q 0) eqn:Hq; cbn; [|lra].
  apply Qltb_true in Hq. lra.
Qed.

Lemma losses_rising (close : list Q) :
  strictly_rising close -> Forall fin_zero (losses close).
Proof.
  intros Hr. unfold losses. cbv zeta. rewrite where_map. apply Forall_map.
  destruct close as [|x r]; cbn; [constructor|].
  constructor; [cbn; lra|].
  eapply Forall_impl; [|apply diff_from_rising; exact Hr].
  intros d Hd. destruct d; cbn in *; try contradiction.
  destruct (Qltb q 0) eqn:Hq; cbn; [|lra].
  apply Qltb_true in Hq. lra.
Qed.

Lemma gains_rising (close : list Q) (j : nat) :
  strictly_rising close -> (1 <= j)%nat -> (j < length close)%nat ->
  fin_pos (iloc (gains close) j).
Proof.
  intros Hr Hj1 Hj2. unfold gains. cbv zeta. rewrite where_self.
  destruct close as [|x r]; cbn in Hj2; [lia|].
  destruct j as [|j]; [lia|]. cbn [diff map]. unfold iloc. cbn [nth].
  assert (Hpos : Forall fin_pos
                   (map (fun d => if fgt d (Fin 0) then d else Fin 0)
                        (diff_from x r))).
  { apply Forall_map.
    eapply Forall_impl; [|apply diff_from_rising; exact Hr].
    intros d Hd. destruct d; cbn in *; try contradiction.
    unfold fgt. cbn. destruct (Qltb 0 q) eqn:Hq; cbn; [exact Hd|].
    apply Qltb_false in Hq. lra. }
  apply (Forall_iloc_in fin_pos _ j Hpos).
  rewrite length_map, diff_from_length. lia.
Qed.

Lemma fin_nonneg_weaken (s : list fval) :
  Forall fin_nonneg s -> Forall nan_or_nonneg s.
Proof.
  apply Forall_impl. intros v Hv. destruct v; cbn in *; auto.
Qed.

(** *** The index *)

Lemma rs_range (a b : fval) :
  nan_or_nonneg a -> nan_or_nonneg b -> nonneg_or_inf (fdiv a b).
Proof.
  intros Ha Hb. destruct a as [x| | |], b as [y| | |]; cbn in *;
    try contradiction; try exact I.
  destruct (Qeqb y 0) eqn:Hy.
  - destruct (Qeqb x 0) eqn:Hx; [exact I|].
    apply Qeqb_false in Hx.
    assert (Hpos : Qltb 0 x = true) by (apply Qltb_true; lra).
    rewrite Hpos. exact I.
  - apply Qeqb_false in Hy. cbn. apply Qdiv_nonneg; lra.
Qed.

Lemma rsi_of_rs_range (rs : fval) :
  nonneg_or_inf rs -> within_0_100 (RSI.rsi_of_rs rs).
Proof.
  intros Hrs. unfold within_0_100, RSI.rsi_of_rs, fgt.
  destruct rs as [q| | |]; cbn in *; try contradiction.
  - assert (Hq : Qeqb (1 + q) 0 = false) by (apply Qeqb_false; lra).
    rewrite Hq. cbn.
    assert (H0 : 0 <= 100 / (1 + q)) by (apply Qdiv_nonneg; lra).
    assert (H1 : 100 / (1 + q) <= 100)
      by (apply Qle_shift_div_r; [lra|nra]).
    split; apply Qltb_false; lra.
  - split; reflexivity.
  - split; reflexivity.
Qed.

Lemma rsi_of_rs_saturated (a b : fval) :
  fin_pos a -> fin_zero b ->
  exists v, RSI.rsi_of_rs (fdiv a b) = Fin v /\ v == 100.
Proof.
  intros Ha Hb. destruct a as [x| | |], b as [y| | |]; cbn in *;
    try contradiction.
  assert (Hy : Qeqb y 0 = true) by (apply Qeqb_true; exact Hb).
  assert (Hx : Qeqb x 0 = false) by (apply Qeqb_false; lra).
  assert (Hpos : Qltb 0 x = true) by (apply Qltb_true; exact Ha).
  rewrite Hy, Hx, Hpos. cbn. eexists. split; [reflexivity|]. ring.
Qed.

Lemma calculate_rsi_unfold (self : RSI.t) (close : list Q) :
  RSI._calculate_rsi self close =
  map RSI.rsi_of_rs
    (zip_with fdiv
       (RSI.wilder (RSI.period self) (gains close)
          (rolling_mean (RSI.period self) (gains close)) (length close))
       (RSI.wilder (RSI.period self) (losses close)
          (rolling_mean (RSI.period self) (losses close)) (length close))).
Proof. reflexivity. Qed.

Lemma wilder_nonneg (period : nat) (src : list fval) (len : nat) :
  Forall fin_nonneg src ->
  Forall nan_or_nonneg
    (RSI.wilder period src (rolling_mean period src) len).
Proof.
  intros Hsrc. unfold RSI.wilder.
  destruct (Nat.eq_dec period 0) as [->|Hp].
  - assert (Hnan : Forall (eq NaN)
                     (fold_left (RSI.wilder_step 0 src) (seq 0 (len - 0))
                        (rolling_mean 0 src))).
    { apply wilder_Forall; [reflexivity| |apply rolling_mean_zero_window].
      intros prev i <-. reflexivity. }
    eapply Forall_impl; [|exact Hnan]. intros v <-. exact I.
  - apply wilder_Forall; [exact I| |apply rolling_mean_nonneg; exact Hsrc].
    intros prev i Hprev. apply smooth_nonneg; [lia|exact Hprev|].
    apply Forall_iloc; [apply fin_nonneg_weaken; exact Hsrc|exact I].
Qed.

Lemma calculate_rsi_length (self : RSI.t) (close : list Q) :
  length (RSI._calculate_rsi self close) = length close.
Proof.
  rewrite calculate_rsi_unfold, length_map. unfold RSI.wilder.
  rewrite zip_with_length; rewrite !wilder_length, !rolling_mean_length.
  - apply gains_length.
  - rewrite gains_length, losses_length. reflexivity.
Qed.

Lemma calculate_rsi_range (self : RSI.t) (close : list Q) :
  Forall within_0_100 (RSI._calculate_rsi self close).
Proof.
  rewrite calculate_rsi_unfold. apply Forall_map.
  eapply Forall_impl; [intros v Hv; apply rsi_of_rs_range; exact Hv|].
  apply (Forall_zip_with nan_or_nonneg nonneg_or_inf fdiv).
  - exact rs_range.
  - apply wilder_nonneg, gains_nonneg.
  - apply wilder_nonneg, losses_nonneg.
Qed.

Lemma calculate_rsi_rising (self : RSI.t) (close : list Q) :
  (1 <= RSI.period self)%nat ->
  (RSI.period self < length close)%nat ->
  strictly_rising close ->
  exists v, iloc_last (RSI._calculate_rsi self close) = Fin v /\ v == 100.
Proof.
  intros Hp Hlen Hr.
  set (p := RSI.period self) in *.
  set (len := length close) in *.
  rewrite iloc_last_nth, calculate_rsi_length. fold len.
  rewrite calculate_rsi_unfold. fold p len.
  set (ag := RSI.wilder p (gains close) (rolling_mean p (gains close)) len).
  set (al := RSI.wilder p (losses close) (rolling_mean p (losses close)) len).
  assert (Hlag : length ag = len).
  { unfold ag, RSI.wilder.
    rewrite wilder_length, rolling_mean_length. apply gains_length. }
  assert (Hlal : length al = len).
  { unfold al, RSI.wilder.
    rewrite wilder_length, rolling_mean_length. apply losses_length. }
  rewrite map_iloc by (rewrite zip_with_length; lia).
  rewrite zip_with_iloc by lia.
  apply rsi_of_rs_saturated.
  - (* the average gain at the last index is positive *)
    unfold ag, RSI.wilder.
    destruct (len - p)%nat as [|k] eqn:Hk; [lia|].
    replace (len - 1)%nat with (p + k)%nat by lia.
    rewrite wilder_last
      by (rewrite rolling_mean_length, gains_length; fold len; lia).
    apply smooth_fin_pos; [exact Hp| |].
    + apply (wilder_from fin_nonneg); try lia.
      * intros prev i Hi1 Hi2 Hprev.
        rewrite rolling_mean_length, gains_length in Hi2.
        apply smooth_fin_nonneg; [exact Hp|exact Hprev|].
        apply Forall_iloc_in; [apply gains_nonneg|].
        rewrite gains_length. exact Hi2.
      * intros j Hj1 Hj2.
        rewrite rolling_mean_length in Hj2.
        rewrite rolling_mean_iloc by exact Hj2.
        apply rolling_mean_at_fin_nonneg; [exact Hp|lia|apply gains_nonneg].
      * rewrite rolling_mean_length, gains_length. fold len. lia.
    + apply gains_rising; [exact Hr|lia|fold len; lia].
  - (* the average loss at the last index is zero *)
    unfold al, RSI.wilder.
    apply (wilder_from fin_zero); try lia.
    + intros prev i Hi1 Hi2 Hprev.
      rewrite rolling_mean_length, losses_length in Hi2.
      apply smooth_fin_zero; [exact Hp|exact Hprev|].
      apply Forall_iloc_in; [apply losses_rising; exact Hr|].
      rewrite losses_length. exact Hi2.
    + intros j Hj1 Hj2.
      rewrite rolling_mean_length in Hj2.
      rewrite rolling_mean_iloc by exact Hj2.
      apply rolling_mean_at_zero;
        [exact Hp|lia|apply losses_rising; exact Hr].
    + rewrite rolling_mean_length, losses_length. fold len. lia.
Qed.

Lemma iloc_last_range (P : fval -> Prop) (s : list fval) :
  Forall P s -> P NaN -> P (iloc_last s).
Proof.
  intros Hs Hnan. rewrite iloc_last_nth. apply Forall_iloc; assumption.
Qed.

Lemma nan_within : within_0_100 NaN.
Proof. split; reflexivity. Qed.

(** C6, as amended.  For an RSI of period at least 1 and every strictly
    rising close series longer than the period, the RSI at the last index
    is exactly 100, whatever the length, so the values along an
    extending series stay at 100; and for every period and every series,
    every computed RSI value, and the value [calculate] and [get_signal]
    report, is neither above 100 nor below 0 (it is undefined or lies in
    [0, 100]). *)
Theorem rsi_rising_100_and_bounded (self : RSI.t) :
  (forall close,
      (1 <= RSI.period self)%nat ->
      (RSI.period self < length close)%nat ->
      strictly_rising close ->
      exists v,
        iloc_last (RSI._calculate_rsi self close) = Fin v /\ v == 100) /\
  (forall close, Forall within_0_100 (RSI._calculate_rsi self close)) /\
  (forall data,
      within_0_100 (ir_value (RSI.calculate self data)) /\
      within_0_100 (ir_value (RSI.get_signal self data))).
Proof.
  split; [|split].
  - intros close. apply calculate_rsi_rising.
  - intros close. apply calculate_rsi_range.
  - intros data.
    assert (Hlast : within_0_100
                      (iloc_last
                         (RSI._calculate_rsi self (ensure_series data)))).
    { apply iloc_last_range; [apply calculate_rsi_range|apply nan_within]. }
    unfold RSI.calculate, RSI.get_signal.
    destruct (negb (validate_data data (RSI.period self + 1)));
      cbn [ir_value]; [split; apply nan_within|].
    split; [exact Hlast|].
    destruct (fle _ _); [exact Hlast|].
    destruct (fge _ _); exact Hlast.
Qed.

Lemma rsi_rising_100_and_bounded_witness :
  exists v,
    iloc_last (RSI._calculate_rsi (RSI.mk 2 70 30) rising_1234) = Fin v /\
    v == 100.
Proof.
  apply (proj1 (rsi_rising_100_and_bounded (RSI.mk 2 70 30)) rising_1234).
  - cbn. lia.
  - cbn. lia.
  - cbn. repeat split; qdecide.
Defined.

(** C6 as stated fails for an RSI of period 0: every series is longer
    than the period, and no value of the RSI is defined, on a rising
    series or any other. *)
Lemma rsi_period_zero_undefined :
  strictly_rising rising_1234 /\
  (RSI.period (RSI.mk 0 70 30) < length rising_1234)%nat /\
  iloc_last (RSI._calculate_rsi (RSI.mk 0 70 30) rising_1234) = NaN /\
  (forall close,
      Forall (eq NaN) (RSI._calculate_rsi (RSI.mk 0 70 30) close)).
Proof.
  split; [cbn; repeat split; qdecide|].
  split; [cbn; lia|].
  split; [vm_compute; reflexivity|].
  intros close. rewrite calculate_rsi_unfold. apply Forall_map.
  assert (Hnan : forall src,
             Forall (eq NaN)
               (RSI.wilder 0 src (rolling_mean 0 src) (length close))).
  { intros src. unfold RSI.wilder.
    apply wilder_Forall; [reflexivity| |apply rolling_mean_zero_window].
    intros prev i <-. reflexivity. }
  cbn [RSI.period].
  eapply Forall_impl;
    [|apply (Forall_zip_with (eq NaN) (eq NaN) fdiv); try apply Hnan].
  - intros v <-. reflexivity.
  - intros x y <- <-. reflexivity.
Qed.

(** * Further properties *)

(** ** Rounding of quantities *)

Lemma pow10_pos (precision : nat) : (0 < 10 ^ Z.of_nat precision)%Z.
Proof. apply Z.pow_pos_nonneg; lia. Qed.

(** X1.  [round_quantity] truncates towards zero at the given number of
    decimals: a quantity that is not negative is rounded down by less
    than one unit of the last decimal, one that is not positive is
    rounded up by less than one unit, and a rounded quantity is rounded
    to itself. *)
Theorem round_quantity_truncates (quantity : Q) (precision : nat) (r : Q) :
  Helpers.round_quantity quantity precision = Ok r ->
  let unit := 1 / inject_Z (10 ^ Z.of_nat precision) in
  (0 <= quantity -> 0 <= r /\ r <= quantity /\ quantity < r + unit) /\
  (quantity <= 0 -> r <= 0 /\ quantity <= r /\ r - unit < quantity) /\
  Helpers.round_quantity r precision = Ok r.
Proof.
  unfold Helpers.round_quantity.
  generalize (10 ^ Helpers.decimal_prec)%Z as bound. intros bound.
  pose proof (pow10_pos precision) as Hf. revert Hf.
  generalize (10 ^ Z.of_nat precision)%Z as factor. intros factor Hf.
  destruct quantity as [n d]. cbn [Qnum Qden].
  set (c := (n * factor ÷ Z.pos d)%Z).
  destruct (bound <=? Z.abs c)%Z eqn:Hb; [discriminate|].
  intros [= <-]. cbv zeta.
  pose proof (Z.quot_rem' (n * factor) (Z.pos d)) as Hqr. fold c in Hqr.
  assert (HfQ : 0 < inject_Z factor).
  { unfold Qlt, inject_Z. cbn [Qnum Qden]. lia. }
  assert (Hunit : forall z : Z,
             inject_Z z / inject_Z factor + 1 / inject_Z factor ==
             inject_Z (z + 1) / inject_Z factor).
  { intros z. rewrite inject_Z_plus. field. lra. }
  assert (Hunit' : forall z : Z,
             inject_Z z / inject_Z factor - 1 / inject_Z factor ==
             inject_Z (z - 1) / inject_Z factor).
  { intros z. unfold Z.sub. rewrite inject_Z_plus, inject_Z_opp. field. lra. }
  split; [|split].
  - intros Hq.
    assert (Hn : (0 <= n)%Z).
    { unfold Qle in Hq. cbn [Qnum Qden] in Hq. lia. }
    pose proof (Z.rem_bound_pos (n * factor) (Z.pos d)) as Hr.
    assert (Hc0 : (0 <= c)%Z) by (unfold c; apply Z.quot_pos; lia).
    split; [|split].
    + apply Qle_shift_div_l; [exact HfQ|].
      unfold Qle, inject_Z, Qmult. cbn [Qnum Qden]. lia.
    + apply Qle_shift_div_r; [exact HfQ|].
      unfold Qle, inject_Z, Qmult. cbn [Qnum Qden]. lia.
    + rewrite Hunit. apply Qlt_shift_div_l; [exact HfQ|].
      unfold Qlt, inject_Z, Qmult. cbn [Qnum Qden]. lia.
  - intros Hq.
    assert (Hn : (n <= 0)%Z).
    { unfold Qle in Hq. cbn [Qnum Qden] in Hq. lia. }
    pose proof (Z.rem_bound_pos_neg (n * factor) (Z.pos d)) as Hr.
    assert (Hnf : (n * factor <= 0)%Z) by nia.
    assert (Hc0 : (c <= 0)%Z) by nia.
    split; [|split].
    + apply Qle_shift_div_r; [exact HfQ|].
      unfold Qle, inject_Z, Qmult. cbn [Qnum Qden]. lia.
    + apply Qle_shift_div_l; [exact HfQ|].
      unfold Qle, inject_Z, Qmult. cbn [Qnum Qden]. lia.
    + rewrite Hunit'. apply Qlt_shift_div_r; [exact HfQ|].
      unfold Qlt, inject_Z, Qmult. cbn [Qnum Qden]. lia.
  - destruct factor as [|f|f]; try lia.
    unfold Qdiv, Qinv, Qmult, inject_Z. cbn [Qnum Qden].
    replace (c * 1 * Z.pos f ÷ Z.pos (1 * f))%Z with c.
    + rewrite Hb. reflexivity.
    + rewrite Pos.mul_1_l, Z.mul_1_r. symmetry. apply Z.quot_mul. lia.
Qed.

Lemma round_quantity_truncates_witness :
  let unit := 1 / inject_Z (10 ^ Z.of_nat 8) in
  let r := inject_Z 123456789 / inject_Z (10 ^ Z.of_nat 8) in
  (0 <= 1.234567891 -> 0 <= r /\ r <= 1.234567891 /\ 1.234567891 < r + unit) /\
  (1.234567891 <= 0 ->
   r <= 0 /\ 1.234567891 <= r /\ r - unit < 1.234567891) /\
  Helpers.round_quantity r 8 = Ok r.
Proof.
  apply (round_quantity_truncates 1.234567891 8).
  vm_compute. reflexivity.
Defined.

(** ** Profit and loss *)

(** X3.  [calculate_pnl] treats every side other than "buy" (in any
    letter case) as a short: the PnL of a long is the negative of the PnL
    of the short over the same prices and quantity; and
    [calculate_pnl_percent] never divides by zero: it returns 0.0 for an
    entry price of 0 and otherwise the percentage [pct] with
    [calculate_pnl = pct / 100 * entry_price * quantity]. *)
Theorem pnl_long_short (entry_price exit_price quantity : Q)
    (side : string) :
  calculate_pnl entry_price exit_price quantity "buy" ==
    - calculate_pnl entry_price exit_price quantity "sell" /\
  (lower side <> "buy" ->
   calculate_pnl entry_price exit_price quantity side =
   calculate_pnl entry_price exit_price quantity "sell") /\
  exists pct,
    calculate_pnl_percent entry_price exit_price side = Ok pct /\
    (entry_price == 0 -> pct = 0) /\
    (~ entry_price == 0 ->
     calculate_pnl entry_price exit_price quantity side ==
     pct / 100 * entry_price * quantity).
Proof.
  split; [|split].
  - assert (Hb : String.eqb (lower "buy") "buy" = true) by reflexivity.
    assert (Hs : String.eqb (lower "sell") "buy" = false) by reflexivity.
    unfold calculate_pnl. rewrite Hb, Hs. ring.
  - intros Hside. unfold calculate_pnl.
    destruct (String.eqb_spec (lower side) "buy"); [contradiction|].
    reflexivity.
  - unfold calculate_pnl_percent, calculate_pnl, pydiv.
    destruct (Qeqb entry_price 0) eqn:He.
    + apply Qeqb_true in He. exists 0. split; [reflexivity|].
      split; [reflexivity|]. intros Hne. contradiction.
    + apply Qeqb_false in He.
      destruct (String.eqb (lower side) "buy"); eexists;
        (split; [reflexivity|]); (split; [intros H0; contradiction|]);
        intros _; field; exact He.
Qed.

Lemma pnl_long_short_witness :
  calculate_pnl 100 95 2 "Sell" = calculate_pnl 100 95 2 "sell".
Proof.
  apply (proj1 (proj2 (pnl_long_short 100 95 2 "Sell"))).
  cbn. discriminate.
Defined.

(** ** Trade statistics *)

Lemma filter_length_le {A} (f : A -> bool) (l : list A) :
  (length (filter f l) <= length l)%nat.
Proof.
  induction l as [|x r IH]; cbn; [lia|]. destruct (f x); cbn; lia.
Qed.

(** X4.  The statistics are consistent: the winning and the losing trades
    add up to the number of records in the history, the win rate lies in
    [0, 1], and an empty history gives a win rate of 0 instead of a
    division by zero. *)
Theorem get_stats_consistent (self : RiskManager) :
  let stats := fst (get_stats self) in
  total_trades stats = Z.of_nat (length (trade_history self)) /\
  (winning_trades stats + losing_trades stats = total_trades stats)%Z /\
  (0 <= winning_trades stats <= total_trades stats)%Z /\
  0 <= win_rate stats /\ win_rate stats <= 1 /\
  (trade_history self = [] -> win_rate stats = 0) /\
  snd (get_stats self) = self.
Proof.
  unfold get_stats, bind, get, ret. cbn.
  set (h := trade_history self).
  pose proof (filter_length_le (fun t => Qltb 0 (tr_pnl t)) h) as Hle.
  set (w := length (filter (fun t => Qltb 0 (tr_pnl t)) h)) in *.
  repeat split; try lia.
  - destruct (0 <? Z.of_nat (length h))%Z eqn:Hpos; [|lra].
    apply Z.ltb_lt in Hpos. apply Qdiv_nonneg.
    + unfold Qle, inject_Z. cbn [Qnum Qden]. lia.
    + unfold Qlt, inject_Z. cbn [Qnum Qden]. lia.
  - destruct (0 <? Z.of_nat (length h))%Z eqn:Hpos; [|lra].
    apply Z.ltb_lt in Hpos. apply Qle_shift_div_r.
    + unfold Qlt, inject_Z. cbn [Qnum Qden]. lia.
    + unfold Qle, inject_Z, Qmult. cbn [Qnum Qden]. lia.
  - intros Hempty. unfold h in *. rewrite Hempty. reflexivity.
Qed.

Lemma get_stats_consistent_witness :
  win_rate (fst (get_stats (new_risk_manager None 0%Z))) = 0.
Proof.
  apply (get_stats_consistent (new_risk_manager None 0%Z)). reflexivity.
Defined.

Lemma record_trade_history (now : datetime) (symbol side : string)
    (quantity entry_price : Q) (exit_price : option Q)
    (self : RiskManager) :
  let self' :=
    snd (record_trade now symbol side quantity entry_price exit_price self) in
  trade_history self' =
    (trade_history self ++
     [mkTradeRecord symbol side quantity entry_price exit_price
        (booked_pnl side quantity entry_price exit_price) now])%list /\
  daily_pnl self' ==
    daily_pnl self + booked_pnl side quantity entry_price exit_price /\
  daily_trades self' = (daily_trades self + 1)%Z /\
  last_trade_time self' = Some now /\
  current_date self' = current_date self /\
  peak_portfolio_value self' = peak_portfolio_value self /\
  limits self' = limits self.
Proof.
  unfold record_trade, booked_pnl, calculate_pnl, bind, get, modify, ret.
  cbn. destruct exit_price as [x|]; cbn.
  - destruct (truthy x); cbn; repeat split; try reflexivity; ring.
  - repeat split; try reflexivity. ring.
Qed.

Lemma sum_pnl_app (h : list TradeRecord) (t : TradeRecord) (acc : Q) :
  fold_left (fun a r => a + tr_pnl r) (h ++ [t]) acc =
  fold_left (fun a r => a + tr_pnl r) h acc + tr_pnl t.
Proof. rewrite fold_left_app. reflexivity. Qed.

(** X5.  What [record_trade] books is booked twice over, consistently:
    over any sequence of [record_trade] calls the daily PnL grows by
    exactly what the total PnL of the statistics grows by, and the daily
    trade counter by exactly the number of records added; the earlier
    records are kept in place.  A call without an exit price, or with an
    exit price of 0.0, books no PnL but counts as a trade. *)
Theorem record_trades_books_consistently (calls : list TradeCall)
    (self : RiskManager) :
  let self' := record_trades calls self in
  total_pnl (fst (get_stats self')) - daily_pnl self' ==
    total_pnl (fst (get_stats self)) - daily_pnl self /\
  (total_trades (fst (get_stats self')) - daily_trades self' =
   total_trades (fst (get_stats self)) - daily_trades self)%Z /\
  daily_trades self' = (daily_trades self + Z.of_nat (length calls))%Z /\
  firstn (length (trade_history self)) (trade_history self') =
    trade_history self /\
  (forall now symbol side quantity entry_price,
      daily_pnl (snd (record_trade now symbol side quantity entry_price
                        (Some 0) self)) == daily_pnl self).
Proof.
  cbv zeta. split; [|split; [|split; [|split]]].
  - revert self. induction calls as [|c r IH]; intros self; [reflexivity|].
    cbn [record_trades fold_left]. unfold record_trades in IH. rewrite IH.
    destruct (record_trade_history (tc_now c) (tc_symbol c) (tc_side c)
                (tc_quantity c) (tc_entry_price c) (tc_exit_price c) self)
      as (Hh & Hd & _).
    unfold get_stats, bind, get, ret in *. cbn in *.
    rewrite Hh, sum_pnl_app, Hd. cbn. ring.
  - revert self. induction calls as [|c r IH]; intros self; [reflexivity|].
    cbn [record_trades fold_left]. unfold record_trades in IH. rewrite IH.
    destruct (record_trade_history (tc_now c) (tc_symbol c) (tc_side c)
                (tc_quantity c) (tc_entry_price c) (tc_exit_price c) self)
      as (Hh & _ & Hn & _).
    unfold get_stats, bind, get, ret in *. cbn in *.
    rewrite Hh, Hn, length_app. cbn. lia.
  - revert self. induction calls as [|c r IH]; intros self;
      [cbn; lia|].
    cbn [record_trades fold_left length]. unfold record_trades in IH.
    rewrite IH.
    destruct (record_trade_history (tc_now c) (tc_symbol c) (tc_side c)
                (tc_quantity c) (tc_entry_price c) (tc_exit_price c) self)
      as (_ & _ & Hn & _).
    cbn in Hn. rewrite Hn. lia.
  - revert self. induction calls as [|c r IH]; intros self.
    + cbn. apply firstn_all.
    + cbn [record_trades fold_left]. unfold record_trades in IH.
      destruct (record_trade_history (tc_now c) (tc_symbol c) (tc_side c)
                  (tc_quantity c) (tc_entry_price c) (tc_exit_price c) self)
        as (Hh & _).
      cbn in Hh.
      set (s1 := snd (record_trade (tc_now c) (tc_symbol c) (tc_side c)
                        (tc_quantity c) (tc_entry_price c)
                        (tc_exit_price c) self)) in *.
      specialize (IH s1).
      assert (Hpre : firstn (length (trade_history self))
                       (firstn (length (trade_history s1))
                          (trade_history
                             (fold_left
                                (fun s c0 =>
                                   snd (record_trade (tc_now c0)
                                          (tc_symbol c0) (tc_side c0)
                                          (tc_quantity c0)
                                          (tc_entry_price c0)
                                          (tc_exit_price c0) s)) r s1)))
                     = trade_history self).
      { rewrite IH, Hh. rewrite firstn_app, Nat.sub_diag, firstn_all.
        cbn. apply app_nil_r. }
      rewrite firstn_firstn in Hpre.
      rewrite Hh in Hpre at 1. rewrite length_app in Hpre. cbn in Hpre.
      rewrite Nat.min_l in Hpre by lia. exact Hpre.
  - intros now symbol side quantity entry_price.
    destruct (record_trade_history now symbol side quantity entry_price
                (Some 0) self) as (_ & Hd & _).
    cbn in Hd. rewrite Hd. cbn. ring.
Qed.

(** ** The risk gates, read as limits *)

Ltac gate_props :=
  repeat match goal with
         | H : Qltb _ _ = true |- _ => apply Qltb_true in H
         | H : Qltb _ _ = false |- _ => apply Qltb_false in H
         | H : Qleb _ _ = true |- _ => apply Qleb_true in H
         | H : Qleb _ _ = false |- _ => apply Qleb_false in H
         | H : (_ <=? _)%Z = true |- _ => apply Z.leb_le in H
         | H : (_ <=? _)%Z = false |- _ => apply Z.leb_gt in H
         end.

Lemma check_drawdown_run (current_value : Q) (s : RiskManager) :
  check_drawdown current_value s =
  (drawdown_ok current_value s, drawdown_state current_value s).
Proof.
  unfold check_drawdown, drawdown_ok, drawdown_state, bind, get, modify, ret.
  cbn. destruct (Qleb (peak_portfolio_value s) 0); cbn; [reflexivity|].
  destruct (Qltb _ _); reflexivity.
Qed.

Lemma check_daily_loss_run (s : RiskManager) :
  check_daily_loss s = (daily_loss_ok s, s).
Proof.
  unfold check_daily_loss, daily_loss_ok, bind, get, ret. cbn.
  destruct (Qltb _ _); reflexivity.
Qed.

Lemma check_trade_frequency_run (now : datetime) (s : RiskManager) :
  check_trade_frequency now s = (frequency_ok now s, s).
Proof.
  unfold check_trade_frequency, frequency_ok, bind, get, ret. cbn.
  destruct (last_trade_time s); cbn; [|reflexivity].
  destruct (Qltb _ _); reflexivity.
Qed.

Lemma check_daily_trade_count_run (s : RiskManager) :
  check_daily_trade_count s = (trade_count_ok s, s).
Proof.
  unfold check_daily_trade_count, trade_count_ok, bind, get, ret. cbn.
  destruct (_ <=? _)%Z; reflexivity.
Qed.

Lemma check_position_count_run (n : Z) (s : RiskManager) :
  check_position_count n s = (position_count_ok n s, s).
Proof.
  unfold check_position_count, position_count_ok, bind, get, ret. cbn.
  destruct (_ <=? _)%Z; reflexivity.
Qed.

Lemma can_trade_run (today : date) (now : datetime)
    (portfolio_value : Q) (current_positions : Z) (self : RiskManager) :
  let s2 :=
    snd (update_portfolio_peak portfolio_value
           (snd (reset_daily today self))) in
  can_trade today now portfolio_value current_positions self =
  (verdict now current_positions (drawdown_ok portfolio_value s2)
     (drawdown_state portfolio_value s2),
   drawdown_state portfolio_value s2).
Proof.
  cbv zeta. unfold can_trade. rewrite !bind_skip.
  generalize (snd (update_portfolio_peak portfolio_value
                     (snd (reset_daily today self)))) as s2.
  intros s2. unfold bind, verdict.
  rewrite check_drawdown_run.
  destruct (drawdown_ok portfolio_value s2); cbn [negb]; [|reflexivity].
  rewrite check_daily_loss_run.
  destruct (daily_loss_ok _); cbn [negb]; [|reflexivity].
  rewrite check_trade_frequency_run.
  destruct (frequency_ok _ _); cbn [negb]; [|reflexivity].
  rewrite check_daily_trade_count_run.
  destruct (trade_count_ok _); cbn [negb]; [|reflexivity].
  rewrite check_position_count_run.
  destruct (position_count_ok _ _); reflexivity.
Qed.

Lemma peak_after_update (portfolio_value : Q) (s : RiskManager) :
  portfolio_value <=
  peak_portfolio_value (snd (update_portfolio_peak portfolio_value s)).
Proof.
  destruct (update_portfolio_peak_spec portfolio_value s) as [_ Hpk].
  destruct Hpk as [[Hlt Heq]|[Hle Heq]]; rewrite Heq; lra.
Qed.

(** X6.  [can_trade] allows a trade exactly when, in the state it leaves
    behind, every limit holds: the drop from the peak is at most
    [max_drawdown] (or the peak is not positive), the daily PnL is not
    below [-max_daily_loss * peak], the last trade (if any) is at least
    [min_trade_interval_minutes] old, fewer than [max_trades_per_day]
    trades are counted for the day, and fewer than [max_open_positions]
    positions are open. *)
Theorem can_trade_allowed_iff (today : date) (now : datetime)
    (portfolio_value : Q) (current_positions : Z) (self : RiskManager) :
  let self' :=
    snd (can_trade today now portfolio_value current_positions self) in
  let peak := peak_portfolio_value self' in
  fst (fst (can_trade today now portfolio_value current_positions self))
    = true <->
  (peak <= 0 \/
   (peak - portfolio_value) / peak <= max_drawdown (limits self')) /\
  - max_daily_loss (limits self') * peak <= daily_pnl self' /\
  match last_trade_time self' with
  | None => True
  | Some t =>
      inject_Z (min_trade_interval_minutes (limits self')) <=
      elapsed_minutes now t
  end /\
  (daily_trades self' < max_trades_per_day (limits self'))%Z /\
  (current_positions < max_open_positions (limits self'))%Z.
Proof.
  cbv zeta. rewrite can_trade_run. cbn [fst snd].
  pose proof (peak_after_update portfolio_value
                (snd (reset_daily today self))) as Hge.
  revert Hge.
  generalize (snd (update_portfolio_peak portfolio_value
                     (snd (reset_daily today self)))) as s2.
  intros s2 Hge.
  unfold verdict, drawdown_ok, drawdown_state, daily_loss_ok, frequency_ok,
    trade_count_ok, position_count_ok.
  destruct (Qleb (peak_portfolio_value s2) 0) eqn:Hp.
  - cbn [negb limits daily_pnl daily_trades last_trade_time
         peak_portfolio_value set_peak_portfolio_value].
    destruct (Qltb (daily_pnl s2) _) eqn:Hl; cbn [negb fst].
    { gate_props. split; [discriminate|]. intros (_ & H2 & _). lra. }
    destruct (last_trade_time s2) as [t|] eqn:Ht.
    + destruct (Qltb (elapsed_minutes now t) _) eqn:Hf; cbn [negb fst].
      { gate_props. split; [discriminate|]. intros (_ & _ & H3 & _). lra. }
      destruct (_ <=? daily_trades s2)%Z eqn:Hc; cbn [negb fst].
      { gate_props. split; [discriminate|].
        intros (_ & _ & _ & H4 & _). lia. }
      destruct (_ <=? current_positions)%Z eqn:Hn; cbn [negb fst].
      { gate_props. split; [discriminate|].
        intros (_ & _ & _ & _ & H5). lia. }
      gate_props. split; [intros _|reflexivity].
      repeat split; try lra; try lia; try (left; lra).
    + destruct (_ <=? daily_trades s2)%Z eqn:Hc; cbn [negb fst].
      { gate_props. split; [discriminate|].
        intros (_ & _ & _ & H4 & _). lia. }
      destruct (_ <=? current_positions)%Z eqn:Hn; cbn [negb fst].
      { gate_props. split; [discriminate|].
        intros (_ & _ & _ & _ & H5). lia. }
      gate_props. split; [intros _|reflexivity].
      repeat split; try lra; try lia; try (left; lra).
  - set (dd := (peak_portfolio_value s2 - portfolio_value)
               / peak_portfolio_value s2).
    destruct (Qltb (max_drawdown (limits s2)) dd) eqn:Hd; cbn [negb fst].
    { gate_props. split; [discriminate|]. intros ([H1|H1] & _); lra. }
    destruct (Qltb (daily_pnl s2) _) eqn:Hl; cbn [negb fst].
    { gate_props. split; [discriminate|]. intros (_ & H2 & _). lra. }
    destruct (last_trade_time s2) as [t|] eqn:Ht.
    + destruct (Qltb (elapsed_minutes now t) _) eqn:Hf; cbn [negb fst].
      { gate_props. split; [discriminate|]. intros (_ & _ & H3 & _). lra. }
      destruct (_ <=? daily_trades s2)%Z eqn:Hc; cbn [negb fst].
      { gate_props. split; [discriminate|].
        intros (_ & _ & _ & H4 & _). lia. }
      destruct (_ <=? current_positions)%Z eqn:Hn; cbn [negb fst].
      { gate_props. split; [discriminate|].
        intros (_ & _ & _ & _ & H5). lia. }
      gate_props. split; [intros _|reflexivity].
      repeat split; try lra; try lia; try (right; lra).
    + destruct (_ <=? daily_trades s2)%Z eqn:Hc; cbn [negb fst].
      { gate_props. split; [discriminate|].
        intros (_ & _ & _ & H4 & _). lia. }
      destruct (_ <=? current_positions)%Z eqn:Hn; cbn [negb fst].
      { gate_props. split; [discriminate|].
        intros (_ & _ & _ & _ & H5). lia. }
      gate_props. split; [intros _|reflexivity].
      repeat split; try lra; try lia; try (right; lra).
Qed.

Lemma can_trade_allowed_iff_witness :
  fst (fst (can_trade 0%Z 0%Z 1000 0 (new_risk_manager None 0%Z))) = true.
Proof.
  apply (proj2 (can_trade_allowed_iff 0%Z 0%Z 1000 0
                  (new_risk_manager None 0%Z))).
  vm_compute. repeat split; try discriminate.
  right. intro H. discriminate H.
Defined.

(** What the opening of [can_trade] (daily reset, peak update, drawdown
    gate) leaves of the manager it started from. *)
Lemma gate_state_fields (today : date) (portfolio_value : Q)
    (self : RiskManager) :
  let s3 :=
    drawdown_state portfolio_value
      (snd (update_portfolio_peak portfolio_value
              (snd (reset_daily today self)))) in
  limits s3 = limits self /\
  last_trade_time s3 = last_trade_time self /\
  trade_history s3 = trade_history self /\
  (current_date self = today -> daily_trades s3 = daily_trades self) /\
  current_date s3 = today.
Proof.
  cbv zeta.
  unfold drawdown_state, update_portfolio_peak, reset_daily, bind, get,
    modify, ret. cbn.
  destruct (Z.eqb_spec today (current_date self)) as [He|Hne]; cbn;
    destruct (Qltb (peak_portfolio_value self) portfolio_value); cbn;
    match goal with
    | |- context [if ?c then _ else _] => destruct c; cbn
    end;
    repeat split; try reflexivity; try (symmetry; exact He);
    intros Hd; congruence.
Qed.

Lemma verdict_frequency (now : datetime) (n : Z) (d : bool)
    (s : RiskManager) :
  frequency_ok now s = false -> fst (verdict now n d s) = false.
Proof.
  intros Hf. unfold verdict. rewrite Hf.
  destruct d; cbn; [|reflexivity].
  destruct (daily_loss_ok s); reflexivity.
Qed.

Lemma verdict_trade_count (now : datetime) (n : Z) (d : bool)
    (s : RiskManager) :
  trade_count_ok s = false -> fst (verdict now n d s) = false.
Proof.
  intros Hf. unfold verdict. rewrite Hf.
  destruct d; cbn; [|reflexivity].
  destruct (daily_loss_ok s); cbn; [|reflexivity].
  destruct (frequency_ok now s); reflexivity.
Qed.

(** X7.  The cool-down: once a trade has been recorded at time [t],
    [can_trade] refuses at every time [now] less than
    [min_trade_interval_minutes] after [t], whatever the day, the
    portfolio value and the number of open positions. *)
Theorem can_trade_cooldown (today : date) (now t : datetime)
    (symbol side : string) (quantity entry_price : Q)
    (exit_price : option Q) (portfolio_value : Q) (current_positions : Z)
    (self : RiskManager) :
  elapsed_minutes now t <
    inject_Z (min_trade_interval_minutes (limits self)) ->
  fst (fst (can_trade today now portfolio_value current_positions
              (snd (record_trade t symbol side quantity entry_price
                      exit_price self)))) = false.
Proof.
  intros Hlt.
  destruct (record_trade_history t symbol side quantity entry_price
              exit_price self) as (_ & _ & _ & Hlast & _ & _ & Hlim).
  cbv zeta in Hlast, Hlim.
  set (s1 := snd (record_trade t symbol side quantity entry_price
                    exit_price self)) in *.
  rewrite can_trade_run. cbn [fst snd].
  destruct (gate_state_fields today portfolio_value s1)
    as (Hl3 & Ht3 & _).
  cbv zeta in Hl3, Ht3.
  apply verdict_frequency. unfold frequency_ok.
  rewrite Ht3, Hlast, Hl3, Hlim.
  apply Qltb_true in Hlt. rewrite Hlt. reflexivity.
Qed.

Lemma can_trade_cooldown_witness :
  fst (fst (can_trade 0%Z 60000000%Z 1000 0
              (snd (record_trade 0%Z "BTC/USDT" "buy" 1 100 None
                      (new_risk_manager None 0%Z))))) = false.
Proof.
  apply (can_trade_cooldown 0%Z 60000000%Z 0%Z "BTC/USDT" "buy" 1 100 None
           1000 0 (new_risk_manager None 0%Z)).
  vm_compute. reflexivity.
Defined.

(** X8.  The high-water mark: after [can_trade] the stored peak is at
    least the portfolio value passed in, and a positive peak is never
    lowered: it becomes the larger of itself and the portfolio value. *)
Theorem can_trade_peak_high_water (today : date) (now : datetime)
    (portfolio_value : Q) (current_positions : Z) (self : RiskManager) :
  let self' :=
    snd (can_trade today now portfolio_value current_positions self) in
  portfolio_value <= peak_portfolio_value self' /\
  (0 < peak_portfolio_value self ->
   peak_portfolio_value self' =
     pymax (peak_portfolio_value self) portfolio_value).
Proof.
  cbv zeta. rewrite can_trade_run. cbn [snd].
  destruct (reset_daily_peak today self) as [Hp1 _].
  revert Hp1. generalize (snd (reset_daily today self)) as s1.
  intros s1 Hp1.
  unfold drawdown_state, update_portfolio_peak, bind, get, modify, ret, pymax.
  cbn. rewrite Hp1.
  destruct (Qltb (peak_portfolio_value self) portfolio_value) eqn:Hc; cbn.
  - apply Qltb_true in Hc.
    destruct (Qleb portfolio_value 0) eqn:Hz; cbn;
      (split; [lra|intros _; reflexivity]).
  - apply Qltb_false in Hc. rewrite Hp1.
    destruct (Qleb (peak_portfolio_value self) 0) eqn:Hz; cbn.
    + apply Qleb_true in Hz. split; [lra|]. intros Hpos. lra.
    + rewrite Hp1. split; [exact Hc|intros _; reflexivity].
Qed.

Lemma can_trade_peak_high_water_witness :
  peak_portfolio_value
    (snd (can_trade 0%Z 0%Z 900 0
            (set_peak_portfolio_value 1000 (new_risk_manager None 0%Z)))) =
  pymax 1000 900.
Proof.
  apply (can_trade_peak_high_water 0%Z 0%Z 900 0
           (set_peak_portfolio_value 1000 (new_risk_manager None 0%Z))).
  reflexivity.
Defined.

Lemma record_trades_fields (calls : list TradeCall) (self : RiskManager) :
  daily_trades (record_trades calls self) =
    (daily_trades self + Z.of_nat (length calls))%Z /\
  current_date (record_trades calls self) = current_date self /\
  limits (record_trades calls self) = limits self.
Proof.
  revert self. induction calls as [|c r IH]; intros self.
  - cbn. repeat split. lia.
  - cbn [record_trades fold_left length]. unfold record_trades in IH.
    destruct (IH (snd (record_trade (tc_now c) (tc_symbol c) (tc_side c)
                         (tc_quantity c) (tc_entry_price c)
                         (tc_exit_price c) self))) as (Hn & Hd & Hl).
    rewrite Hn, Hd, Hl.
    destruct (record_trade_history (tc_now c) (tc_symbol c) (tc_side c)
                (tc_quantity c) (tc_entry_price c) (tc_exit_price c) self)
      as (_ & _ & Hn1 & _ & Hd1 & _ & Hl1).
    cbv zeta in Hn1, Hd1, Hl1. rewrite Hn1, Hd1, Hl1.
    repeat split. lia.
Qed.

(** X9.  The daily cap: when the trades recorded on the stored day bring
    the counter to [max_trades_per_day] or beyond, [can_trade] refuses for
    the rest of that day; entries and exits count alike. *)
Theorem can_trade_daily_cap (now : datetime) (calls : list TradeCall)
    (portfolio_value : Q) (current_positions : Z) (self : RiskManager) :
  (max_trades_per_day (limits self) <=
   daily_trades self + Z.of_nat (length calls))%Z ->
  fst (fst (can_trade (current_date self) now portfolio_value
              current_positions (record_trades calls self))) = false.
Proof.
  intros Hcap.
  destruct (record_trades_fields calls self) as (Hn & Hd & Hl).
  set (s1 := record_trades calls self) in *.
  rewrite can_trade_run. cbn [fst snd].
  destruct (gate_state_fields (current_date self) portfolio_value s1)
    as (Hl3 & _ & _ & Hn3 & _).
  cbv zeta in Hl3, Hn3. specialize (Hn3 Hd).
  apply verdict_trade_count. unfold trade_count_ok.
  rewrite Hn3, Hl3, Hn, Hl.
  apply Z.leb_le in Hcap. rewrite Hcap. reflexivity.
Qed.

Lemma can_trade_daily_cap_witness :
  fst (fst (can_trade 0%Z 7200000000%Z 1000 0
              (record_trades sample_calls
                 (mkRiskManager
                    (mkRiskLimits 0.1 0.05 0.15 0.02 0.05 5 30 2)
                    0 0 None 0%Z 0 [])))) = false.
Proof.
  apply (can_trade_daily_cap 7200000000%Z sample_calls 1000 0
           (mkRiskManager (mkRiskLimits 0.1 0.05 0.15 0.02 0.05 5 30 2)
              0 0 None 0%Z 0 [])).
  vm_compute. discriminate.
Defined.

(** ** Dictionaries *)

Section DictFacts.
Context {V : Type}.

Lemma lookup_store_eq (d : list (string * V)) (k : string) (v : V) :
  lookup (store d k v) k = Some v.
Proof.
  induction d as [|[k' v'] r IH]; cbn.
  - rewrite String.eqb_refl. reflexivity.
  - destruct (String.eqb k' k) eqn:He; cbn; rewrite He; [reflexivity|].
    exact IH.
Qed.

Lemma lookup_store_ne (d : list (string * V)) (k k' : string) (v : V) :
  k <> k' -> lookup (store d k v) k' = lookup d k'.
Proof.
  intros Hne. induction d as [|[k0 v0] r IH]; cbn.
  - destruct (String.eqb_spec k k'); [contradiction|reflexivity].
  - destruct (String.eqb_spec k0 k) as [->|Hk]; cbn.
    + destruct (String.eqb_spec k k'); [contradiction|reflexivity].
    + destruct (String.eqb k0 k'); [reflexivity|exact IH].
Qed.

Lemma lookup_remove_ne (d : list (string * V)) (k k' : string) :
  k <> k' -> lookup (remove d k) k' = lookup d k'.
Proof.
  intros Hne. induction d as [|[k0 v0] r IH]; cbn; [reflexivity|].
  destruct (String.eqb_spec k0 k) as [->|Hk]; cbn.
  - destruct (String.eqb_spec k k'); [contradiction|reflexivity].
  - destruct (String.eqb k0 k'); [reflexivity|exact IH].
Qed.

Lemma lookup_not_in (d : list (string * V)) (k : string) :
  ~ In k (keys d) -> lookup d k = None.
Proof.
  induction d as [|[k0 v0] r IH]; cbn; [reflexivity|].
  intros Hn. destruct (String.eqb_spec k0 k) as [->|Hk]; [tauto|].
  apply IH. tauto.
Qed.

Lemma lookup_remove_eq (d : list (string * V)) (k : string) :
  NoDup (keys d) -> lookup (remove d k) k = None.
Proof.
  induction d as [|[k0 v0] r IH]; cbn; [reflexivity|].
  intros Hnd. inversion Hnd as [|? ? Hin Hr]; subst.
  destruct (String.eqb_spec k0 k) as [->|Hk]; cbn.
  - apply lookup_not_in. exact Hin.
  - destruct (String.eqb_spec k0 k); [contradiction|]. apply IH. exact Hr.
Qed.

Lemma keys_remove_incl (d : list (string * V)) (k : string) :
  incl (keys (remove d k)) (keys d).
Proof.
  induction d as [|[k0 v0] r IH]; cbn; [apply incl_refl|].
  destruct (String.eqb k0 k); cbn.
  - apply incl_tl, incl_refl.
  - apply incl_cons; [left; reflexivity|]. apply incl_tl. exact IH.
Qed.

Lemma keys_store (d : list (string * V)) (k : string) (v : V) :
  keys (store d k v) =
  if contains d k then keys d else (keys d ++ [k])%list.
Proof.
  unfold contains. induction d as [|[k0 v0] r IH]; cbn; [reflexivity|].
  destruct (String.eqb k0 k) eqn:He; cbn; [reflexivity|].
  unfold keys in IH. rewrite IH.
  destruct (lookup r k); reflexivity.
Qed.

Lemma NoDup_keys_store (d : list (string * V)) (k : string) (v : V) :
  NoDup (keys d) -> NoDup (keys (store d k v)).
Proof.
  intros Hnd. rewrite keys_store. unfold contains.
  destruct (lookup d k) eqn:Hl; [exact Hnd|].
  assert (Hin : ~ In k (keys d)).
  { clear Hnd. induction d as [|[k0 v0] r IH]; cbn in *; [tauto|].
    destruct (String.eqb_spec k0 k) as [->|Hk]; [discriminate|].
    intros [H0|H0]; [contradiction|]. exact (IH Hl H0). }
  apply NoDup_rev in Hnd.
  rewrite <- (rev_involutive (keys d ++ [k])). apply NoDup_rev.
  rewrite rev_app_distr. cbn. constructor; [|exact Hnd].
  rewrite <- in_rev. exact Hin.
Qed.

Lemma NoDup_keys_remove (d : list (string * V)) (k : string) :
  NoDup (keys d) -> NoDup (keys (remove d k)).
Proof.
  induction d as [|[k0 v0] r IH]; cbn; [trivial|].
  intros Hnd. inversion Hnd as [|? ? Hin Hr]; subst.
  destruct (String.eqb k0 k); cbn; [exact Hr|].
  constructor; [|apply IH; exact Hr].
  intros Hc. apply Hin. exact (keys_remove_incl r k k0 Hc).
Qed.

End DictFacts.

(** ** The demo exchange, order by order *)

Lemma update_position_frame (symbol : string) (side : OrderSide.t)
    (quantity price : Q) (self : Demo.t) :
  let self' := snd (Demo._update_position symbol side quantity price self) in
  Demo.balances self' = Demo.balances self /\
  Demo.orders self' = Demo.orders self /\
  Demo.prices self' = Demo.prices self /\
  Demo.uuid_count self' = Demo.uuid_count self.
Proof.
  unfold Demo._update_position.
  destruct (lookup (Demo.positions self) symbol) as [pos|];
    [|repeat split].
  destruct (OrderSide.eqb (p_side pos) side).
  - destruct (pydiv _ _); repeat split.
  - destruct (Qleb (p_quantity pos) quantity); repeat split.
Qed.

(** X10.  A rejected order changes nothing on the demo exchange but the
    identifier counter: no balance moves, the order is not stored and no
    position is touched. *)
Theorem demo_rejected_order_changes_nothing (symbol : string)
    (side : OrderSide.t) (order_type : OrderType.t) (quantity : Q)
    (price stop_price : option Q) (self : Demo.t) (order : Order) :
  fst (Demo.place_order symbol side order_type quantity price stop_price
         self) = Ok order ->
  o_status order = OrderStatus.REJECTED ->
  snd (Demo.place_order symbol side order_type quantity price stop_price
         self) = Demo.draw_uuid self /\
  o_filled_quantity order = 0 /\
  o_id order = Demo.order_id_of (Demo.uuid_count self).
Proof.
  unfold Demo.place_order. cbv zeta.
  destruct (Demo._parse_symbol symbol) as [base quote].
  set (settled := if OrderSide.eqb side OrderSide.BUY then _ else _).
  destruct settled as [s1|].
  - destruct (Demo._update_position _ _ _ _ _) as [[u|e] s2]; cbn [fst snd].
    + intros Ho Hst. injection Ho as <-. cbn in Hst.
      destruct (OrderType.eqb order_type OrderType.MARKET); discriminate.
    + discriminate.
  - cbn [fst snd]. intros Ho _. injection Ho as <-.
    repeat split.
Qed.

Lemma demo_rejected_order_changes_nothing_witness :
  snd (Demo.place_order "BTC/USDT" OrderSide.SELL OrderType.MARKET 1 None
         None (Demo.init None Demo.default_fee_rate 0)) =
  Demo.draw_uuid (Demo.init None Demo.default_fee_rate 0).
Proof.
  apply (demo_rejected_order_changes_nothing "BTC/USDT" OrderSide.SELL
           OrderType.MARKET 1 None None
           (Demo.init None Demo.default_fee_rate 0)
           (Demo.rejected "id0" "BTC/USDT" OrderSide.SELL OrderType.MARKET
              1 None)).
  - reflexivity.
  - reflexivity.
Defined.

(** X11.  An order the demo exchange accepts is stored under its
    identifier and [get_order] returns it as placed: a market order as
    FILLED in full at the fill price, every other type as OPEN with
    nothing filled.  This holds even when the position update that
    follows raises. *)
Theorem demo_accepted_order_stored (symbol : string)
    (side : OrderSide.t) (order_type : OrderType.t) (quantity : Q)
    (price stop_price : option Q) (self : Demo.t) :
  let run :=
    Demo.place_order symbol side order_type quantity price stop_price self in
  let id := Demo.order_id_of (Demo.uuid_count self) in
  (forall order, fst run = Ok order -> o_id order = id) /\
  (forall order,
      fst run = Ok order -> o_status order <> OrderStatus.REJECTED ->
      Demo.get_order id symbol (snd run) = Some order /\
      (order_type = OrderType.MARKET ->
       o_status order = OrderStatus.FILLED /\
       o_filled_quantity order = quantity /\
       o_filled_price order =
         demo_fill_price symbol side order_type price self) /\
      (order_type <> OrderType.MARKET ->
       o_status order = OrderStatus.OPEN /\
       o_filled_quantity order = 0)) /\
  (forall e, fst run = Raise e ->
             exists order,
               Demo.get_order id symbol (snd run) = Some order /\
               o_quantity order = quantity).
Proof.
  cbv zeta. unfold Demo.place_order, demo_fill_price, Demo.get_order.
  cbv zeta.
  destruct (Demo._parse_symbol symbol) as [base quote].
  set (settled := if OrderSide.eqb side OrderSide.BUY then _ else _).
  change (Demo.price_of (Demo.draw_uuid self) symbol 100)
    with (Demo.price_of self symbol 100).
  change (Demo.slippage (Demo.draw_uuid self)) with (Demo.slippage self).
  destruct settled as [s1|].
  - match goal with
    | |- context [Demo._update_position ?a ?b ?c ?d ?s] =>
        pose proof (update_position_frame a b c d s) as Hfr;
        destruct (Demo._update_position a b c d s) as [[u|e] s2]
    end; cbv zeta in Hfr; cbn [fst snd] in *;
      destruct Hfr as (_ & Ho & _); rewrite Ho; cbn [Demo.orders Demo.set_orders];
      rewrite lookup_store_eq.
    + split; [|split].
      * intros order Hr. injection Hr as <-. reflexivity.
      * intros order Hr _. injection Hr as <-.
        split; [reflexivity|]. split.
        -- intros ->. cbn. repeat split.
        -- intros Hne. destruct order_type; try contradiction; cbn;
             repeat split.
      * intros e Hr. discriminate.
    + split; [|split].
      * intros order Hr. discriminate.
      * intros order Hr. discriminate.
      * intros e' _. eexists. split; reflexivity.
  - cbn [fst snd]. split; [|split].
    + intros order Hr. injection Hr as <-. reflexivity.
    + intros order Hr Hst. injection Hr as <-. cbn in Hst. contradiction.
    + intros e Hr. discriminate.
Qed.

Lemma demo_accepted_order_stored_witness :
  o_status
    (mkOrder "id0" "BTC/USDT" OrderSide.BUY OrderType.LIMIT 1 (Some 90) None
       OrderStatus.OPEN 0 0 [("fee", XNum (1 * 90 * 0.001))])
    = OrderStatus.OPEN /\
  o_filled_quantity
    (mkOrder "id0" "BTC/USDT" OrderSide.BUY OrderType.LIMIT 1 (Some 90) None
       OrderStatus.OPEN 0 0 [("fee", XNum (1 * 90 * 0.001))]) = 0.
Proof.
  apply (proj1 (proj2 (demo_accepted_order_stored "BTC/USDT" OrderSide.BUY
                         OrderType.LIMIT 1 (Some 90) None
                         (Demo.init None Demo.default_fee_rate 0)))
           (mkOrder "id0" "BTC/USDT" OrderSide.BUY OrderType.LIMIT 1
              (Some 90) None OrderStatus.OPEN 0 0
              [("fee", XNum (1 * 90 * 0.001))])).
  - reflexivity.
  - discriminate.
  - discriminate.
Defined.

(** X12.  [cancel_order] succeeds exactly on a stored order that is OPEN
    and marks it CANCELLED; it never moves a balance or a position, so
    what the order had taken from the balances when it was placed stays
    taken; and a second cancellation of the same order fails and changes
    nothing. *)
Theorem demo_cancel_order (order_id symbol : string) (self : Demo.t) :
  let answer := fst (Demo.cancel_order order_id symbol self) in
  let self' := snd (Demo.cancel_order order_id symbol self) in
  (answer = true <->
   exists o, Demo.get_order order_id symbol self = Some o /\
             o_status o = OrderStatus.OPEN) /\
  (answer = true ->
   exists o', Demo.get_order order_id symbol self' = Some o' /\
              o_status o' = OrderStatus.CANCELLED) /\
  (answer = false -> self' = self) /\
  Demo.balances self' = Demo.balances self /\
  Demo.positions self' = Demo.positions self /\
  Demo.cancel_order order_id symbol self' = (false, self') /\
  (forall other,
      other <> order_id ->
      Demo.get_order other symbol self' = Demo.get_order other symbol self).
Proof.
  cbv zeta. unfold Demo.cancel_order, Demo.get_order.
  destruct (lookup (Demo.orders self) order_id) as [o|] eqn:Hl.
  - destruct (OrderStatus.eqb (o_status o) OrderStatus.OPEN) eqn:Hs;
      cbn [fst snd].
    + repeat split.
      * intros _. exists o. split; [reflexivity|].
        destruct (o_status o); try discriminate. reflexivity.
      * intros _. cbn [Demo.orders Demo.set_orders].
        rewrite lookup_store_eq. eexists. split; reflexivity.
      * discriminate.
      * cbn [Demo.orders Demo.set_orders]. rewrite lookup_store_eq.
        reflexivity.
      * intros other Hne. cbn [Demo.orders Demo.set_orders].
        apply lookup_store_ne. congruence.
    + repeat split; try discriminate.
      * intros (o' & Ho' & Hst). injection Ho' as <-.
        rewrite Hst in Hs. discriminate.
      * rewrite Hl, Hs. reflexivity.
  - cbn [fst snd]. repeat split; try discriminate.
    + intros (o' & Ho' & _). discriminate.
    + rewrite Hl. reflexivity.
Qed.

Lemma demo_cancel_order_witness :
  exists o',
    Demo.get_order "id0" "BTC/USDT"
      (snd (Demo.cancel_order "id0" "BTC/USDT" demo_resting)) = Some o' /\
    o_status o' = OrderStatus.CANCELLED.
Proof.
  apply (proj1 (proj2 (demo_cancel_order "id0" "BTC/USDT" demo_resting))).
  reflexivity.
Defined.

(** ** Symbols *)

Lemma append_assoc (a b c : string) :
  ((a ++ b) ++ c)%string = (a ++ (b ++ c))%string.
Proof. induction a as [|x a IH]; cbn; [reflexivity|]. rewrite IH. reflexivity. Qed.

Lemma append_nil_r (a : string) : (a ++ "")%string = a.
Proof. induction a as [|x a IH]; cbn; [reflexivity|]. rewrite IH. reflexivity. Qed.

Lemma split_slash_plain (s cur : string) :
  no_slash s = true -> Demo.split_slash s cur = [(cur ++ s)%string].
Proof.
  revert cur. induction s as [|c r IH]; intros cur Hs; cbn in *.
  - rewrite append_nil_r. reflexivity.
  - destruct (Ascii.eqb c "/"); [discriminate|].
    rewrite IH by exact Hs. rewrite append_assoc. reflexivity.
Qed.

Lemma split_slash_pair (base rest cur : string) :
  no_slash base = true ->
  Demo.split_slash (base ++ String "/" rest) cur =
  (cur ++ base)%string :: Demo.split_slash rest "".
Proof.
  revert cur. induction base as [|c r IH]; intros cur Hs; cbn in *.
  - rewrite append_nil_r. reflexivity.
  - destruct (Ascii.eqb c "/"); [discriminate|].
    rewrite IH by exact Hs. rewrite append_assoc. reflexivity.
Qed.

Lemma length_append (a b : string) :
  String.length (a ++ b) = (String.length a + String.length b)%nat.
Proof. induction a as [|x a IH]; cbn; [reflexivity|]. rewrite IH. reflexivity. Qed.

Lemma substring_all (s : string) : substring 0 (String.length s) s = s.
Proof. induction s as [|c r IH]; cbn; [reflexivity|]. rewrite IH. reflexivity. Qed.

Lemma substring_suffix (a b : string) :
  substring (String.length a) (String.length b) (a ++ b) = b.
Proof.
  induction a as [|x a IH]; cbn; [apply substring_all|exact IH].
Qed.

Lemma substring_prefix (a b : string) :
  substring 0 (String.length a) (a ++ b) = a.
Proof.
  induction a as [|x a IH]; cbn.
  - destruct b; reflexivity.
  - rewrite IH. reflexivity.
Qed.

Lemma endswith_append (a b : string) : Demo.endswith (a ++ b) b = true.
Proof.
  unfold Demo.endswith. rewrite length_append.
  assert (Hle : Nat.leb (String.length b)
                  (String.length a + String.length b) = true)
    by (apply Nat.leb_le; lia).
  rewrite Hle.
  replace (String.length a + String.length b - String.length b)%nat
    with (String.length a) by lia.
  rewrite substring_suffix. apply String.eqb_refl.
Qed.

(** X13.  The two spellings of a pair parse alike: for a base and a quote
    currency without a slash, ["base/quote"] parses to [(base, quote)],
    whatever follows a further slash is dropped, and the joined spelling
    ["baseUSDT"] parses to [(base, "USDT")]. *)
Theorem parse_symbol_spellings (base quote rest : string) :
  no_slash base = true ->
  no_slash quote = true ->
  Demo._parse_symbol (base ++ "/" ++ quote) = (base, quote) /\
  Demo._parse_symbol (base ++ "/" ++ quote ++ "/" ++ rest) = (base, quote) /\
  Demo._parse_symbol (base ++ "USDT") = (base, "USDT").
Proof.
  intros Hb Hq. unfold Demo._parse_symbol. split; [|split].
  - change (base ++ "/" ++ quote)%string with (base ++ String "/" quote)%string.
    rewrite split_slash_pair by exact Hb.
    rewrite split_slash_plain by exact Hq. reflexivity.
  - change (base ++ "/" ++ quote ++ "/" ++ rest)%string
      with (base ++ String "/" (quote ++ String "/" rest))%string.
    rewrite split_slash_pair by exact Hb.
    rewrite split_slash_pair by exact Hq. reflexivity.
  - assert (Hplain : no_slash (base ++ "USDT") = true).
    { clear Hq. induction base as [|c r IH]; cbn in *; [reflexivity|].
      destruct (Ascii.eqb c "/"); [discriminate|]. apply IH. exact Hb. }
    rewrite split_slash_plain by exact Hplain. cbn [append].
    rewrite endswith_append.
    rewrite length_append.
    replace (String.length base + String.length "USDT" - 4)%nat
      with (String.length base) by (cbn; lia).
    rewrite substring_prefix. reflexivity.
Qed.

Lemma parse_symbol_spellings_witness :
  Demo._parse_symbol ("BTC" ++ "/" ++ "USDT") = ("BTC", "USDT") /\
  Demo._parse_symbol ("BTC" ++ "/" ++ "USDT" ++ "/" ++ "x") = ("BTC", "USDT") /\
  Demo._parse_symbol ("BTC" ++ "USDT") = ("BTC", "USDT").
Proof.
  apply (parse_symbol_spellings "BTC" "USDT" "x"); reflexivity.
Defined.

(** ** Settlement on the demo exchange *)

Lemma get_balance_lookup (currency : string) (self : Demo.t) :
  Demo.get_balance currency self =
  match lookup (Demo.balances self) currency with
  | Some b => b
  | None => mkBalance currency 0 0 0
  end.
Proof. reflexivity. Qed.

(** The two balance movements of a settlement: one currency is set to its
    debited balance, the other (created at zero when missing) is
    credited. *)
Lemma settle_lookup (bs : list (string * Balance)) (a b : string)
    (amount : Q) (debited : Balance) :
  a <> b ->
  let bs1 := store bs a debited in
  let bs2 :=
    if contains bs1 b then bs1 else store bs1 b (mkBalance b 0 0 0) in
  let bs3 :=
    match lookup bs2 b with
    | Some bb =>
        store bs2 b
          (mkBalance (b_currency bb) (b_total bb + amount)
             (b_available bb + amount) (b_locked bb))
    | None => bs2
    end in
  let before :=
    match lookup bs b with Some bb => bb | None => mkBalance b 0 0 0 end in
  lookup bs3 a = Some debited /\
  lookup bs3 b =
    Some (mkBalance (b_currency before) (b_total before + amount)
            (b_available before + amount) (b_locked before)) /\
  (forall c, c <> a -> c <> b -> lookup bs3 c = lookup bs c).
Proof.
  intros Hab. cbv zeta.
  assert (Hba : b <> a) by congruence.
  assert (Hb1 : lookup (store bs a debited) b = lookup bs b)
    by (apply lookup_store_ne; exact Hab).
  unfold contains. rewrite Hb1.
  destruct (lookup bs b) as [bb|] eqn:Hbb; cbv beta iota.
  - rewrite Hb1. split; [|split].
    + rewrite lookup_store_ne by exact Hba. apply lookup_store_eq.
    + apply lookup_store_eq.
    + intros c Hca Hcb. rewrite !lookup_store_ne by congruence.
      reflexivity.
  - rewrite lookup_store_eq. split; [|split].
    + rewrite !lookup_store_ne by exact Hba. apply lookup_store_eq.
    + apply lookup_store_eq.
    + intros c Hca Hcb. rewrite !lookup_store_ne by congruence.
      reflexivity.
Qed.

(** X14.  A Buy the quote balance can pay for settles at once, whatever
    the order type (a limit or stop order too, though it stays OPEN): the
    available quote balance drops by the order value plus the fee, the
    quote total by the fee alone, the base balance (created at zero when
    missing) gains the quantity in total and available, and no other
    currency moves. *)
Theorem demo_buy_settles (symbol base quote : string)
    (order_type : OrderType.t) (quantity : Q) (price stop_price : option Q)
    (self : Demo.t) (qb : Balance) :
  Demo._parse_symbol symbol = (base, quote) ->
  base <> quote ->
  lookup (Demo.balances self) quote = Some qb ->
  let fill := demo_fill_price symbol OrderSide.BUY order_type price self in
  let value := quantity * fill in
  let fee := value * Demo.fee_rate self in
  value + fee <= b_available qb ->
  let self' :=
    snd (Demo.place_order symbol OrderSide.BUY order_type quantity price
           stop_price self) in
  Demo.get_balance quote self' =
    mkBalance (b_currency qb) (b_total qb - fee)
      (b_available qb - (value + fee)) (b_locked qb) /\
  b_total (Demo.get_balance base self') =
    b_total (Demo.get_balance base self) + quantity /\
  b_available (Demo.get_balance base self') =
    b_available (Demo.get_balance base self) + quantity /\
  (forall c, c <> base -> c <> quote ->
             Demo.get_balance c self' = Demo.get_balance c self).
Proof.
  intros Hparse Hbq Hqb fill value fee Hafford self'.
  subst self'. unfold Demo.place_order. cbv zeta. rewrite Hparse.
  cbn [OrderSide.eqb].
  change (Demo.balances (Demo.draw_uuid self)) with (Demo.balances self).
  rewrite Hqb.
  change (Demo.fee_rate (Demo.draw_uuid self)) with (Demo.fee_rate self).
  change (if OrderType.eqb order_type OrderType.MARKET then _ * _ else _)
    with fill.
  fold value. fold fee.
  assert (Hc : Qltb (b_available qb) (value + fee) = false)
    by (apply Qltb_false; exact Hafford).
  rewrite Hc.
  destruct (settle_lookup (Demo.balances self) quote base quantity
              (mkBalance (b_currency qb) (b_total qb - fee)
                 (b_available qb - (value + fee)) (b_locked qb)))
    as (Hq3 & Hb3 & Hother); [congruence|].
  cbv zeta in Hq3, Hb3, Hother.
  match goal with
  | |- context [Demo._update_position ?a ?b ?c ?d ?s] =>
      pose proof (update_position_frame a b c d s) as Hfr;
      destruct (Demo._update_position a b c d s) as [[u|e] s2]
  end; cbv zeta in Hfr; cbn [fst snd] in *; destruct Hfr as (Hbal & _);
    cbn [Demo.balances Demo.set_balances Demo.set_orders] in Hbal;
    rewrite !get_balance_lookup, Hbal, Hq3, Hb3;
    (split; [reflexivity|]); (split; [reflexivity|]);
    (split; [reflexivity|]);
    intros c Hcb Hcq; rewrite !get_balance_lookup, Hbal;
    rewrite Hother by congruence; reflexivity.
Qed.

Lemma demo_buy_settles_witness :
  Demo.get_balance "USDT"
    (snd (Demo.place_order "BTC/USDT" OrderSide.BUY OrderType.LIMIT 1
            (Some 90) None (Demo.init None Demo.default_fee_rate 0))) =
  mkBalance "USDT" (10000 - 1 * 90 * 0.001)
    (10000 - (1 * 90 + 1 * 90 * 0.001)) 0.
Proof.
  apply (demo_buy_settles "BTC/USDT" "BTC" "USDT" OrderType.LIMIT 1
           (Some 90) None (Demo.init None Demo.default_fee_rate 0)
           (mkBalance "USDT" 10000 10000 0)).
  - reflexivity.
  - discriminate.
  - reflexivity.
  - vm_compute. discriminate.
Defined.

(** X15.  A Sell the base balance covers settles at once as well: the
    base balance drops by the quantity in total and available, the quote
    balance (created at zero when missing) gains the order value less the
    fee in total and available, and no other currency moves. *)
Theorem demo_sell_settles (symbol base quote : string)
    (order_type : OrderType.t) (quantity : Q) (price stop_price : option Q)
    (self : Demo.t) (bb : Balance) :
  Demo._parse_symbol symbol = (base, quote) ->
  base <> quote ->
  lookup (Demo.balances self) base = Some bb ->
  quantity <= b_available bb ->
  let fill := demo_fill_price symbol OrderSide.SELL order_type price self in
  let value := quantity * fill in
  let fee := value * Demo.fee_rate self in
  let self' :=
    snd (Demo.place_order symbol OrderSide.SELL order_type quantity price
           stop_price self) in
  Demo.get_balance base self' =
    mkBalance (b_currency bb) (b_total bb - quantity)
      (b_available bb - quantity) (b_locked bb) /\
  b_total (Demo.get_balance quote self') =
    b_total (Demo.get_balance quote self) + (value - fee) /\
  b_available (Demo.get_balance quote self') =
    b_available (Demo.get_balance quote self) + (value - fee) /\
  (forall c, c <> base -> c <> quote ->
             Demo.get_balance c self' = Demo.get_balance c self).
Proof.
  intros Hparse Hbq Hbb Hafford fill value fee self'.
  assert (Hqb : quote <> base) by congruence.
  subst self'. unfold Demo.place_order. cbv zeta. rewrite Hparse.
  cbn [OrderSide.eqb].
  change (Demo.balances (Demo.draw_uuid self)) with (Demo.balances self).
  rewrite Hbb.
  change (Demo.fee_rate (Demo.draw_uuid self)) with (Demo.fee_rate self).
  change (if OrderType.eqb order_type OrderType.MARKET then _ * _ else _)
    with fill.
  fold value. fold fee.
  assert (Hc : Qltb (b_available bb) quantity = false)
    by (apply Qltb_false; exact Hafford).
  rewrite Hc.
  destruct (settle_lookup (Demo.balances self) base quote (value - fee)
              (mkBalance (b_currency bb) (b_total bb - quantity)
                 (b_available bb - quantity) (b_locked bb)))
    as (Hq3 & Hb3 & Hother); [congruence|].
  cbv zeta in Hq3, Hb3, Hother.
  match goal with
  | |- context [Demo._update_position ?a ?b ?c ?d ?s] =>
      pose proof (update_position_frame a b c d s) as Hfr;
      destruct (Demo._update_position a b c d s) as [[u|e] s2]
  end; cbv zeta in Hfr; cbn [fst snd] in *; destruct Hfr as (Hbal & _);
    cbn [Demo.balances Demo.set_balances Demo.set_orders] in Hbal;
    rewrite !get_balance_lookup, Hbal, Hq3, Hb3;
    (split; [reflexivity|]); (split; [reflexivity|]);
    (split; [reflexivity|]);
    intros c Hcb Hcq; rewrite !get_balance_lookup, Hbal;
    rewrite Hother by congruence; reflexivity.
Qed.

Lemma demo_sell_settles_witness :
  Demo.get_balance "BTC"
    (snd (Demo.place_order "BTC/USDT" OrderSide.SELL OrderType.MARKET 1
            None None
            (Demo.init (Some [("BTC", 2)]) Demo.default_fee_rate 0))) =
  mkBalance "BTC" (2 - 1) (2 - 1) 0.
Proof.
  apply (demo_sell_settles "BTC/USDT" "BTC" "USDT" OrderType.MARKET 1
           None None (Demo.init (Some [("BTC", 2)]) Demo.default_fee_rate 0)
           (mkBalance "BTC" 2 2 0)).
  - reflexivity.
  - discriminate.
  - reflexivity.
  - vm_compute. discriminate.
Defined.

(** ** Positions on the demo exchange *)

Lemma side_eqb_eq (a b : OrderSide.t) :
  OrderSide.eqb a b = true <-> a = b.
Proof. destruct a, b; cbn; split; congruence. Qed.

(** X16.  Adding to a position on its own side keeps one position per
    symbol with the quantities summed and the entry price averaged by
    cost: the new entry price times the new quantity is the cost of the
    old position plus the cost of the fill; with both quantities positive
    it lies between the old entry price and the fill price. *)
Theorem demo_position_average (symbol : string) (quantity price : Q)
    (self : Demo.t) (pos : Position) :
  lookup (Demo.positions self) symbol = Some pos ->
  ~ p_quantity pos + quantity == 0 ->
  let run :=
    Demo._update_position symbol (p_side pos) quantity price self in
  exists pos',
    fst run = Ok tt /\
    lookup (Demo.positions (snd run)) symbol = Some pos' /\
    p_side pos' = p_side pos /\
    p_quantity pos' = p_quantity pos + quantity /\
    p_entry_price pos' * (p_quantity pos + quantity) ==
      p_entry_price pos * p_quantity pos + price * quantity /\
    (0 < p_quantity pos -> 0 < quantity ->
     (p_entry_price pos <= price ->
      p_entry_price pos <= p_entry_price pos' <= price) /\
     (price <= p_entry_price pos ->
      price <= p_entry_price pos' <= p_entry_price pos)).
Proof.
  intros Hl Hne. cbv zeta. unfold Demo._update_position. rewrite Hl.
  assert (Hs : OrderSide.eqb (p_side pos) (p_side pos) = true)
    by (apply side_eqb_eq; reflexivity).
  rewrite Hs. unfold pydiv.
  assert (Hz : Qeqb (p_quantity pos + quantity) 0 = false)
    by (apply Qeqb_false; exact Hne).
  rewrite Hz. cbn [fst snd Demo.positions Demo.set_positions].
  rewrite lookup_store_eq. eexists. split; [reflexivity|].
  split; [reflexivity|]. cbn [p_side p_quantity p_entry_price].
  split; [reflexivity|]. split; [reflexivity|].
  set (e0 := p_entry_price pos) in *. set (q0 := p_quantity pos) in *.
  assert (Havg : (e0 * q0 + price * quantity) / (q0 + quantity)
                 * (q0 + quantity) == e0 * q0 + price * quantity)
    by (field; exact Hne).
  split; [exact Havg|].
  intros Hq0 Hq.
  set (e' := (e0 * q0 + price * quantity) / (q0 + quantity)) in *.
  split; intros Hord; split; nra.
Qed.

Lemma demo_position_average_witness :
  exists pos',
    fst (Demo._update_position "BTC/USDT" OrderSide.BUY 2 110 demo_long)
      = Ok tt /\
    lookup
      (Demo.positions
         (snd (Demo._update_position "BTC/USDT" OrderSide.BUY 2 110
                 demo_long))) "BTC/USDT" = Some pos' /\
    p_side pos' = OrderSide.BUY /\
    p_quantity pos' = 2 + 2 /\
    p_entry_price pos' * (2 + 2) == 100 * 2 + 110 * 2 /\
    (0 < 2 -> 0 < 2 ->
     (100 <= 110 -> 100 <= p_entry_price pos' <= 110) /\
     (110 <= 100 -> 110 <= p_entry_price pos' <= 100)).
Proof.
  apply (demo_position_average "BTC/USDT" 2 110 demo_long
           (mkPosition "BTC/USDT" OrderSide.BUY 2 100 100 0 0)).
  - reflexivity.
  - vm_compute. discriminate.
Defined.

(** X17.  A fill on the opposite side never flips a position.  When it
    covers the whole position the position is deleted and whatever the
    fill exceeds it by opens nothing; when it is smaller the position
    keeps its side and entry price, loses the filled quantity and books
    the realized PnL of that part. *)
Theorem demo_position_reduce (symbol : string) (side : OrderSide.t)
    (quantity price : Q) (self : Demo.t) (pos : Position) :
  NoDup (keys (Demo.positions self)) ->
  lookup (Demo.positions self) symbol = Some pos ->
  p_side pos <> side ->
  let run := Demo._update_position symbol side quantity price self in
  fst run = Ok tt /\
  (p_quantity pos <= quantity ->
   lookup (Demo.positions (snd run)) symbol = None) /\
  (quantity < p_quantity pos ->
   lookup (Demo.positions (snd run)) symbol =
     Some (mkPosition (p_symbol pos) (p_side pos)
             (p_quantity pos - quantity) (p_entry_price pos)
             (p_current_price pos) (p_unrealized_pnl pos)
             (p_realized_pnl pos +
              (if OrderSide.eqb (p_side pos) OrderSide.BUY
               then (price - p_entry_price pos) * quantity
               else (p_entry_price pos - price) * quantity)))) /\
  (forall other,
      other <> symbol ->
      lookup (Demo.positions (snd run)) other =
      lookup (Demo.positions self) other).
Proof.
  intros Hnd Hl Hside. cbv zeta. unfold Demo._update_position. rewrite Hl.
  destruct (OrderSide.eqb (p_side pos) side) eqn:Hs;
    [apply side_eqb_eq in Hs; contradiction|].
  destruct (Qleb (p_quantity pos) quantity) eqn:Hq;
    cbn [fst snd Demo.positions Demo.set_positions].
  - apply Qleb_true in Hq. split; [reflexivity|]. split; [|split].
    + intros _. apply lookup_remove_eq. exact Hnd.
    + intros Hlt. lra.
    + intros other Hne. apply lookup_remove_ne. congruence.
  - apply Qleb_false in Hq. split; [reflexivity|]. split; [|split].
    + intros Hle. lra.
    + intros _. apply lookup_store_eq.
    + intros other Hne. apply lookup_store_ne. congruence.
Qed.

Lemma demo_position_reduce_witness :
  lookup
    (Demo.positions
       (snd (Demo._update_position "BTC/USDT" OrderSide.SELL 5 110
               demo_long))) "BTC/USDT" = None.
Proof.
  apply (demo_position_reduce "BTC/USDT" OrderSide.SELL 5 110 demo_long
           (mkPosition "BTC/USDT" OrderSide.BUY 2 100 100 0 0)).
  - cbn. constructor; [intros []|constructor].
  - reflexivity.
  - discriminate.
  - vm_compute. discriminate.
Defined.

(** X18.  [place_order] on the demo exchange raises in one case only: the
    order is accepted and adds, on the side of the stored position, a
    quantity that cancels it, so that the averaged entry price divides by
    zero.  With a quantity that does not cancel the stored position an
    order is always returned. *)
Theorem demo_place_order_raises (symbol : string)
    (side : OrderSide.t) (order_type : OrderType.t) (quantity : Q)
    (price stop_price : option Q) (self : Demo.t) (e : exn) :
  fst (Demo.place_order symbol side order_type quantity price stop_price
         self) = Raise e ->
  e = ZeroDivisionError /\
  exists pos,
    lookup (Demo.positions self) symbol = Some pos /\
    p_side pos = side /\
    p_quantity pos + quantity == 0.
Proof.
  unfold Demo.place_order. cbv zeta.
  destruct (Demo._parse_symbol symbol) as [base quote].
  assert (Hup : forall s,
             Demo.positions s = Demo.positions self ->
             forall o : Order,
             fst (match
                    Demo._update_position symbol side quantity
                      (if OrderType.eqb order_type OrderType.MARKET
                       then
                         if OrderSide.eqb side OrderSide.BUY
                         then Demo.price_of (Demo.draw_uuid self) symbol 100
                              * (1 + Demo.slippage (Demo.draw_uuid self))
                         else Demo.price_of (Demo.draw_uuid self) symbol 100
                              * (1 - Demo.slippage (Demo.draw_uuid self))
                       else
                         match price with
                         | Some p =>
                             py_or p
                               (Demo.price_of (Demo.draw_uuid self) symbol 100)
                         | None =>
                             Demo.price_of (Demo.draw_uuid self) symbol 100
                         end) s
                  with
                  | (Ok _, s') => (Ok o, s')
                  | (Raise e', s') => (Raise e', s')
                  end) = Raise e ->
             e = ZeroDivisionError /\
             exists pos,
               lookup (Demo.positions self) symbol = Some pos /\
               p_side pos = side /\ p_quantity pos + quantity == 0).
  { intros s Hs o. unfold Demo._update_position. rewrite Hs.
    destruct (lookup (Demo.positions self) symbol) as [pos|];
      [|cbn; discriminate].
    destruct (OrderSide.eqb (p_side pos) side) eqn:Hsd.
    - unfold pydiv.
      destruct (Qeqb (p_quantity pos + quantity) 0) eqn:Hz;
        cbn [fst]; [|discriminate].
      intros Hr. injection Hr as <-. split; [reflexivity|].
      exists pos. split; [reflexivity|].
      split; [apply side_eqb_eq; exact Hsd|apply Qeqb_true; exact Hz].
    - destruct (Qleb (p_quantity pos) quantity); cbn; discriminate. }
  destruct (OrderSide.eqb side OrderSide.BUY).
  - destruct (lookup (Demo.balances (Demo.draw_uuid self)) quote) as [qb|];
      [|cbn; discriminate].
    destruct (Qltb (b_available qb) _); [cbn; discriminate|].
    apply Hup. reflexivity.
  - destruct (lookup (Demo.balances (Demo.draw_uuid self)) base) as [bb|];
      [|cbn; discriminate].
    destruct (Qltb (b_available bb) _); [cbn; discriminate|].
    apply Hup. reflexivity.
Qed.

Lemma demo_place_order_raises_witness :
  ZeroDivisionError = ZeroDivisionError /\
  exists pos,
    lookup (Demo.positions demo_long) "BTC/USDT" = Some pos /\
    p_side pos = OrderSide.BUY /\
    p_quantity pos + (-2) == 0.
Proof.
  apply (demo_place_order_raises "BTC/USDT" OrderSide.BUY OrderType.MARKET
           (-2) None None demo_long ZeroDivisionError).
  vm_compute. reflexivity.
Defined.

Lemma refresh_selected (symbol : option string) (self : Demo.t)
    (pos : Position) :
  Demo.selected symbol (Demo.refresh self pos) = Demo.selected symbol pos.
Proof. destruct symbol; reflexivity. Qed.

Lemma refresh_refresh (self self' : Demo.t) (pos : Position) :
  Demo.prices self' = Demo.prices self ->
  Demo.refresh self' (Demo.refresh self pos) = Demo.refresh self pos.
Proof.
  intros Hp. unfold Demo.refresh, Demo.price_of. rewrite Hp. reflexivity.
Qed.

(** X19.  [get_positions] reports every stored position the symbol
    filter selects (all of them without a symbol), each repriced at the
    stored price of its symbol, or at its own entry price when none is
    stored, with the unrealized PnL of its side; the repricing is written
    back to the store, changes no key, quantity or entry price, and makes
    a second call return the same list and leave the same store. *)
Theorem demo_get_positions_refresh (symbol : option string)
    (self : Demo.t) :
  let ps := fst (Demo.get_positions symbol self) in
  let self' := snd (Demo.get_positions symbol self) in
  ps = map (Demo.refresh self)
         (filter (Demo.selected symbol) (map snd (Demo.positions self))) /\
  Forall
    (fun p =>
       p_current_price p = Demo.price_of self (p_symbol p) (p_entry_price p) /\
       p_unrealized_pnl p =
         (if OrderSide.eqb (p_side p) OrderSide.BUY
          then (p_current_price p - p_entry_price p) * p_quantity p
          else (p_entry_price p - p_current_price p) * p_quantity p)) ps /\
  Demo.get_positions symbol self' = (ps, self') /\
  keys (Demo.positions self') = keys (Demo.positions self) /\
  map (fun kp => (p_quantity (snd kp), p_entry_price (snd kp)))
    (Demo.positions self') =
  map (fun kp => (p_quantity (snd kp), p_entry_price (snd kp)))
    (Demo.positions self) /\
  Demo.balances self' = Demo.balances self /\
  Demo.orders self' = Demo.orders self.
Proof.
  cbv zeta. unfold Demo.get_positions. cbn [fst snd].
  cbn [Demo.positions Demo.set_positions Demo.balances Demo.orders].
  set (f := fun '(k, pos) =>
              (k : string,
               if Demo.selected symbol pos then Demo.refresh self pos
               else pos)).
  assert (Hps : filter (Demo.selected symbol)
                  (map snd (map f (Demo.positions self))) =
                map (Demo.refresh self)
                  (filter (Demo.selected symbol)
                     (map snd (Demo.positions self)))).
  { induction (Demo.positions self) as [|[k pos] r IH]; [reflexivity|].
    cbn [map snd filter f].
    destruct (Demo.selected symbol pos) eqn:Hsel.
    - rewrite refresh_selected, Hsel. cbn [map]. rewrite <- IH. reflexivity.
    - rewrite Hsel. exact IH. }
  split; [exact Hps|]. split; [|split; [|split; [|split]]].
  - rewrite Hps. apply Forall_map, Forall_forall. intros p _.
    split; reflexivity.
  - assert (Hff : map (fun '(k, pos) =>
                         (k : string,
                          if Demo.selected symbol pos
                          then Demo.refresh
                                 (Demo.set_positions
                                    (map f (Demo.positions self)) self) pos
                          else pos))
                    (map f (Demo.positions self)) =
                  map f (Demo.positions self)).
    { rewrite map_map. apply map_ext. intros [k pos]. cbn [f].
      destruct (Demo.selected symbol pos) eqn:Hsel.
      - rewrite refresh_selected, Hsel.
        rewrite refresh_refresh by reflexivity. reflexivity.
      - rewrite Hsel. reflexivity. }
    rewrite Hff. reflexivity.
  - unfold keys. rewrite map_map. apply map_ext. intros [k pos].
    reflexivity.
  - rewrite map_map. apply map_ext. intros [k pos]. cbn [f snd].
    destruct (Demo.selected symbol pos); reflexivity.
  - split; reflexivity.
Qed.

(** ** The order manager *)

(** X20.  A signal the risk manager refuses places nothing:
    [execute_signal] returns [None] after the one positions query, with
    no ticker read, no order placed, no managed position added and no
    trade recorded; a Hold signal returns [None] before anything is
    asked. *)
Theorem execute_signal_refused {E : Type} {X : Exchange E}
    (today : date) (now : datetime) (signal : TradeSignal)
    (portfolio_value : Q) (self : @OrderManager E) (ps : list Position)
    (e1 : E) :
  (is_actionable signal = false ->
   execute_signal today now signal portfolio_value self = (Ok None, self)) /\
  (is_actionable signal = true ->
   get_positions None (exchange self) = (Ok ps, e1) ->
   fst (fst (can_trade today now portfolio_value (Z.of_nat (length ps))
               (risk_manager self))) = false ->
   execute_signal today now signal portfolio_value self =
     (Ok None,
      mkOrderManager e1
        (snd (can_trade today now portfolio_value (Z.of_nat (length ps))
                (risk_manager self)))
        (dry_run self) (managed_positions self) (sim_count self)) /\
   trade_history
     (snd (can_trade today now portfolio_value (Z.of_nat (length ps))
             (risk_manager self))) = trade_history (risk_manager self)).
Proof.
  split.
  - intros Hact. unfold execute_signal. rewrite Hact. reflexivity.
  - intros Hact Hpos Hcan. split.
    + unfold execute_signal. rewrite Hact. cbn [negb].
      unfold on_exchange at 1. rewrite Hpos.
      unfold on_risk at 1. cbn [risk_manager set_exchange].
      destruct (can_trade today now portfolio_value (Z.of_nat (length ps))
                  (risk_manager self)) as [[allowed reason] r1].
      cbn [fst snd] in *. subst allowed. reflexivity.
    + rewrite can_trade_run. cbn [snd].
      apply (gate_state_fields today portfolio_value (risk_manager self)).
Qed.

Lemma execute_signal_refused_witness :
  execute_signal 0%Z 0%Z (hold_signal "BTC/USDT" "rsi" "none") 1000
    demo_manager = (Ok None, demo_manager) /\
  execute_signal 0%Z 0%Z sample_signal 1000 closed_book_manager =
    (Ok None,
     mkOrderManager
       (snd (get_positions None (exchange closed_book_manager)))
       (snd (can_trade 0%Z 0%Z 1000 (Z.of_nat (length (@nil Position)))
               (risk_manager closed_book_manager)))
       (dry_run closed_book_manager)
       (managed_positions closed_book_manager)
       (sim_count closed_book_manager)) /\
  trade_history
    (snd (can_trade 0%Z 0%Z 1000 (Z.of_nat (length (@nil Position)))
            (risk_manager closed_book_manager))) =
  trade_history (risk_manager closed_book_manager).
Proof.
  split.
  - apply (proj1 (execute_signal_refused 0%Z 0%Z
                    (hold_signal "BTC/USDT" "rsi" "none") 1000 demo_manager
                    [] (exchange demo_manager))).
    reflexivity.
  - apply (proj2 (execute_signal_refused 0%Z 0%Z sample_signal 1000
                    closed_book_manager []
                    (snd (get_positions None
                            (exchange closed_book_manager))))).
    + reflexivity.
    + reflexivity.
    + vm_compute. reflexivity.
Defined.

Lemma simulate_order_run {E : Type} {X : Exchange E} (now : datetime)
    (symbol : string) (side : OrderSide.t) (quantity price : Q)
    (self : @OrderManager E) :
  _simulate_order now symbol side quantity price self =
  (mkOrder (sim_id_of (sim_count self)) symbol side OrderType.MARKET
     quantity (Some price) None OrderStatus.FILLED quantity price [],
   mkOrderManager (exchange self)
     (snd (record_trade now symbol (OrderSide.value side) quantity price
             None (risk_manager self)))
     (dry_run self)
     (store (managed_positions self) symbol
        (mkManagedPosition symbol side quantity price
           (sim_id_of (sim_count self)) None None
           (Some (fst (calculate_stop_loss price side None
                         (risk_manager self))))
           (Some (fst (calculate_take_profit price side default_risk_reward
                         None (risk_manager self))))))
     (S (sim_count self))).
Proof.
  unfold _simulate_order, on_risk, calculate_stop_loss,
    calculate_take_profit, bind, get, ret.
  cbn [risk_manager draw_sim set_risk_manager set_managed_positions
       managed_positions exchange dry_run sim_count fst snd o_id].
  destruct (OrderSide.eqb side OrderSide.BUY);
    cbn [risk_manager draw_sim set_risk_manager set_managed_positions
         managed_positions exchange dry_run sim_count fst snd o_id];
    destruct (record_trade now symbol (OrderSide.value side) quantity price
                None (risk_manager self)) as [u r]; reflexivity.
Qed.

(** X21.  A dry run asks the exchange for positions and tickers and
    nothing else: whatever relation between exchange states is kept by
    those two queries is kept by [execute_signal] on a dry run, whatever
    the signal and whatever the outcome. *)
Theorem dry_run_only_queries {E : Type} {X : Exchange E}
    (R : E -> E -> Prop) (today : date) (now : datetime)
    (signal : TradeSignal) (portfolio_value : Q) (self : @OrderManager E) :
  (forall e, R e e) ->
  (forall a b c, R a b -> R b c -> R a c) ->
  (forall s e, R e (snd (get_positions s e))) ->
  (forall s e, R e (snd (get_ticker s e))) ->
  dry_run self = true ->
  R (exchange self)
    (exchange (snd (execute_signal today now signal portfolio_value self))).
Proof.
  intros Hrefl Htrans Hpos Htick Hdry.
  assert (Hclose : forall side (s : OrderManager),
             dry_run s = true ->
             R (exchange s)
               (exchange (snd (close_position now (ts_symbol signal) side
                                 s)))).
  { intros side s Hd. unfold close_position, on_exchange.
    pose proof (Hpos (Some (ts_symbol signal)) (exchange s)) as H1.
    destruct (get_positions (Some (ts_symbol signal)) (exchange s))
      as [[ps|e] e1]; cbn [snd] in H1; [|exact H1].
    destruct ps as [|position rest]; [exact H1|].
    destruct (match side with
              | Some s0 => negb (OrderSide.eqb (p_side position) s0)
              | None => false
              end); [exact H1|].
    cbn [dry_run set_exchange]. rewrite Hd.
    cbn [exchange set_exchange].
    pose proof (Htick (ts_symbol signal) e1) as H2.
    destruct (get_ticker (ts_symbol signal) e1) as [[ticker|e] e2];
      cbn [snd] in H2; [|exact (Htrans _ _ _ H1 H2)].
    rewrite simulate_order_run. cbn [snd exchange].
    exact (Htrans _ _ _ H1 H2). }
  unfold execute_signal.
  destruct (negb (is_actionable signal)); [apply Hrefl|].
  unfold on_exchange at 1.
  pose proof (Hpos None (exchange self)) as H1.
  destruct (get_positions None (exchange self)) as [[ps|e] e1];
    cbn [snd] in H1; [|exact H1].
  unfold on_risk at 1. cbn [risk_manager set_exchange].
  destruct (can_trade today now portfolio_value (Z.of_nat (length ps))
              (risk_manager self)) as [[allowed reason] r1].
  destruct allowed; cbn [negb]; [|exact H1].
  unfold on_exchange at 1. cbn [exchange set_risk_manager set_exchange].
  pose proof (Htick (ts_symbol signal) e1) as H2.
  destruct (get_ticker (ts_symbol signal) e1) as [[ticker|e] e2];
    cbn [snd] in H2; [|exact (Htrans _ _ _ H1 H2)].
  unfold on_risk at 1.
  cbn [risk_manager set_exchange set_risk_manager].
  destruct (calculate_position_size signal portfolio_value
              (dict_get ticker "last" (ts_price signal)) r1)
    as [[quantity|e] r2]; [|exact (Htrans _ _ _ H1 H2)].
  destruct (Qleb quantity 0); [exact (Htrans _ _ _ H1 H2)|].
  assert (H12 : R (exchange self) e2) by exact (Htrans _ _ _ H1 H2).
  set (s2 := set_risk_manager r2
               (set_exchange e2
                  (set_risk_manager r1 (set_exchange e1 self)))).
  assert (Hd2 : dry_run s2 = true) by exact Hdry.
  assert (He2 : exchange s2 = e2) by reflexivity.
  destruct (ts_signal signal).
  - unfold enter. rewrite Hd2. rewrite simulate_order_run.
    cbn [snd exchange]. rewrite He2. exact H12.
  - unfold enter. rewrite Hd2. rewrite simulate_order_run.
    cbn [snd exchange]. rewrite He2. exact H12.
  - cbn [snd]. rewrite He2. exact H12.
  - apply (Htrans _ e2); [exact H12|]. rewrite <- He2.
    apply Hclose. exact Hd2.
  - apply (Htrans _ e2); [exact H12|]. rewrite <- He2.
    apply Hclose. exact Hd2.
Qed.

Lemma dry_run_only_queries_witness :
  Demo.orders (exchange demo_manager) =
  Demo.orders
    (exchange
       (snd (execute_signal 0%Z 0%Z sample_signal 1000
               (mkOrderManager (exchange demo_manager)
                  (risk_manager demo_manager) true [] 0)))).
Proof.
  apply (dry_run_only_queries
           (fun a b => Demo.orders a = Demo.orders b) 0%Z 0%Z sample_signal
           1000
           (mkOrderManager (exchange demo_manager)
              (risk_manager demo_manager) true [] 0)).
  - reflexivity.
  - intros a b c Hab Hbc. rewrite Hab. exact Hbc.
  - intros s e. reflexivity.
  - intros s e. reflexivity.
  - reflexivity.
Defined.

(** X22.  A simulated order is booked like a real entry.  It is returned
    FILLED in full at the given price; one record without exit price and
    with PnL 0 is appended to the trade history, the daily trade counter
    goes up by one and the last-trade time is stamped, so the cool-down
    and the daily cap bind dry runs too; and the managed position of the
    symbol is replaced by one without bracket orders, the others being
    kept. *)
Theorem simulate_order_books_entry {E : Type} {X : Exchange E}
    (now : datetime) (symbol : string) (side : OrderSide.t)
    (quantity price : Q) (self : @OrderManager E) :
  let order := fst (_simulate_order now symbol side quantity price self) in
  let self' := snd (_simulate_order now symbol side quantity price self) in
  o_status order = OrderStatus.FILLED /\
  o_filled_quantity order = quantity /\ o_filled_price order = price /\
  trade_history (risk_manager self') =
    (trade_history (risk_manager self) ++
     [mkTradeRecord symbol (OrderSide.value side) quantity price None 0
        now])%list /\
  daily_trades (risk_manager self') =
    (daily_trades (risk_manager self) + 1)%Z /\
  last_trade_time (risk_manager self') = Some now /\
  (exists m,
      lookup (managed_positions self') symbol = Some m /\
      mp_side m = side /\ mp_quantity m = quantity /\
      mp_entry_price m = price /\ mp_entry_order_id m = o_id order /\
      mp_stop_loss_order_id m = None /\
      mp_take_profit_order_id m = None) /\
  (forall other,
      other <> symbol ->
      lookup (managed_positions self') other =
      lookup (managed_positions self) other) /\
  exchange self' = exchange self.
Proof.
  cbv zeta. rewrite simulate_order_run.
  cbn [fst snd o_status o_filled_quantity o_filled_price o_id risk_manager
       managed_positions exchange].
  destruct (record_trade_history now symbol (OrderSide.value side) quantity
              price None (risk_manager self))
    as (Hh & _ & Hn & Ht & _).
  cbv zeta in Hh, Hn, Ht. rewrite Hh, Hn, Ht.
  repeat split.
  - rewrite lookup_store_eq. eexists. repeat split.
  - intros other Hne. apply lookup_store_ne. congruence.
Qed.

Lemma simulate_order_books_entry_witness :
  exchange (snd (_simulate_order 0%Z "BTC/USDT" OrderSide.BUY 1 100
                   demo_manager)) = exchange demo_manager.
Proof.
  apply (simulate_order_books_entry 0%Z "BTC/USDT" OrderSide.BUY 1 100
           demo_manager).
Defined.




Lemma cancel_pending_frame {E : Type} {X : Exchange E}
    (managed : ManagedPosition) (self : @OrderManager E) :
  risk_manager (_cancel_pending_orders managed self) = risk_manager self /\
  managed_positions (_cancel_pending_orders managed self) =
    managed_positions self /\
  dry_run (_cancel_pending_orders managed self) = dry_run self.
Proof.
  unfold _cancel_pending_orders, on_exchange.
  destruct (truthy_id (mp_stop_loss_order_id managed)) as [id1|].
  - destruct (cancel_order id1 (mp_symbol managed) (exchange self))
      as [r1 e1]. cbn [snd exchange set_exchange].
    destruct (truthy_id (mp_take_profit_order_id managed)) as [id2|].
    + destruct (cancel_order id2 (mp_symbol managed) e1) as [r2 e2].
      repeat split.
    + repeat split.
  - destruct (truthy_id (mp_take_profit_order_id managed)) as [id2|].
    + destruct (cancel_order id2 (mp_symbol managed) (exchange self))
        as [r2 e2]. repeat split.
    + repeat split.
Qed.

(** X24.  Closing a live position.  When the exchange lists the
    position, its side is the expected one, and the closing market order
    (opposite side, the listed quantity) comes back FILLED, the order is
    returned, exactly one exit is recorded, with the listed entry price,
    the fill price as exit price and the PnL of the position's side, and
    the symbol is no longer managed while every other managed position
    is kept.  When the exchange lists no position for the symbol nothing
    is placed or recorded. *)
Theorem close_position_records_exit {E : Type} {X : Exchange E}
    (now : datetime) (symbol : string) (side : option OrderSide.t)
    (self : @OrderManager E) :
  (forall e1,
      get_positions (Some symbol) (exchange self) = (Ok [], e1) ->
      close_position now symbol side self =
        (Ok None, set_exchange e1 self)) /\
  (forall position rest e1 order e2,
      dry_run self = false ->
      NoDup (keys (managed_positions self)) ->
      get_positions (Some symbol) (exchange self) =
        (Ok (position :: rest), e1) ->
      (forall s, side = Some s -> p_side position = s) ->
      place_order symbol (opposite (p_side position)) OrderType.MARKET
        (p_quantity position) None None e1 = (Ok order, e2) ->
      o_status order = OrderStatus.FILLED ->
      let run := close_position now symbol side self in
      fst run = Ok (Some order) /\
      trade_history (risk_manager (snd run)) =
        (trade_history (risk_manager self) ++
         [mkTradeRecord symbol (OrderSide.value (p_side position))
            (p_quantity position) (p_entry_price position)
            (Some (o_filled_price order))
            (booked_pnl (OrderSide.value (p_side position))
               (p_quantity position) (p_entry_price position)
               (Some (o_filled_price order))) now])%list /\
      lookup (managed_positions (snd run)) symbol = None /\
      (forall other,
          other <> symbol ->
          lookup (managed_positions (snd run)) other =
          lookup (managed_positions self) other)).
Proof.
  split.
  - intros e1 Hpos. unfold close_position, on_exchange. rewrite Hpos.
    reflexivity.
  - intros position rest e1 order e2 Hdry Hnd Hpos Hside Hplace Hfilled.
    assert (Hrun : exists self',
               close_position now symbol side self =
                 (Ok (Some order), self') /\
               risk_manager self' =
                 snd (record_trade now symbol
                        (OrderSide.value (p_side position))
                        (p_quantity position) (p_entry_price position)
                        (Some (o_filled_price order)) (risk_manager self)) /\
               lookup (managed_positions self') symbol = None /\
               (forall other,
                   other <> symbol ->
                   lookup (managed_positions self') other =
                   lookup (managed_positions self) other)).
    { unfold close_position. unfold on_exchange at 1. rewrite Hpos.
      assert (Hmatch : match side with
                       | Some s => negb (OrderSide.eqb (p_side position) s)
                       | None => false
                       end = false).
      { destruct side as [s|]; [|reflexivity].
        rewrite (Hside s eq_refl).
        destruct s; reflexivity. }
      rewrite Hmatch. cbn [dry_run set_exchange]. rewrite Hdry.
      unfold on_exchange at 1. cbn [exchange set_exchange].
      rewrite Hplace, Hfilled. cbn [OrderStatus.eqb].
      unfold on_risk. cbn [risk_manager set_exchange].
      destruct (record_trade now symbol (OrderSide.value (p_side position))
                  (p_quantity position) (p_entry_price position)
                  (Some (o_filled_price order)) (risk_manager self))
        as [u r1].
      cbn [managed_positions set_risk_manager set_exchange snd].
      destruct (lookup (managed_positions self) symbol) as [managed|] eqn:Hl.
      - eexists. split; [reflexivity|].
        pose proof (cancel_pending_frame managed
                      (set_risk_manager r1
                         (set_exchange e2 (set_exchange e1 self))))
          as (Hr & Hm & _).
        revert Hr Hm.
        generalize (_cancel_pending_orders managed
                      (set_risk_manager r1
                         (set_exchange e2 (set_exchange e1 self)))).
        intros s' Hr Hm. unfold set_managed_positions.
        cbn [risk_manager managed_positions]. rewrite Hr, Hm.
        cbn [risk_manager managed_positions set_risk_manager set_exchange].
        split; [reflexivity|]. split.
        + apply lookup_remove_eq. exact Hnd.
        + intros other Hne. apply lookup_remove_ne. congruence.
      - eexists. split; [reflexivity|].
        cbn [risk_manager managed_positions set_risk_manager set_exchange].
        split; [reflexivity|]. split; [exact Hl|]. intros other _.
        reflexivity. }
    destruct Hrun as (self' & Hrun & Hrm & Hgone & Hother).
    cbv zeta. rewrite Hrun. cbn [fst snd].
    split; [reflexivity|]. split; [|split; assumption].
    rewrite Hrm.
    apply (record_trade_history now symbol
             (OrderSide.value (p_side position)) (p_quantity position)
             (p_entry_price position) (Some (o_filled_price order))
             (risk_manager self)).
Qed.

Lemma close_position_records_exit_witness :
  close_position 0%Z "BTC/USDT" None demo_manager =
    (Ok None,
     set_exchange
       (snd (get_positions (Some "BTC/USDT") (exchange demo_manager)))
       demo_manager) /\
  (let run := close_position 9%Z "BTC/USDT" None long_manager in
   fst run = Ok (Some closing_order) /\
   trade_history (risk_manager (snd run)) =
     (trade_history (risk_manager long_manager) ++
      [mkTradeRecord "BTC/USDT" (OrderSide.value (p_side held_long))
         (p_quantity held_long) (p_entry_price held_long)
         (Some (o_filled_price closing_order))
         (booked_pnl (OrderSide.value (p_side held_long))
            (p_quantity held_long) (p_entry_price held_long)
            (Some (o_filled_price closing_order))) 9%Z])%list /\
   lookup (managed_positions (snd run)) "BTC/USDT" = None /\
   (forall other,
       other <> "BTC/USDT" ->
       lookup (managed_positions (snd run)) other =
       lookup (managed_positions long_manager) other)).
Proof.
  split.
  - apply (proj1 (close_position_records_exit 0%Z "BTC/USDT" None
                    demo_manager)).
    reflexivity.
  - apply (proj2 (close_position_records_exit 9%Z "BTC/USDT" None
                    long_manager)
             held_long []
             (snd (get_positions (Some "BTC/USDT") (exchange long_manager)))
             closing_order
             (snd (place_order "BTC/USDT" (opposite (p_side held_long))
                     OrderType.MARKET (p_quantity held_long) None None
                     (snd (get_positions (Some "BTC/USDT")
                             (exchange long_manager)))))).
    + reflexivity.
    + cbn. constructor; [intros []|constructor].
    + vm_compute. reflexivity.
    + intros s Hs. discriminate Hs.
    + vm_compute. reflexivity.
    + reflexivity.
Defined.

(** ** The reconciliation pass, in general *)

Lemma check_leg_invariant {E : Type} {X : Exchange E} (now : datetime)
    (symbol : string) (managed : ManagedPosition) (leg : option string)
    (self : @OrderManager E) :
  let self' := snd (check_leg now symbol managed leg self) in
  managed_positions self' = managed_positions self /\
  exists added,
    trade_history (risk_manager self') =
      (trade_history (risk_manager self) ++ added)%list /\
    Forall (fun t => tr_exit_price t <> None /\ tr_timestamp t = now)
      added /\
    (length added <= 1)%nat.
Proof.
  cbv zeta. unfold check_leg.
  destruct (truthy_id leg) as [id|].
  2:{ cbn [snd]. split; [reflexivity|]. exists [].
      rewrite app_nil_r. repeat split; [constructor|cbn; lia]. }
  unfold on_exchange.
  destruct (get_order id symbol (exchange self)) as [[[order|]|e] e1];
    cbn [snd managed_positions risk_manager set_exchange].
  - destruct (OrderStatus.eqb (o_status order) OrderStatus.FILLED).
    + unfold on_risk. cbn [risk_manager set_exchange].
      pose proof (record_trade_history now symbol
                    (OrderSide.value (mp_side managed))
                    (mp_quantity managed) (mp_entry_price managed)
                    (Some (o_filled_price order)) (risk_manager self))
        as (Hh & _).
      cbv zeta in Hh.
      destruct (record_trade now symbol (OrderSide.value (mp_side managed))
                  (mp_quantity managed) (mp_entry_price managed)
                  (Some (o_filled_price order)) (risk_manager self))
        as [u r1].
      cbn [snd managed_positions risk_manager set_risk_manager
           set_exchange] in *.
      split; [reflexivity|]. eexists. split; [exact Hh|].
      split; [|cbn; lia]. constructor; [|constructor].
      cbn. split; [discriminate|reflexivity].
    + cbn [snd managed_positions risk_manager set_exchange].
      split; [reflexivity|]. exists [].
      rewrite app_nil_r. repeat split; [constructor|cbn; lia].
  - split; [reflexivity|]. exists [].
    rewrite app_nil_r. repeat split; [constructor|cbn; lia].
  - split; [reflexivity|]. exists [].
    rewrite app_nil_r. repeat split; [constructor|cbn; lia].
Qed.

Lemma check_one_invariant {E : Type} {X : Exchange E} (now : datetime)
    (self : @OrderManager E) (item : string * ManagedPosition) :
  let self' := check_one now self item in
  incl (keys (managed_positions self')) (keys (managed_positions self)) /\
  exists added,
    trade_history (risk_manager self') =
      (trade_history (risk_manager self) ++ added)%list /\
    Forall (fun t => tr_exit_price t <> None /\ tr_timestamp t = now)
      added /\
    (length added <= 2)%nat.
Proof.
  cbv zeta. destruct item as [symbol managed]. unfold check_one.
  unfold on_exchange.
  destruct (get_positions (Some symbol) (exchange self)) as [[ps|e] e1].
  2:{ cbn [managed_positions risk_manager set_exchange].
      split; [apply incl_refl|]. exists [].
      rewrite app_nil_r. repeat split; [constructor|cbn; lia]. }
  destruct ps as [|position rest].
  { cbn [managed_positions risk_manager set_exchange set_managed_positions].
    split; [apply keys_remove_incl|]. exists [].
    rewrite app_nil_r. repeat split; [constructor|cbn; lia]. }
  set (s1 := set_exchange e1 self).
  pose proof (check_leg_invariant now symbol managed
                (mp_stop_loss_order_id managed) s1) as (Hm1 & a1 & Hh1 & Hf1 & Hl1).
  cbv zeta in Hm1, Hh1.
  destruct (check_leg now symbol managed (mp_stop_loss_order_id managed) s1)
    as [[u|e] s2]; cbn [snd] in Hm1, Hh1.
  - pose proof (check_leg_invariant now symbol managed
                  (mp_take_profit_order_id managed) s2)
      as (Hm2 & a2 & Hh2 & Hf2 & Hl2).
    cbv zeta in Hm2, Hh2. rewrite Hm2, Hm1. split; [apply incl_refl|].
    exists (a1 ++ a2)%list. rewrite Hh2, Hh1, app_assoc.
    split; [reflexivity|]. split; [apply Forall_app; split; assumption|].
    rewrite length_app. lia.
  - rewrite Hm1. split; [apply incl_refl|].
    exists a1. split; [exact Hh1|]. split; [exact Hf1|lia].
Qed.

Lemma check_fold_invariant {E : Type} {X : Exchange E} (now : datetime)
    (items : list (string * ManagedPosition)) (self : @OrderManager E) :
  let self' := fold_left (check_one now) items self in
  incl (keys (managed_positions self')) (keys (managed_positions self)) /\
  exists added,
    trade_history (risk_manager self') =
      (trade_history (risk_manager self) ++ added)%list /\
    Forall (fun t => tr_exit_price t <> None /\ tr_timestamp t = now)
      added /\
    (length added <= 2 * length items)%nat.
Proof.
  cbv zeta. revert self. induction items as [|item r IH]; intros self.
  - cbn [fold_left]. split; [apply incl_refl|]. exists [].
    rewrite app_nil_r. split; [reflexivity|].
    split; [apply Forall_nil|cbn; lia].
  - cbn [fold_left].
    destruct (check_one_invariant now self item)
      as (Hi1 & a1 & Hh1 & Hf1 & Hl1).
    cbv zeta in Hi1, Hh1.
    destruct (IH (check_one now self item)) as (Hi2 & a2 & Hh2 & Hf2 & Hl2).
    split; [eapply incl_tran; eassumption|].
    exists (a1 ++ a2)%list. rewrite Hh2, Hh1, app_assoc.
    split; [reflexivity|]. split; [apply Forall_app; split; assumption|].
    rewrite length_app. cbn [length]. lia.
Qed.

(** X25.  What a reconciliation pass can and cannot do, on any exchange
    and whatever the exchange answers or raises: it never starts
    managing a symbol, it never touches a record already in the trade
    history, and what it appends are exits only, stamped with the time
    of the pass, at most two for each position managed when the pass
    began. *)
Theorem check_positions_invariant {E : Type} {X : Exchange E}
    (now : datetime) (self : @OrderManager E) :
  let self' := check_positions now self in
  incl (keys (managed_positions self')) (keys (managed_positions self)) /\
  exists added,
    trade_history (risk_manager self') =
      (trade_history (risk_manager self) ++ added)%list /\
    Forall (fun t => tr_exit_price t <> None /\ tr_timestamp t = now)
      added /\
    (length added <= 2 * length (managed_positions self))%nat.
Proof.
  apply check_fold_invariant.
Qed.

Lemma check_positions_invariant_witness :
  incl
    (keys (managed_positions
             (check_positions 1%Z (reconciling_manager still_live))))
    (keys (managed_positions (reconciling_manager still_live))).
Proof.
  apply (check_positions_invariant 1%Z (reconciling_manager still_live)).
Defined.

(** ** A bracketed entry on the demo exchange *)





(** ** The RSI on falling and flat series *)

Lemma diff_from_falling (prev : Q) (s : list Q) :
  strictly_falling_from prev s -> Forall fin_neg (diff_from prev s).
Proof.
  revert prev. induction s as [|x r IH]; intros prev Hr; cbn in *;
    constructor.
  - cbn. lra.
  - apply IH. tauto.
Qed.

Lemma diff_from_flat (prev : Q) (s : list Q) :
  flat_from prev s -> Forall fin_zero (diff_from prev s).
Proof.
  revert prev. induction s as [|x r IH]; intros prev Hr; cbn in *;
    constructor.
  - cbn. lra.
  - apply IH. tauto.
Qed.

Lemma gains_falling (close : list Q) :
  strictly_falling close -> Forall fin_zero (gains close).
Proof.
  intros Hr. unfold gains. cbv zeta. rewrite where_self. apply Forall_map.
  destruct close as [|x r]; cbn; [constructor|].
  constructor; [cbn; lra|].
  eapply Forall_impl; [|apply diff_from_falling; exact Hr].
  intros d Hd. destruct d; cbn in *; try contradiction.
  unfold fgt. cbn. destruct (Qltb 0 q) eqn:Hq; cbn; [|lra].
  apply Qltb_true in Hq. lra.
Qed.

Lemma losses_falling (close : list Q) (j : nat) :
  strictly_falling close -> (1 <= j)%nat -> (j < length close)%nat ->
  fin_pos (iloc (losses close) j).
Proof.
  intros Hr Hj1 Hj2. unfold losses. cbv zeta. rewrite where_map.
  destruct close as [|x r]; cbn in Hj2; [lia|].
  destruct j as [|j]; [lia|]. cbn [diff map]. unfold iloc. cbn [nth].
  assert (Hpos : Forall fin_pos
                   (map (fun d => if flt d (Fin 0) then fneg d else Fin 0)
                        (diff_from x r))).
  { apply Forall_map.
    eapply Forall_impl; [|apply diff_from_falling; exact Hr].
    intros d Hd. destruct d; cbn in *; try contradiction.
    destruct (Qltb q 0) eqn:Hq; cbn; [lra|].
    apply Qltb_false in Hq. lra. }
  apply (Forall_iloc_in fin_pos _ j Hpos).
  rewrite length_map, diff_from_length. lia.
Qed.

Lemma gains_flat (close : list Q) :
  flat close -> Forall fin_zero (gains close).
Proof.
  intros Hr. unfold gains. cbv zeta. rewrite where_self. apply Forall_map.
  destruct close as [|x r]; cbn; [constructor|].
  constructor; [cbn; lra|].
  eapply Forall_impl; [|apply diff_from_flat; exact Hr].
  intros d Hd. destruct d; cbn in *; try contradiction.
  unfold fgt. cbn. destruct (Qltb 0 q) eqn:Hq; cbn; [exact Hd|lra].
Qed.

Lemma losses_flat (close : list Q) :
  flat close -> Forall fin_zero (losses close).
Proof.
  intros Hr. unfold losses. cbv zeta. rewrite where_map. apply Forall_map.
  destruct close as [|x r]; cbn; [constructor|].
  constructor; [cbn; lra|].
  eapply Forall_impl; [|apply diff_from_flat; exact Hr].
  intros d Hd. destruct d; cbn in *; try contradiction.
  destruct (Qltb q 0) eqn:Hq; cbn; [lra|lra].
Qed.

(** The smoothed average of a series of zeros is zero from the first
    full window on. *)
Lemma wilder_zero (period : nat) (src : list fval) (j : nat) :
  (1 <= period)%nat -> Forall fin_zero src ->
  (period - 1 <= j)%nat -> (j < length src)%nat ->
  fin_zero
    (iloc (RSI.wilder period src (rolling_mean period src) (length src)) j).
Proof.
  intros Hp Hsrc Hj1 Hj2. unfold RSI.wilder.
  apply (wilder_from fin_zero); try lia.
  - intros prev i Hi1 Hi2 Hprev. rewrite rolling_mean_length in Hi2.
    apply smooth_fin_zero; [exact Hp|exact Hprev|].
    apply Forall_iloc_in; assumption.
  - intros k Hk1 Hk2. rewrite rolling_mean_length in Hk2.
    rewrite rolling_mean_iloc by exact Hk2.
    apply rolling_mean_at_zero; [exact Hp|lia|exact Hsrc].
  - rewrite rolling_mean_length. exact Hj2.
Qed.

(** The smoothed average of a series without negative terms is positive
    at the last index when the last term is. *)
Lemma wilder_last_pos (period : nat) (src : list fval) :
  (1 <= period)%nat -> (period < length src)%nat ->
  Forall fin_nonneg src ->
  fin_pos (iloc src (length src - 1)) ->
  fin_pos
    (iloc (RSI.wilder period src (rolling_mean period src) (length src))
       (length src - 1)).
Proof.
  intros Hp Hlen Hsrc Hlast. unfold RSI.wilder.
  destruct (length src - period)%nat as [|k] eqn:Hk; [lia|].
  replace (length src - 1)%nat with (period + k)%nat in * by lia.
  rewrite wilder_last by (rewrite rolling_mean_length; lia).
  apply smooth_fin_pos; [exact Hp| |exact Hlast].
  apply (wilder_from fin_nonneg); try lia.
  - intros prev i Hi1 Hi2 Hprev. rewrite rolling_mean_length in Hi2.
    apply smooth_fin_nonneg; [exact Hp|exact Hprev|].
    apply Forall_iloc_in; assumption.
  - intros j Hj1 Hj2. rewrite rolling_mean_length in Hj2.
    rewrite rolling_mean_iloc by exact Hj2.
    apply rolling_mean_at_fin_nonneg; [exact Hp|lia|exact Hsrc].
  - rewrite rolling_mean_length. lia.
Qed.

Lemma calculate_rsi_last (self : RSI.t) (close : list Q) :
  (1 <= length close)%nat ->
  iloc_last (RSI._calculate_rsi self close) =
  RSI.rsi_of_rs
    (fdiv
       (iloc (RSI.wilder (RSI.period self) (gains close)
                (rolling_mean (RSI.period self) (gains close))
                (length (gains close))) (length (gains close) - 1))
       (iloc (RSI.wilder (RSI.period self) (losses close)
                (rolling_mean (RSI.period self) (losses close))
                (length (losses close))) (length (losses close) - 1))).
Proof.
  intros Hlen. rewrite iloc_last_nth, calculate_rsi_length.
  rewrite calculate_rsi_unfold. rewrite gains_length, losses_length.
  assert (Hlag : length (RSI.wilder (RSI.period self) (gains close)
                           (rolling_mean (RSI.period self) (gains close))
                           (length close)) = length close).
  { unfold RSI.wilder.
    rewrite wilder_length, rolling_mean_length. apply gains_length. }
  assert (Hlal : length (RSI.wilder (RSI.period self) (losses close)
                           (rolling_mean (RSI.period self) (losses close))
                           (length close)) = length close).
  { unfold RSI.wilder.
    rewrite wilder_length, rolling_mean_length. apply losses_length. }
  rewrite map_iloc by (rewrite zip_with_length; lia).
  rewrite zip_with_iloc by lia. reflexivity.
Qed.

Lemma ensure_series_frame (close : list Q) :
  ensure_series (frame_of close) = close.
Proof.
  unfold ensure_series, frame_of. rewrite map_map. cbn. apply map_id.
Qed.

(** X27.  The other end of the scale and its blind spot.  For an RSI of
    period at least 1 and a close series longer than the period: on a
    strictly falling series the RSI at the last index is exactly 0; on a
    series that never moves both averages are 0, their quotient is
    undefined, the RSI is not-a-number, and [get_signal] gives no signal
    with strength 0. *)
Theorem rsi_falling_0_flat_undefined (self : RSI.t) (close : list Q) :
  (1 <= RSI.period self)%nat ->
  (RSI.period self < length close)%nat ->
  (strictly_falling close ->
   exists v,
     iloc_last (RSI._calculate_rsi self close) = Fin v /\ v == 0) /\
  (flat close ->
   iloc_last (RSI._calculate_rsi self close) = NaN /\
   forall data,
     ensure_series data = close ->
     ir_value (RSI.get_signal self data) = NaN /\
     ir_signal (RSI.get_signal self data) = None /\
     ir_strength (RSI.get_signal self data) = Fin 0).
Proof.
  intros Hp Hlen.
  assert (Hlen1 : (1 <= length close)%nat) by lia.
  pose proof (calculate_rsi_last self close Hlen1) as Hlast.
  split.
  - intros Hfall. rewrite Hlast.
    pose proof (wilder_zero (RSI.period self) (gains close)
                  (length (gains close) - 1) Hp (gains_falling close Hfall))
      as Hg.
    rewrite gains_length in *.
    specialize (Hg ltac:(lia) ltac:(lia)).
    pose proof (wilder_last_pos (RSI.period self) (losses close) Hp) as Hl.
    rewrite losses_length in *.
    specialize (Hl Hlen (losses_nonneg close)
                  (losses_falling close (length close - 1) Hfall
                     ltac:(lia) ltac:(lia))).
    destruct (iloc _ _) as [a| | |]; cbn in Hg; try contradiction.
    destruct (iloc _ _) as [b| | |]; cbn in Hl; try contradiction.
    unfold RSI.rsi_of_rs. cbn.
    assert (Hb : Qeqb b 0 = false) by (apply Qeqb_false; lra).
    rewrite Hb. cbn.
    assert (H1 : Qeqb (1 + a / b) 0 = false).
    { apply Qeqb_false. rewrite Hg. unfold Qdiv. rewrite Qmult_0_l. lra. }
    rewrite H1. cbn. eexists. split; [reflexivity|].
    rewrite Hg. field. lra.
  - intros Hflat.
    assert (Hnan : iloc_last (RSI._calculate_rsi self close) = NaN).
    { rewrite Hlast.
      pose proof (wilder_zero (RSI.period self) (gains close)
                    (length (gains close) - 1) Hp (gains_flat close Hflat))
        as Hg.
      pose proof (wilder_zero (RSI.period self) (losses close)
                    (length (losses close) - 1) Hp
                    (losses_flat close Hflat)) as Hl.
      rewrite gains_length in *. rewrite losses_length in *.
      specialize (Hg ltac:(lia) ltac:(lia)).
      specialize (Hl ltac:(lia) ltac:(lia)).
      destruct (iloc _ _) as [a| | |]; cbn in Hg; try contradiction.
      destruct (iloc _ _) as [b| | |]; cbn in Hl; try contradiction.
      unfold RSI.rsi_of_rs. cbn.
      assert (Hb : Qeqb b 0 = true) by (apply Qeqb_true; exact Hl).
      assert (Ha : Qeqb a 0 = true) by (apply Qeqb_true; exact Hg).
      rewrite Hb, Ha. reflexivity. }
    split; [exact Hnan|].
    intros data Hdata. unfold RSI.get_signal.
    assert (Hvalid : validate_data data (RSI.period self + 1) = true).
    { unfold validate_data.
      assert (Hl : length data = length close)
        by (rewrite <- Hdata; unfold ensure_series; rewrite length_map;
            reflexivity).
      rewrite Hl. apply Bool.negb_true_iff. apply Nat.ltb_ge. lia. }
    rewrite Hvalid. cbn [negb]. cbv zeta. rewrite Hdata, Hnan.
    cbn. repeat split.
Qed.

Lemma rsi_falling_0_flat_undefined_witness :
  (exists v,
      iloc_last (RSI._calculate_rsi (RSI.mk 2 70 30) falling_4321) = Fin v /\
      v == 0) /\
  iloc_last (RSI._calculate_rsi (RSI.mk 2 70 30) flat_5555) = NaN.
Proof.
  split.
  - apply (rsi_falling_0_flat_undefined (RSI.mk 2 70 30) falling_4321).
    + cbn. lia.
    + cbn. lia.
    + cbn. repeat split; qdecide.
  - apply (rsi_falling_0_flat_undefined (RSI.mk 2 70 30) flat_5555).
    + cbn. lia.
    + cbn. lia.
    + cbn. repeat split; qdecide.
Defined.

(** X28.  With sane thresholds ([0 < oversold] and [overbought < 100])
    the strength [RSI.get_signal] reports is a number in [0, 1], on every
    frame and for every period; and a signal is only ever given with a
    defined RSI, which then lies in [0, 100]. *)
Theorem rsi_signal_strength_range (self : RSI.t) (data : DataFrame) :
  0 < RSI.oversold self ->
  RSI.overbought self < 100 ->
  (exists s,
      ir_strength (RSI.get_signal self data) = Fin s /\ 0 <= s <= 1) /\
  (ir_signal (RSI.get_signal self data) <> None ->
   exists v,
     ir_value (RSI.get_signal self data) = Fin v /\ 0 <= v <= 100).
Proof.
  intros Hos Hob. unfold RSI.get_signal.
  destruct (negb (validate_data data (RSI.period self + 1))).
  { cbn. split; [exists 0; split; [reflexivity|lra]|].
    intros Hc. contradiction. }
  cbv zeta.
  assert (Hr : within_0_100
                 (iloc_last (RSI._calculate_rsi self (ensure_series data))))
    by (apply iloc_last_range; [apply calculate_rsi_range|apply nan_within]).
  destruct (iloc_last (RSI._calculate_rsi self (ensure_series data)))
    as [v| | |]; destruct Hr as [Hhi Hlo]; cbn in Hhi, Hlo;
    try discriminate.
  - unfold fgt in Hhi. cbn in Hhi.
    apply Qltb_false in Hhi. apply Qltb_false in Hlo.
    cbn [fle fge].
    destruct (Qleb v (RSI.oversold self)) eqn:Hbuy.
    + apply Qleb_true in Hbuy. cbn [ir_strength ir_signal ir_value].
      split; [|intros _; exists v; split; [reflexivity|lra]].
      cbn [fsub fneg fadd fdiv].
      assert (Hz : Qeqb (RSI.oversold self) 0 = false)
        by (apply Qeqb_false; lra).
      rewrite Hz. unfold fmin. cbn [flt].
      set (s := (RSI.oversold self + - v) / RSI.oversold self).
      assert (Hs0 : 0 <= s) by (apply Qdiv_nonneg; lra).
      assert (Hs1 : s <= 1)
        by (apply Qle_shift_div_r; [exact Hos|lra]).
      destruct (Qltb 1 s) eqn:Hc.
      * exists 1. split; [reflexivity|lra].
      * exists s. split; [reflexivity|lra].
    + destruct (Qleb (RSI.overbought self) v) eqn:Hsell.
      * apply Qleb_true in Hsell. cbn [ir_strength ir_signal ir_value].
        split; [|intros _; exists v; split; [reflexivity|lra]].
        cbn [fsub fneg fadd fdiv].
        assert (Hz : Qeqb (100 - RSI.overbought self) 0 = false)
          by (apply Qeqb_false; lra).
        rewrite Hz. unfold fmin. cbn [flt].
        set (s := (v + - RSI.overbought self) / (100 - RSI.overbought self)).
        assert (Hs0 : 0 <= s) by (apply Qdiv_nonneg; lra).
        assert (Hs1 : s <= 1)
          by (apply Qle_shift_div_r; [lra|lra]).
        destruct (Qltb 1 s) eqn:Hc.
        -- exists 1. split; [reflexivity|lra].
        -- exists s. split; [reflexivity|lra].
      * cbn. split; [exists 0; split; [reflexivity|lra]|].
        intros Hc. contradiction.
  - cbn. split; [exists 0; split; [reflexivity|lra]|].
    intros Hc. contradiction.
Qed.

Lemma rsi_signal_strength_range_witness :
  exists s,
    ir_strength (RSI.get_signal (RSI.mk 2 70 30) (frame_of falling_4321))
      = Fin s /\
    0 <= s <= 1.
Proof.
  apply (rsi_signal_strength_range (RSI.mk 2 70 30) (frame_of falling_4321));
    qdecide.
Defined.

(** ** Exponential averages *)

Lemma inject_nat_ge_1 (n : nat) : (1 <= n)%nat -> 1 <= inject_Z (Z.of_nat n).
Proof. intros Hn. unfold Qle, inject_Z. cbn [Qnum Qden]. lia. Qed.

Lemma alpha_spec (span : nat) :
  (1 <= span)%nat ->
  Ewm.alpha span * (inject_Z (Z.of_nat span) + 1) == 2 /\
  0 < Ewm.alpha span /\ Ewm.alpha span <= 1.
Proof.
  intros Hs. pose proof (inject_nat_ge_1 span Hs) as Hn.
  unfold Ewm.alpha.
  set (n := inject_Z (Z.of_nat span)) in *.
  assert (Hmul : 2 / (n + 1) * (n + 1) == 2) by (field; lra).
  split; [exact Hmul|]. split.
  - apply Qlt_shift_div_l; lra.
  - apply Qle_shift_div_r; lra.
Qed.

Lemma alpha_mono (fast slow : nat) :
  (1 <= fast)%nat -> (fast < slow)%nat ->
  Ewm.alpha slow < Ewm.alpha fast.
Proof.
  intros Hf Hfs.
  destruct (alpha_spec fast Hf) as (Hmf & Hf0 & _).
  destruct (alpha_spec slow ltac:(lia)) as (Hms & Hs0 & _).
  assert (Hlt : inject_Z (Z.of_nat fast) < inject_Z (Z.of_nat slow))
    by (unfold Qlt, inject_Z; cbn [Qnum Qden]; lia).
  pose proof (inject_nat_ge_1 fast Hf) as Hn.
  set (nf := inject_Z (Z.of_nat fast)) in *.
  set (ns := inject_Z (Z.of_nat slow)) in *.
  set (af := Ewm.alpha fast) in *. set (as_ := Ewm.alpha slow) in *.
  nra.
Qed.

Lemma mean_from_length (a prev : Q) (s : list Q) :
  length (Ewm.mean_from a prev s) = length s.
Proof.
  revert prev. induction s as [|x r IH]; intros prev; cbn;
    [reflexivity|]. rewrite IH. reflexivity.
Qed.

Lemma mean_from_bounds (a lo hi prev : Q) (s : list Q) :
  0 <= a -> a <= 1 -> lo <= prev <= hi ->
  Forall (fun x => lo <= x <= hi) s ->
  Forall (fun y => lo <= y <= hi) (Ewm.mean_from a prev s).
Proof.
  intros Ha0 Ha1 Hprev Hs. revert prev Hprev.
  induction Hs as [|x r Hx Hr IH]; intros prev Hprev; cbn; constructor.
  - split; nra.
  - apply IH. split; nra.
Qed.

Lemma iloc_back_last (s : list Q) (P : Q -> Prop) :
  s <> [] -> Forall P s -> exists v, iloc_back s 0 = Ok v /\ P v.
Proof.
  intros Hne Hs. unfold iloc_back.
  destruct (rev s) as [|v r] eqn:Hr.
  - exfalso. apply Hne. rewrite <- (rev_involutive s), Hr. reflexivity.
  - exists v. split; [reflexivity|].
    apply (proj1 (Forall_forall P s) Hs). apply in_rev. rewrite Hr.
    left. reflexivity.
Qed.

(** X29.  The exponential average stays within the prices.  For a period
    of at least 1 the EMA series has one value for each close, and
    whatever bounds hold of every close hold of every EMA value; so on
    closes that are all positive [calculate] reports a positive number.
    With period 0 every frame passes the length guard and the
    smoothing itself is refused: [calculate] and [get_signal] raise. *)
Theorem ema_within_closes (self : EMA.t) (data : DataFrame) (lo hi : Q) :
  ((1 <= EMA.period self)%nat ->
   Forall (fun x => lo <= x <= hi) (ensure_series data) ->
   exists ema,
     EMA.get_series self data = Ok ema /\
     length ema = length data /\
     Forall (fun y => lo <= y <= hi) ema /\
     ((EMA.period self <= length data)%nat ->
      exists v,
        EMA.calculate self data =
          Ok (mkIndicatorResult (EMA.name self) (Fin v) None (Fin 0)) /\
        lo <= v <= hi)) /\
  (EMA.period self = 0%nat ->
   EMA.calculate self data =
     Raise (OtherError "span must satisfy: span >= 1") /\
   EMA.get_signal self data =
     Raise (OtherError "span must satisfy: span >= 1")).
Proof.
  split.
  - intros Hp Hb. unfold EMA.get_series, EMA.calculate, Ewm.mean.
    destruct (Nat.ltb_spec (EMA.period self) 1) as [Hlt|_]; [lia|].
    destruct (alpha_spec (EMA.period self) Hp) as (_ & Ha0 & Ha1).
    assert (Hlen : length (ensure_series data) = length data)
      by (unfold ensure_series; apply length_map).
    set (ema := match ensure_series data with
                | [] => []
                | x :: r => x :: Ewm.mean_from (Ewm.alpha (EMA.period self)) x r
                end).
    assert (Hel : length ema = length data).
    { unfold ema. rewrite <- Hlen.
      destruct (ensure_series data) as [|x r]; cbn; [reflexivity|].
      rewrite mean_from_length. reflexivity. }
    assert (Heb : Forall (fun y => lo <= y <= hi) ema).
    { unfold ema. destruct (ensure_series data) as [|x r]; [constructor|].
      inversion Hb as [|? ? Hx Hr]; subst. constructor; [exact Hx|].
      apply mean_from_bounds; [lra|exact Ha1|exact Hx|exact Hr]. }
    exists ema. split; [reflexivity|]. split; [exact Hel|].
    split; [exact Heb|]. intros Hvalid.
    assert (Hv : validate_data data (EMA.period self) = true).
    { unfold validate_data. apply Bool.negb_true_iff, Nat.ltb_ge.
      exact Hvalid. }
    rewrite Hv. cbn [negb].
    destruct (iloc_back_last ema (fun y => lo <= y <= hi)) as (v & Hlast & Hvb).
    + intros Hnil. rewrite Hnil in Hel. cbn in Hel. lia.
    + exact Heb.
    + rewrite Hlast. exists v. split; [reflexivity|exact Hvb].
  - intros Hp. unfold EMA.calculate, EMA.get_signal, validate_data, Ewm.mean.
    rewrite Hp. cbn. split; reflexivity.
Qed.

Lemma ema_within_closes_witness :
  exists ema,
    EMA.get_series (EMA.mk 2) (frame_of rising_1234) = Ok ema /\
    length ema = length (frame_of rising_1234) /\
    Forall (fun y => 1 <= y <= 4) ema /\
    ((EMA.period (EMA.mk 2) <= length (frame_of rising_1234))%nat ->
     exists v,
       EMA.calculate (EMA.mk 2) (frame_of rising_1234) =
         Ok (mkIndicatorResult (EMA.name (EMA.mk 2)) (Fin v) None (Fin 0)) /\
       1 <= v <= 4).
Proof.
  apply (proj1 (ema_within_closes (EMA.mk 2) (frame_of rising_1234) 1 4)).
  - cbn. lia.
  - cbn. repeat constructor; qdecide.
Defined.

(** ** The MACD *)

Lemma series_sub_length (a b : list Q) :
  length a = length b -> length (series_sub a b) = length a.
Proof.
  revert b. induction a as [|x r IH]; intros [|y s] Hl; cbn in *;
    try reflexivity; try discriminate.
  rewrite IH by lia. reflexivity.
Qed.

(** Along a rising series the faster average runs ahead of the slower
    one and stays below the price. *)
Lemma mean_from_rising (af as_ yf ys prev : Q) (s : list Q) :
  0 < as_ -> as_ < af -> af <= 1 ->
  ys <= yf -> yf <= prev ->
  strictly_rising_from prev s ->
  Forall (fun d => 0 < d)
    (series_sub (Ewm.mean_from af yf s) (Ewm.mean_from as_ ys s)).
Proof.
  intros Has Hsf Haf. revert yf ys prev.
  induction s as [|x r IH]; intros yf ys prev Hyy Hyp Hr; cbn;
    [constructor|].
  destruct Hr as [Hx Hr]. constructor.
  - assert (Hid : (1 - af) * yf + af * x - ((1 - as_) * ys + as_ * x) ==
                  (1 - af) * (yf - ys) + (af - as_) * (x - ys)) by ring.
    rewrite Hid. nra.
  - apply (IH _ _ x); [| |exact Hr].
    + assert (Hid : (1 - af) * yf + af * x - ((1 - as_) * ys + as_ * x) ==
                    (1 - af) * (yf - ys) + (af - as_) * (x - ys)) by ring.
      nra.
    + nra.
Qed.

Lemma mean_from_falling (af as_ yf ys prev : Q) (s : list Q) :
  0 < as_ -> as_ < af -> af <= 1 ->
  yf <= ys -> prev <= yf ->
  strictly_falling_from prev s ->
  Forall (fun d => d < 0)
    (series_sub (Ewm.mean_from af yf s) (Ewm.mean_from as_ ys s)).
Proof.
  intros Has Hsf Haf. revert yf ys prev.
  induction s as [|x r IH]; intros yf ys prev Hyy Hyp Hr; cbn;
    [constructor|].
  destruct Hr as [Hx Hr]. constructor.
  - assert (Hid : (1 - af) * yf + af * x - ((1 - as_) * ys + as_ * x) ==
                  (1 - af) * (yf - ys) + (af - as_) * (x - ys)) by ring.
    rewrite Hid. nra.
  - apply (IH _ _ x); [| |exact Hr].
    + assert (Hid : (1 - af) * yf + af * x - ((1 - as_) * ys + as_ * x) ==
                    (1 - af) * (yf - ys) + (af - as_) * (x - ys)) by ring.
      nra.
    + nra.
Qed.

Lemma iloc_back_tail (x : Q) (r : list Q) (P : Q -> Prop) :
  r <> [] -> Forall P r ->
  exists v, iloc_back (x :: r) 0 = Ok v /\ P v.
Proof.
  intros Hne Hr. unfold iloc_back. cbn [rev].
  destruct (rev r) as [|v t] eqn:Hrev.
  - exfalso. apply Hne. rewrite <- (rev_involutive r), Hrev. reflexivity.
  - exists v. split; [reflexivity|].
    apply (proj1 (Forall_forall P r) Hr). apply in_rev. rewrite Hrev.
    left. reflexivity.
Qed.

(** X30.  The sign of the MACD follows the trend.  With periods
    [1 <= fast < slow] and a signal period of at least 1, the three
    series are computed for every close series and have its length; on
    a strictly rising series of at least two closes the last MACD value
    is positive, and on a strictly falling one it is negative. *)
Theorem macd_sign_follows_trend (self : MACD.t) (close : list Q) :
  (1 <= MACD.fast_period self)%nat ->
  (MACD.fast_period self < MACD.slow_period self)%nat ->
  (1 <= MACD.signal_period self)%nat ->
  exists macd signal_line histogram,
    MACD._calculate_macd self close = Ok (macd, signal_line, histogram) /\
    length macd = length close /\
    length signal_line = length close /\
    length histogram = length close /\
    ((2 <= length close)%nat -> strictly_rising close ->
     exists m, iloc_back macd 0 = Ok m /\ 0 < m) /\
    ((2 <= length close)%nat -> strictly_falling close ->
     exists m, iloc_back macd 0 = Ok m /\ m < 0).
Proof.
  intros Hf Hfs Hsig. unfold MACD._calculate_macd, Ewm.mean.
  destruct (Nat.ltb_spec (MACD.fast_period self) 1) as [Hlt|_]; [lia|].
  destruct (Nat.ltb_spec (MACD.slow_period self) 1) as [Hlt|_]; [lia|].
  destruct (Nat.ltb_spec (MACD.signal_period self) 1) as [Hlt|_]; [lia|].
  destruct (alpha_spec (MACD.fast_period self) Hf) as (_ & Haf0 & Haf1).
  destruct (alpha_spec (MACD.slow_period self) ltac:(lia))
    as (_ & Has0 & Has1).
  pose proof (alpha_mono _ _ Hf Hfs) as Hmono.
  set (af := Ewm.alpha (MACD.fast_period self)) in *.
  set (as_ := Ewm.alpha (MACD.slow_period self)) in *.
  set (ag := Ewm.alpha (MACD.signal_period self)).
  cbv zeta.
  destruct close as [|x r].
  - cbn. eexists. eexists. eexists. split; [reflexivity|].
    cbn. repeat split; intros; lia.
  - cbn [series_sub].
    set (tailm := series_sub (Ewm.mean_from af x r) (Ewm.mean_from as_ x r)).
    assert (Htl : length tailm = length r).
    { unfold tailm. rewrite series_sub_length;
        rewrite !mean_from_length; reflexivity. }
    eexists. eexists. eexists. split; [reflexivity|].
    cbn [length].
    split; [rewrite Htl; reflexivity|].
    split; [rewrite mean_from_length, Htl; reflexivity|].
    split.
    { cbn [series_sub length]. rewrite series_sub_length;
        rewrite ?mean_from_length, ?Htl; reflexivity. }
    split.
    + intros Hlen Hr. cbn [strictly_rising] in Hr.
      apply (iloc_back_tail (x - x) tailm (fun d => 0 < d)).
      * intros Hnil. rewrite Hnil in Htl. cbn in Htl. cbn in Hlen. lia.
      * unfold tailm. apply (mean_from_rising af as_ x x x r); try lra.
        exact Hr.
    + intros Hlen Hr. cbn [strictly_falling] in Hr.
      apply (iloc_back_tail (x - x) tailm (fun d => d < 0)).
      * intros Hnil. rewrite Hnil in Htl. cbn in Htl. cbn in Hlen. lia.
      * unfold tailm. apply (mean_from_falling af as_ x x x r); try lra.
        exact Hr.
Qed.

Lemma macd_sign_follows_trend_witness :
  exists macd signal_line histogram,
    MACD._calculate_macd (MACD.mk 2 3 2) rising_1234 =
      Ok (macd, signal_line, histogram) /\
    length macd = length rising_1234 /\
    length signal_line = length rising_1234 /\
    length histogram = length rising_1234 /\
    ((2 <= length rising_1234)%nat -> strictly_rising rising_1234 ->
     exists m, iloc_back macd 0 = Ok m /\ 0 < m) /\
    ((2 <= length rising_1234)%nat -> strictly_falling rising_1234 ->
     exists m, iloc_back macd 0 = Ok m /\ m < 0).
Proof.
  apply (macd_sign_follows_trend (MACD.mk 2 3 2) rising_1234); cbn; lia.
Defined.
